(** * The ad-composition pipeline of [app.py]

    A shallow embedding of [InstagramAdGenerator] (palette derivation, prompt
    composition, the model-selection protocol around the generative backend,
    response validation, the text-overlay renderer, the analysis of the
    reference images and of the product), of [MercadoLibreScraper] and of the
    endpoint [/generate-ad], together with the properties of the pipeline
    that the specification states and further properties of the code. *)

From Stdlib Require Import ZArith QArith.
From stdpp Require Import gmap strings list pretty.

Local Open Scope Z_scope.

(** ** Python values *)

(** A Python [str] is a sequence of Unicode code points, a [bytes] object a
    sequence of bytes, an [int] an unbounded integer. *)
Definition str := list N.
Definition bytes := list Byte.byte.

(** An ASCII literal of the source, as a [str]. *)
Definition lit (s : string) : str :=
  (fun a => Ascii.N_of_ascii a) <$> String.list_ascii_of_string s.

Definition nl : str := [10%N].

(** The exceptions the modelled code can see. *)
Inductive exn :=
| KeyError (key : string)
| IndexError
| ValueError
| BackendError (msg : str)
| DecodeError
| PILError (msg : str).

(** A computation that returns or raises. *)
Inductive Exc (A : Type) :=
| Return (a : A)
| Raise (e : exn).
Arguments Return {A} a.
Arguments Raise {A} e.

#[global] Instance Exc_ret : MRet Exc := fun _ a => Return a.
#[global] Instance Exc_bind : MBind Exc := fun _ _ f m =>
  match m with
  | Return a => f a
  | Raise e => Raise e
  end.

(** [try: m except Exception: h]. *)
Definition try_except {A} (m : Exc A) (h : exn → Exc A) : Exc A :=
  match m with
  | Return a => Return a
  | Raise e => h e
  end.

(** [str.isspace] on one code point: the Unicode white space of CPython. *)
Definition isspace (c : N) : bool :=
  ((9 <=? c) && (c <=? 13) || (28 <=? c) && (c <=? 32)
   || (c =? 133) || (c =? 160) || (c =? 5760)
   || (8192 <=? c) && (c <=? 8202)
   || (c =? 8232) || (c =? 8233) || (c =? 8239) || (c =? 8287)
   || (c =? 12288))%N.

Fixpoint lstrip (s : str) : str :=
  match s with
  | c :: s' => if isspace c then lstrip s' else s
  | [] => []
  end.

Definition rstrip (s : str) : str := reverse (lstrip (reverse s)).

(** [s.strip()] *)
Definition strip (s : str) : str := lstrip (rstrip s).

(** [s.split()]: the maximal runs of characters that are not white space.
    [cur] holds the run being read, last character first. *)
Fixpoint split_from (cur : str) (s : str) : list str :=
  match s with
  | [] => match cur with [] => [] | _ => [reverse cur] end
  | c :: s' =>
      if isspace c then
        match cur with
        | [] => split_from [] s'
        | _ => reverse cur :: split_from [] s'
        end
      else split_from (c :: cur) s'
  end.

Definition split (s : str) : list str := split_from [] s.

(** The slice [s[i:j]] for [0 <= i <= j]. *)
Definition slice (i j : nat) (s : str) : str := take (j - i)%nat (drop i s).

(** Truth value of a [str]: the empty string is false. *)
Definition truthy (s : str) : bool :=
  match s with [] => false | _ => true end.

(** ** Hexadecimal colours *)

Definition hex_digit (d : Z) : N :=
  if d <? 10 then Z.to_N (48 + d) else Z.to_N (87 + d).

Fixpoint to_hex_fuel (fuel : nat) (n : Z) (acc : str) : str :=
  match fuel with
  | O => acc
  | S fuel' =>
      let acc' := hex_digit (n mod 16) :: acc in
      if n / 16 =? 0 then acc' else to_hex_fuel fuel' (n / 16) acc'
  end.

(** The lower-case hexadecimal digits of [n >= 0]. *)
Definition to_hex (n : Z) : str :=
  to_hex_fuel (S (Z.to_nat (Z.log2 n))) n [].

(** ['{:02x}'.format(x)]: sign first, then zeros up to a width of two. *)
Definition format_02x (x : Z) : str :=
  if x <? 0 then
    lit "-" ++ to_hex (- x)
  else
    let ds := to_hex x in
    replicate (2 - length ds) 48%N ++ ds.

Definition hex_val (c : N) : option Z :=
  if ((48 <=? c) && (c <=? 57))%N then Some (Z.of_N c - 48)
  else if ((97 <=? c) && (c <=? 102))%N then Some (Z.of_N c - 87)
  else if ((65 <=? c) && (c <=? 70))%N then Some (Z.of_N c - 55)
  else None.

(** The white space [int] skips: that of [Py_ISSPACE], on ASCII. *)
Definition ascii_isspace (c : N) : bool :=
  ((9 <=? c) && (c <=? 13) || (c =? 32))%N.

(** The digits zero of the decimal digits outside ASCII (Unicode 14.0, the
    database of CPython 3.11); each is followed by its digits one to nine. *)
Definition DECIMAL_ZEROS : list N :=
  [1632; 1776; 1984; 2406; 2534; 2662; 2790; 2918; 3046; 3174; 3302; 3430; 3558; 3664;
    3792; 3872; 4160; 4240; 6112; 6160; 6470; 6608; 6784; 6800; 6992; 7088; 7232; 7248;
    42528; 43216; 43264; 43472; 43504; 43600; 44016; 65296; 66720; 68912; 69734; 69872;
    69942; 70096; 70384; 70736; 70864; 71248; 71360; 71472; 71904; 72016; 72784; 73040;
    73120; 92768; 92864; 93008; 120782; 120792; 120802; 120812; 120822; 123200; 123632;
    125264; 130032 ]%N.

(** [Py_UNICODE_TODECIMAL] on a code point outside ASCII. *)
Definition to_decimal (c : N) : option N :=
  (fun zero => c - zero)%N <$>
    List.find (fun zero => (zero <=? c) && (c <? zero + 10))%N DECIMAL_ZEROS.

(** What [int] makes of a character before it parses the text: a character
    below 127 is kept, white space outside ASCII becomes a space, a decimal
    digit of another script the ASCII digit of its value, and anything else
    a question mark. *)
Definition to_ascii (c : N) : N :=
  if (c <? 127)%N then c
  else if isspace c then 32%N
  else match to_decimal c with
       | Some d => (48 + d)%N
       | None => 63%N
       end.

Fixpoint skip_spaces (s : str) : str :=
  match s with
  | c :: s' => if ascii_isspace c then skip_spaces s' else s
  | [] => []
  end.

(** The scan over the digits of a base-16 literal, in which single
    underscores may separate digits: the value read and the text left.
    [prev_underscore] tells whether the character before was an underscore;
    two in a row, or one at the end of the digits, are an error. *)
Fixpoint scan_hex (acc : Z) (prev_underscore : bool) (s : str) : option (Z * str) :=
  match s with
  | [] => if prev_underscore then None else Some (acc, [])
  | c :: s' =>
      if (c =? 95)%N then
        if prev_underscore then None else scan_hex acc true s'
      else
        match hex_val c with
        | Some d => scan_hex (16 * acc + d) false s'
        | None => if prev_underscore then None else Some (acc, s)
        end
  end.

(** An optional sign; [true] for a minus. *)
Definition read_sign (text : str) : bool * str :=
  match text with
  | c :: text' =>
      if (c =? 43)%N then (false, text')
      else if (c =? 45)%N then (true, text')
      else (false, text)
  | [] => (false, text)
  end.

(** An optional prefix [0x] or [0X], and one underscore after it. *)
Definition skip_prefix (text : str) : str :=
  match text with
  | c :: x :: text' =>
      if ((c =? 48) && ((x =? 120) || (x =? 88)))%N
      then match text' with
           | u :: text'' => if (u =? 95)%N then text'' else text'
           | [] => text'
           end
      else text
  | _ => text
  end.

(** [int(s, 16)], as [PyLong_FromUnicodeObject] and [PyLong_FromString] read
    it: the characters are brought to ASCII, leading white space is skipped,
    then come an optional sign, an optional prefix, at least one digit (the
    digits may not begin with an underscore), and trailing white space up to
    the end of the text. *)
Definition int16 (s : str) : Exc Z :=
  let text := skip_spaces (to_ascii <$> s) in
  let '(negative, text) := read_sign text in
  let text := skip_prefix text in
  if match text with
     | c :: _ => (c =? 95)%N
     | [] => false
     end
  then Raise ValueError
  else
    match scan_hex 0 false text with
    | Some (value, rest) =>
        if bool_decide (length rest = length text) then Raise ValueError
        else match skip_spaces rest with
             | [] => Return (if negative then - value else value)
             | _ => Raise ValueError
             end
    | None => Raise ValueError
    end.

Definition rgb := (Z * Z * Z)%type.

(** [hex_to_rgb], the local function of [generate_color_palette]. *)
Definition hex_to_rgb (hex_color : str) : Exc rgb :=
  r ← int16 (slice 1 3 hex_color);
  g ← int16 (slice 3 5 hex_color);
  b ← int16 (slice 5 7 hex_color);
  mret (r, g, b).

(** [rgb_to_hex], the other local function. *)
Definition rgb_to_hex (c : rgb) : str :=
  let '(r, g, b) := c in
  lit "#" ++ format_02x r ++ format_02x g ++ format_02x b.

Record ColorPalette := {
  primary : str;
  light : str;
  dark : str;
  complement : str;
  neutral : str
}.

Definition fallback_palette : ColorPalette := {|
  primary := lit "#4a90e2";
  light := lit "#87ceeb";
  dark := lit "#2c5aa0";
  complement := lit "#e24a4a";
  neutral := lit "#f8f9fa"
|}.

(** [dominant_colors[0]] *)
Definition first_color (dominant_colors : list str) : Exc str :=
  match dominant_colors with
  | c :: _ => Return c
  | [] => Raise IndexError
  end.

Definition generate_color_palette (dominant_colors : list str) : ColorPalette :=
  let body :=
    main_color ← first_color dominant_colors;
    main_rgb ← hex_to_rgb main_color;
    let '(r, g, b) := main_rgb in
    mret {|
      primary := main_color;
      light := rgb_to_hex (Z.min 255 (r + 60), Z.min 255 (g + 60), Z.min 255 (b + 60));
      dark := rgb_to_hex (Z.max 0 (r - 40), Z.max 0 (g - 40), Z.max 0 (b - 40));
      complement := rgb_to_hex (255 - r, 255 - g, 255 - b);
      neutral := lit "#f8f9fa"
    |} in
  match body with
  | Return palette => palette
  | Raise _ => fallback_palette
  end.

(** ** Product data and prompt composition *)

(** The scraped product record, a [dict] from field names to text. *)
Abbreviation ProductData := (gmap string str).

(** [d[key]] *)
Definition getitem (d : ProductData) (key : string) : Exc str :=
  match d !! key with
  | Some v => Return v
  | None => Raise (KeyError key)
  end.

(** [d.get(key, dflt)] *)
Definition dict_get (d : ProductData) (key : string) (dflt : str) : str :=
  default dflt (d !! key).

(** A triple-quoted literal whose lines all carry the indentation [ind] of
    the source: a newline, the indented lines, and the indentation before
    the closing quotes. *)
Definition block (ind : str) (lines : list str) : str :=
  nl ++ concat ((fun l => ind ++ l ++ nl) <$> lines) ++ ind.

Definition ind16 : str := replicate 16 32%N.
Definition ind20 : str := replicate 20 32%N.

(** *** Mode 1: clean image for the programmatic overlay *)

Definition clean_full (title description style : str) : str :=
  strip (block ind16 [
    lit "Professional studio photograph of " ++ title ++ lit ". ";
    [];
    lit "IMPORTANT: The product must match this exact description: "
      ++ slice 0 350 description;
    [];
    lit "Requirements:";
    lit "- Same product as described above with identical visual characteristics";
    lit "- " ++ style;
    lit "- Product prominently featured and well-lit in center";
    lit "- Professional studio lighting with soft shadows";
    lit "- High quality product photography";
    lit "- Square format (1:1 ratio)";
    lit "- Instagram-ready composition";
    lit "- No text or watermarks on the image";
    lit "- Sophisticated and modern aesthetic";
    lit "- Clean, professional look suitable for advertising" ]).

Definition clean_described (title description : str) : str :=
  strip (block ind16 [
    lit "Professional studio photograph of " ++ title ++ lit ". ";
    [];
    lit "IMPORTANT: The product must match this exact description: "
      ++ slice 0 400 description;
    [];
    lit "Requirements:";
    lit "- Same product as described above with identical visual characteristics";
    lit "- Stylish gradient background with colors matching the product";
    lit "- Product prominently featured and well-lit";
    lit "- Professional studio lighting";
    lit "- High quality product photography";
    lit "- Square format (1:1 ratio)";
    lit "- No text or watermarks" ]).

Definition clean_generic (title : str) : str :=
  strip (block ind16 [
    lit "Professional studio photograph of " ++ title ++ lit ". ";
    lit "Modern gradient background with colors that complement the product.";
    lit "Product prominently featured with professional lighting.";
    lit "Square format. High quality. Instagram-ready composition.";
    lit "No text on the image." ]).

(** *** Mode 2: text rendered by the model *)

(** The two prompts of the first [if]/[else] of mode 2. *)
Definition baked_first_full (title price description style : str) : str :=
  strip (block ind16 [
    lit "Create a professional Instagram advertisement image (1080x1080) for "
      ++ title ++ lit ".";
    [];
    lit "Product details: " ++ slice 0 300 description;
    lit "Price: " ++ price;
    [];
    lit "Requirements:";
    lit "- Show the exact product as described above";
    lit "- " ++ style;
    lit "- Include Spanish advertising text on the image";
    lit "- Add the price: " ++ price;
    lit "- Include an attractive Spanish call-to-action";
    lit "- Use professional Instagram ad design";
    lit "- Modern, eye-catching layout";
    lit "- High quality and visually appealing";
    lit "- Square format (1:1 ratio)";
    lit "- All text must be in perfect Spanish" ]).

Definition baked_first_generic (title price : str) : str :=
  strip (block ind16 [
    lit "Create a professional Instagram advertisement image (1080x1080) for "
      ++ title ++ lit ".";
    lit "Price: " ++ price;
    [];
    lit "Requirements:";
    lit "- Professional product photography with stylish background";
    lit "- Include Spanish advertising text on the image";
    lit "- Add the price: " ++ price;
    lit "- Include an attractive Spanish call-to-action";
    lit "- Use professional Instagram ad design";
    lit "- Modern, eye-catching layout";
    lit "- High quality and visually appealing";
    lit "- Square format (1:1 ratio)";
    lit "- All text must be in perfect Spanish" ]).

(** The two prompts of the second [if]/[else] of mode 2, which assigns
    [generation_prompt] again. *)
Definition baked_described (title price description style : str) : str :=
  strip (block ind16 [
    lit "Create a professional Instagram advertisement image (1080x1080) for "
      ++ title ++ lit ".";
    [];
    lit "Product details: " ++ slice 0 250 description;
    lit "Price: " ++ price;
    [];
    lit "Design Requirements:";
    lit "- Show the exact product as described above";
    lit "- Beautiful " ++ style ++ lit " behind the product";
    lit "- Include Spanish advertising text on the image";
    lit "- Add the price: " ++ price;
    lit "- Include an attractive Spanish call-to-action";
    lit "- Professional Instagram ad design with modern typography";
    lit "- High quality and visually appealing";
    lit "- Square format (1:1 ratio)";
    lit "- All text must be in perfect Spanish";
    lit "- Sophisticated color scheme that complements the product" ]).

Definition baked_generic (title price style : str) : str :=
  strip (block ind16 [
    lit "Create a professional Instagram advertisement image (1080x1080) for "
      ++ title ++ lit ".";
    lit "Price: " ++ price;
    [];
    lit "Design Requirements:";
    lit "- Professional product photography";
    lit "- Beautiful " ++ style ++ lit " behind the product";
    lit "- Include Spanish advertising text on the image";
    lit "- Add the price: " ++ price;
    lit "- Include an attractive Spanish call-to-action";
    lit "- Professional Instagram ad design with modern typography";
    lit "- High quality and visually appealing";
    lit "- Square format (1:1 ratio)";
    lit "- All text must be in perfect Spanish";
    lit "- Sophisticated and modern aesthetic" ]).

(** The prompt the fallback model receives: no price, no call to action, no
    request for text. *)
Definition fallback_prompt (product_data : ProductData)
    (combined_image_description background_style : str) : str :=
  strip (block ind20 [
    lit "Professional studio photograph of "
      ++ dict_get product_data "title" [] ++ lit ".";
    [];
    (if truthy combined_image_description
     then lit "Product details: " ++ slice 0 300 combined_image_description
     else []);
    [];
    lit "Requirements:";
    lit "- Show the exact product as described";
    lit "- " ++ (if truthy background_style then background_style
                 else lit "Professional gradient background");
    lit "- Product prominently featured and well-lit";
    lit "- Professional studio lighting with soft shadows";
    lit "- High quality product photography";
    lit "- Square format (1:1 ratio)";
    lit "- Instagram-ready composition";
    lit "- Clean, professional look suitable for advertising";
    lit "- No text or watermarks on the image (text will be added separately)" ]).

(** The statements of [generate_instagram_ad] that build [generation_prompt],
    from the combined description of the reference images and the background
    style computed before them. Mode 1 reads [product_data['title']], which
    raises when the record has no title; mode 2 uses [get]. *)
Definition compose_prompt (product_data : ProductData)
    (combined_image_description background_style : str)
    (use_text_overlay : bool) : Exc str :=
  if use_text_overlay then
    if truthy combined_image_description && truthy background_style then
      title ← getitem product_data "title";
      mret (clean_full title combined_image_description background_style)
    else if truthy combined_image_description then
      title ← getitem product_data "title";
      mret (clean_described title combined_image_description)
    else
      title ← getitem product_data "title";
      mret (clean_generic title)
  else
    let title := dict_get product_data "title" [] in
    let price := dict_get product_data "price" [] in
    let generation_prompt :=
      if truthy combined_image_description && truthy background_style then
        baked_first_full title price combined_image_description background_style
      else
        baked_first_generic title price in
    let title := dict_get product_data "title" [] in
    let price := dict_get product_data "price" [] in
    let generation_prompt :=
      if truthy combined_image_description then
        baked_described title price combined_image_description background_style
      else
        baked_generic title price background_style in
    mret generation_prompt.

Definition silla : ProductData :=
  <["title" := lit "Silla de Oficina"]> (<["price" := lit "45.999"]> ∅).

(** ** The imaging library

    [add_text_overlay] works through Pillow. Its operations are taken as an
    interface: an operation that can raise returns in [Exc], and an operation
    that draws on an image in place returns the image drawn on. *)

Inductive Color :=
| RGBA (r g b a : Z)
| Named (name : string).

Definition Box := (Z * Z * Z * Z)%type.

Class PIL := {
  Image : Type;
  Font : Type;
  (** [Image.open(BytesIO(data))] *)
  Image_open : bytes → Exc Image;
  (** [img.mode == 'RGB'] *)
  mode_is_RGB : Image → bool;
  (** [img.convert(mode)] *)
  convert : string → Image → Exc Image;
  (** [ImageFont.truetype(path, size)] *)
  truetype : string → Z → Exc Font;
  (** [ImageFont.load_default()] *)
  load_default : Exc Font;
  (** [img.size] *)
  img_size : Image → Z * Z;
  (** [Image.new('RGBA', size, (0, 0, 0, 0))] *)
  Image_new_RGBA : Z * Z → Exc Image;
  (** [Image.alpha_composite(im1, im2)] *)
  alpha_composite : Image → Image → Exc Image;
  (** [draw.rectangle(box, fill=, outline=, width=)] *)
  draw_rectangle : Image → Box → Color → option Color → Z → Exc Image;
  (** [draw.textbbox((0, 0), s, font=font)] *)
  draw_textbbox : Image → str → Font → Box;
  (** [draw.text(xy, s, font=, fill=, stroke_width=, stroke_fill=)] *)
  draw_text : Image → Z * Z → str → Font → Color → Z → Color → Exc Image;
  (** [img.save(output, format='JPEG', quality=q); output.getvalue()] *)
  save_jpeg : Image → Z → Exc bytes
}.

(** ** The title word-wrap of [add_text_overlay] *)

(** The loop over [words]; [measure s] is the width [bbox[2] - bbox[0]] of
    the text [s] in the title font. *)
Fixpoint wrap_loop (measure : str → Z) (width : Z) (words : list str)
    (lines : list str) (current_line : str) : list str * str :=
  match words with
  | [] => (lines, current_line)
  | word :: words' =>
      let test_line := strip (current_line ++ lit " " ++ word) in
      if measure test_line <=? width - 40 then
        wrap_loop measure width words' lines test_line
      else
        let lines := if truthy current_line then lines ++ [current_line] else lines in
        wrap_loop measure width words' lines word
  end.

Definition wrap_title (measure : str → Z) (width : Z) (title : str) : list str :=
  let words := split title in
  let '(lines, current_line) := wrap_loop measure width words [] [] in
  if truthy current_line then lines ++ [current_line] else lines.

(** [title[:57] + '...'] when the title has more than 60 characters. *)
Definition truncate_title (title : str) : str :=
  if (60 <? length title)%nat then slice 0 57 title ++ lit "..." else title.

(** The lines the renderer draws: [lines[:2]] of the wrapped, truncated title. *)
Definition drawn_title_lines (measure : str → Z) (width : Z) (title : str) : list str :=
  take 2 (wrap_title measure width (truncate_title title)).

(** [for i in range(n)] over a state that each round can raise on. *)
Fixpoint for_each {A S : Type} (xs : list A) (body : A → S → Exc S) (s : S) : Exc S :=
  match xs with
  | [] => Return s
  | x :: xs' => s' ← body x s; for_each xs' body s'
  end.

Definition range (n : nat) : list Z := Z.of_nat <$> seq 0 n.

(** [x in s] for a character [x]. *)
Definition contains_char (x : N) (s : str) : bool := existsb (N.eqb x) s.

Definition JPEG_QUALITY : Z := 95.

Definition DEJAVU_BOLD : string := "/usr/share/fonts/truetype/dejavu/DejaVuSans-Bold.ttf".
Definition DEJAVU : string := "/usr/share/fonts/truetype/dejavu/DejaVuSans.ttf".

(** The call to action and the subtitle; [161] is the inverted exclamation
    mark, [241] and [250] the letters n with tilde and u with acute. *)
Definition CTA : str := [161%N] ++ lit "COMPRA AHORA!".
Definition SUBTITLE : str := lit "Dise" ++ [241%N] ++ lit "o " ++ [250%N] ++ lit "nico y funcional".

Section Overlay.
Context `{lib : PIL}.

Record Fonts := {
  title_font : Font;
  price_font : Font;
  desc_font : Font;
  cta_font : Font
}.

(** The inner [try]/[except] that loads the fonts. *)
Definition load_fonts : Exc Fonts :=
  try_except
    (t ← truetype DEJAVU_BOLD 52;
     p ← truetype DEJAVU_BOLD 95;
     d ← truetype DEJAVU 38;
     c ← truetype DEJAVU_BOLD 48;
     mret {| title_font := t; price_font := p; desc_font := d; cta_font := c |})
    (fun _ =>
     t ← load_default;
     p ← load_default;
     d ← load_default;
     c ← load_default;
     mret {| title_font := t; price_font := p; desc_font := d; cta_font := c |}).

Definition text_width (img : Image) (font : Font) (s : str) : Z :=
  let '(x0, _, x1, _) := draw_textbbox img s font in x1 - x0.

Definition text_height (img : Image) (font : Font) (s : str) : Z :=
  let '(_, y0, _, y1) := draw_textbbox img s font in y1 - y0.

(** The two gradient bands; [int(160 * (140 - i) / 140)] is the integer
    quotient, the operands being small and non-negative. *)
Definition top_band (width : Z) (overlay : Image) : Exc Image :=
  for_each (range 140)
    (fun i ov => draw_rectangle ov (0, i, width, i + 1)
                   (RGBA 0 0 0 (160 * (140 - i) / 140)) None 1)
    overlay.

Definition bottom_band (width height : Z) (overlay : Image) : Exc Image :=
  for_each (range 180)
    (fun i ov => draw_rectangle ov (0, height - 180 + i, width, height - 180 + i + 1)
                   (RGBA 0 0 0 (160 * i / 180)) None 1)
    overlay.

(** The loop that draws [lines[:2]]; the state is the image and [y_offset]. *)
Definition draw_title_lines (font : Font) (lines : list str) (img : Image)
    : Exc (Image * Z) :=
  for_each lines
    (fun line '(img, y_offset) =>
       img' ← draw_text img (20, y_offset) line font (Named "white") 2 (Named "black");
       mret (img', y_offset + 55))
    (img, 25).

(** Everything of the [try] block after the fonts are loaded. *)
Definition render (img : Image) (fonts : Fonts) (product_data : ProductData)
    : Exc bytes :=
  title ← getitem product_data "title";
  let title := truncate_title title in
  price_raw ← getitem product_data "price";
  let price :=
    if contains_char 46 price_raw then lit "$" ++ price_raw
    else lit "$" ++ price_raw in
  let cta := CTA in
  let subtitle := SUBTITLE in
  let '(width, height) := img_size img in
  overlay ← Image_new_RGBA (width, height);
  overlay ← top_band width overlay;
  overlay ← bottom_band width height overlay;
  img ← (rgba ← convert "RGBA" img;
         blended ← alpha_composite rgba overlay;
         convert "RGB" blended);
  let lines := wrap_title (text_width img (title_font fonts)) width title in
  '(img, y_offset) ← draw_title_lines (title_font fonts) (take 2 lines) img;
  img ← draw_text img (20, y_offset + 10) subtitle (desc_font fonts)
          (Named "#E0E0E0") 1 (Named "black");
  img ← draw_text img (20, height - 150) price (price_font fonts)
          (Named "#FFD700") 3 (Named "black");
  let cta_width := text_width img (cta_font fonts) cta in
  let cta_height := text_height img (cta_font fonts) cta in
  let button_padding := 15 in
  let button_x := width - cta_width - 40 - button_padding in
  let button_y := height - 100 - button_padding in
  let button_width := cta_width + button_padding * 2 in
  let button_height := cta_height + button_padding * 2 in
  img ← draw_rectangle img
          (button_x, button_y, button_x + button_width, button_y + button_height)
          (Named "#FF6B35") (Some (Named "white")) 3;
  img ← draw_text img (button_x + button_padding, button_y + button_padding) cta
          (cta_font fonts) (Named "white") 2 (Named "black");
  save_jpeg img JPEG_QUALITY.

(** The body of the outer [try]. *)
Definition add_text_overlay_try (image_data : bytes) (product_data : ProductData)
    : Exc bytes :=
  img ← Image_open image_data;
  img ← (if mode_is_RGB img then mret img else convert "RGB" img);
  fonts ← load_fonts;
  render img fonts product_data.

(** [add_text_overlay]: the [except Exception] branch returns [image_data]. *)
Definition add_text_overlay (image_data : bytes) (product_data : ProductData)
    (ad_concept : str) : bytes :=
  match add_text_overlay_try image_data product_data with
  | Return out => out
  | Raise _ => image_data
  end.
End Overlay.

(** ** The generative backend *)

(** The model constants of the module; a request records the constant its
    call site names. *)
Inductive Model :=
| VISION_MODEL
| TEXT_MODEL
| IMAGE_GENERATION_MODEL
| TEXT_TO_IMAGE_MODEL
| FALLBACK_TEXT_TO_IMAGE_MODEL.

(** The identifier each constant is set to. *)
Definition model_name (m : Model) : str :=
  match m with
  | VISION_MODEL => lit "gemini-1.5-flash"
  | TEXT_MODEL => lit "gemini-1.5-flash"
  | IMAGE_GENERATION_MODEL => lit "gemini-2.0-flash-preview-image-generation"
  | TEXT_TO_IMAGE_MODEL => lit "gemini-2.0-flash-preview-image-generation"
  | FALLBACK_TEXT_TO_IMAGE_MODEL => lit "gemini-2.0-flash-preview-image-generation"
  end.

(** [types.GenerateContentConfig] *)
Record GenerateContentConfig := {
  response_modalities : list string;
  temperature : Q;
  max_output_tokens : Z;
  candidate_count : Z
}.

(** One call [client.models.generate_content(model=, contents=, config=)];
    a bare call has no [config]. *)
Record Request := {
  model : Model;
  contents : str;
  config : option GenerateContentConfig
}.

(** The response: candidates, content, parts, and in a part a text or inline
    data, each of which can be absent ([None]). *)
Inductive InlineBytes :=
| DataStr (s : str)
| DataBytes (b : bytes).

Record Blob := { data : option InlineBytes }.
Record Part := { text : option str; inline_data : option Blob }.
Record Content := { parts : option (list Part) }.
Record Candidate := { content : option Content }.
Record Response := { candidates : option (list Candidate) }.

(** The backend answers a request, given the requests made before it, with a
    response (possibly [None]) or raises. *)
Definition Backend := list Request → Request → Exc (option Response).

(** ** The run of [generate_instagram_ad] *)

(** What the run changes: the requests sent so far and the local variable
    [used_fallback]. *)
Record RunState := {
  calls : list Request;
  used_fallback : bool
}.

(** A statement of the run: it returns or raises, and leaves a state. *)
Definition Run (A : Type) : Type := RunState → Exc A * RunState.

#[global] Instance Run_ret : MRet Run := fun _ a st => (Return a, st).
#[global] Instance Run_bind : MBind Run := fun _ _ f m st =>
  match m st with
  | (Return a, st') => f a st'
  | (Raise e, st') => (Raise e, st')
  end.

(** [try: m except Exception as e: h e]; what [m] did before it raised stays. *)
Definition try_run {A} (m : Run A) (h : exn → Run A) : Run A := fun st =>
  match m st with
  | (Return a, st') => (Return a, st')
  | (Raise e, st') => h e st'
  end.

Definition lift_exc {A} (m : Exc A) : Run A := fun st => (m, st).

Definition set_used_fallback (b : bool) : Run unit := fun st =>
  (Return (), {| calls := calls st; used_fallback := b |}).

Definition get_used_fallback : Run bool := fun st =>
  (Return (used_fallback st), st).

Definition generate_content (backend : Backend) (req : Request)
    : Run (option Response) := fun st =>
  (backend (calls st) req,
   {| calls := calls st ++ [req]; used_fallback := used_fallback st |}).

(** The value [generate_instagram_ad] returns: [None], or a pair of the image
    (or [None]) and the flag. *)
Inductive AdResult :=
| ResultNone
| ResultPair (image : option bytes) (flag : bool).

Definition generation_config (temp : Q) : GenerateContentConfig := {|
  response_modalities := ["IMAGE"; "TEXT"];
  temperature := temp;
  max_output_tokens := 2048;
  candidate_count := 1
|}.

(** Truth value of [part.inline_data.data]. *)
Definition data_truthy (d : option InlineBytes) : bool :=
  match d with
  | None => false
  | Some (DataStr []) => false
  | Some (DataBytes []) => false
  | Some _ => true
  end.

Section Orchestrator.
Context `{lib : PIL}.
(** [base64.b64decode] *)
Variable b64decode : str → Exc bytes.
Variable backend : Backend.

(** The model calls of the outer [try]: mode 1 retries without [config];
    mode 2 turns to the fallback model with a prompt of its own. *)
Definition request_image (product_data : ProductData)
    (combined_image_description background_style : str)
    (use_text_overlay : bool) (generation_prompt : str) (selected_model : Model)
    : Run (option Response) :=
  if use_text_overlay then
    try_run
      (generate_content backend
         {| model := selected_model; contents := generation_prompt;
            config := Some (generation_config (1 # 10)) |})
      (fun config_error =>
         generate_content backend
           {| model := selected_model; contents := generation_prompt;
              config := None |})
  else
    try_run
      (generate_content backend
         {| model := selected_model; contents := generation_prompt;
            config := Some (generation_config (3 # 10)) |})
      (fun text_to_image_error =>
         _ ← set_used_fallback true;
         let fallback_prompt :=
           fallback_prompt product_data combined_image_description background_style in
         generate_content backend
           {| model := FALLBACK_TEXT_TO_IMAGE_MODEL; contents := fallback_prompt;
              config := Some (generation_config (3 # 10)) |}).

(** What is returned once [image_data] is decoded. *)
Definition deliver (image_data : bytes) (product_data : ProductData)
    (ad_concept : str) (use_text_overlay used_fallback : bool) : AdResult :=
  if use_text_overlay then
    ResultPair (Some (add_text_overlay image_data product_data ad_concept)) used_fallback
  else if negb used_fallback then
    ResultPair (Some image_data) used_fallback
  else
    ResultPair (Some (add_text_overlay image_data product_data ad_concept)) used_fallback.

(** The loop over [candidate.content.parts] and the return after it. *)
Fixpoint scan_parts (ps : list Part) (product_data : ProductData)
    (ad_concept : str) (use_text_overlay used_fallback : bool) : AdResult :=
  match ps with
  | [] => ResultPair None used_fallback
  | part :: ps' =>
      let continue := scan_parts ps' product_data ad_concept use_text_overlay used_fallback in
      if truthy (default [] (text part)) then continue
      else
        match inline_data part with
        | Some blob =>
            if negb (data_truthy (data blob)) then continue
            else
              let decoded :=
                match data blob with
                | Some (DataStr s) => b64decode s
                | Some (DataBytes b) => Return b
                | None => Raise DecodeError
                end in
              match decoded with
              | Return image_data =>
                  deliver image_data product_data ad_concept use_text_overlay used_fallback
              | Raise decode_error => continue
              end
        | None => continue
        end
  end.

(** The checks on the response, from [if not response] on. *)
Definition read_response (response : option Response) (product_data : ProductData)
    (ad_concept : str) (use_text_overlay used_fallback : bool) : AdResult :=
  match response with
  | None => ResultNone
  | Some response =>
      match candidates response with
      | None | Some [] => ResultNone
      | Some (candidate :: _) =>
          match content candidate with
          | None => ResultNone
          | Some content =>
              match parts content with
              | None | Some [] => ResultNone
              | Some ps =>
                  scan_parts ps product_data ad_concept use_text_overlay used_fallback
              end
          end
      end
  end.

(** [generate_instagram_ad], from the composition of the prompt on. The
    reference images enter through the description built from them and the
    background style chosen from their palette. *)
Definition generate_instagram_ad (product_data : ProductData) (ad_concept : str)
    (combined_image_description background_style : str)
    (use_text_overlay : bool) : Run AdResult :=
  generation_prompt ←
    lift_exc (compose_prompt product_data combined_image_description
                background_style use_text_overlay);
  let selected_model :=
    if use_text_overlay then IMAGE_GENERATION_MODEL else TEXT_TO_IMAGE_MODEL in
  _ ← set_used_fallback false;
  try_run
    (response ← request_image product_data combined_image_description
                  background_style use_text_overlay generation_prompt selected_model;
     used_fallback ← get_used_fallback;
     mret (read_response response product_data ad_concept use_text_overlay used_fallback))
    (fun e => mret (ResultPair None false)).

Definition initial : RunState := {| calls := []; used_fallback := false |}.

(** A whole run: the value returned (or the exception that leaves the
    function) and the final state. *)
Definition run_ad (product_data : ProductData) (ad_concept : str)
    (combined_image_description background_style : str)
    (use_text_overlay : bool) : Exc AdResult * RunState :=
  generate_instagram_ad product_data ad_concept combined_image_description
    background_style use_text_overlay initial.
End Orchestrator.

(** ** Vocabulary of the properties *)

(** [needle in hay] on text. *)
Fixpoint str_in (needle hay : str) : bool :=
  if bool_decide (needle `prefix_of` hay) then true
  else match hay with
       | [] => false
       | _ :: hay' => str_in needle hay'
       end.

(** The text [x] occurs in [s]. *)
Definition occurs (x s : str) : Prop := ∃ pre post, s = pre ++ x ++ post.

Definition has_nonspace (s : str) : bool := existsb (fun c => negb (isspace c)) s.

(** A colour channel. *)
Definition channel (c : Z) : Prop := 0 ≤ c ≤ 255.

Definition is_raise {A} (m : Exc A) : bool :=
  match m with Raise _ => true | Return _ => false end.

(** The bare request that repeats [req]: same model, same prompt, no
    configuration. *)
Definition bare (req : Request) : Request :=
  {| model := model req; contents := contents req; config := None |}.

(** The retry pattern on the requests of a run: every configured request the
    backend rejected is followed at once by its bare repetition. *)
Definition retry_pattern (backend : Backend) (requests : list Request) : Prop :=
  ∀ before req after,
    requests = before ++ req :: after →
    is_Some (config req) →
    is_raise (backend before req) = true →
    ∃ after', after = bare req :: after'.

(** A part from which the loop over the parts takes no image: it carries
    text, or no inline data, or empty data, or a string that does not decode. *)
Definition no_image (b64decode : str → Exc bytes) (part : Part) : bool :=
  truthy (default [] (text part)) ||
  match inline_data part with
  | None => true
  | Some blob =>
      negb (data_truthy (data blob)) ||
      match data blob with
      | Some (DataStr s) => is_raise (b64decode s)
      | _ => false
      end
  end.

(** A response of one candidate whose content has the parts [ps]. *)
Definition response_of_parts (ps : list Part) : Response :=
  {| candidates := Some [ {| content := Some {| parts := Some ps |} |} ] |}.

(** Formatting a channel gives two characters that [int(_, 16)] reads back. *)
Definition reads_back (x : Z) : bool :=
  match format_02x x with
  | [c1; c2] =>
      match int16 [c1; c2] with
      | Return v => v =? x
      | Raise _ => false
      end
  | _ => false
  end.

(** A line of the title is in order when it fits the canvas less the margin,
    or is one of the words as it stands. *)
Definition in_order (measure : str → Z) (width : Z) (words : list str) (line : str)
    : Prop :=
  measure line ≤ width - 40 ∨ line ∈ words.

(** The first request of a run, to the model of the mode, with its sampling
    configuration. *)
Definition primary_request (use_text_overlay : bool) (generation_prompt : str)
    : Request :=
  if use_text_overlay then
    {| model := IMAGE_GENERATION_MODEL; contents := generation_prompt;
       config := Some (generation_config (1 # 10)) |}
  else
    {| model := TEXT_TO_IMAGE_MODEL; contents := generation_prompt;
       config := Some (generation_config (3 # 10)) |}.

(** The request to the fallback model. *)
Definition fallback_request (product_data : ProductData)
    (combined_image_description background_style : str) : Request :=
  {| model := FALLBACK_TEXT_TO_IMAGE_MODEL;
     contents := fallback_prompt product_data combined_image_description
                   background_style;
     config := Some (generation_config (3 # 10)) |}.

(** A part the loop over the parts takes the image [b] from: no text, inline
    data that is not empty, raw or in a string that decodes to [b]. *)
Definition yields (b64decode : str → Exc bytes) (part : Part) (b : bytes) : Prop :=
  truthy (default [] (text part)) = false ∧
  ∃ blob, inline_data part = Some blob ∧ data_truthy (data blob) = true ∧
          match data blob with
          | Some (DataStr s) => b64decode s = Return b
          | Some (DataBytes raw) => raw = b
          | None => False
          end.

(** A lower-case hexadecimal digit. *)
Definition is_lower_hex (c : N) : bool :=
  ((48 <=? c) && (c <=? 57) || (97 <=? c) && (c <=? 102))%N.

(** The sixteen lower-case hexadecimal digits. *)
Definition lower_hex_digits : list N := lit "0123456789abcdef".

(** *** A host for the examples

    An imaging library reduced to what the renderer observes: an image is its
    size and the number of drawing operations applied to it, a font its
    size. The host has no DejaVu font files, so [truetype] raises and the
    built-in font is used; the empty buffer is not an image. *)
Module Host.
Definition open (b : bytes) : Exc (Z * Z * nat) :=
  match b with
  | [] => Raise (PILError (lit "cannot identify image file"))
  | _ => Return (1024, 1024, 0%nat)
  end.

Definition drawn (img : Z * Z * nat) : Exc (Z * Z * nat) :=
  let '(w, h, n) := img in Return (w, h, S n).

Definition encode (img : Z * Z * nat) (quality : Z) : Exc bytes :=
  let '(_, _, n) := img in
  Return ([Byte.xff; Byte.xd8] ++ replicate n Byte.x00 ++ [Byte.xff; Byte.xd9]).

#[export] Instance pil : PIL := {|
  Image := Z * Z * nat;
  Font := Z;
  Image_open := open;
  mode_is_RGB := fun _ => true;
  convert := fun _ img => Return img;
  truetype := fun _ _ => Raise (PILError (lit "cannot open resource"));
  load_default := Return 10;
  img_size := fun '(w, h, _) => (w, h);
  Image_new_RGBA := fun '(w, h) => Return (w, h, 0%nat);
  alpha_composite := fun a _ => drawn a;
  draw_rectangle := fun img _ _ _ _ => drawn img;
  draw_textbbox := fun _ s font => (0, 0, font * Z.of_nat (length s), font);
  draw_text := fun img _ _ _ _ _ _ => drawn img;
  save_jpeg := encode
|}.

(** A decoder that accepts nothing. *)
Definition b64decode (s : str) : Exc bytes := Raise DecodeError.

(** A backend that rejects every request. *)
Definition down : Backend := fun _ _ => Raise (BackendError (lit "model not found")).

(** A backend that answers every request with the parts [ps]. *)
Definition answering (ps : list Part) : Backend :=
  fun _ _ => Return (Some (response_of_parts ps)).

(** A backend that rejects the first request and answers the later ones. *)
Definition second_try (ps : list Part) : Backend := fun before _ =>
  match before with
  | [] => Raise (BackendError (lit "model not found"))
  | _ => Return (Some (response_of_parts ps))
  end.

(** What the analysis of a reference image of [silla] could have given. *)
Definition description : str := lit "Silla negra con ruedas y respaldo alto".
Definition style : str :=
  lit "Elegant backdrop with #4a90e2 gradient and subtle texture, modern lighting".

Definition image_part (b : bytes) : Part :=
  {| text := None; inline_data := Some {| data := Some (DataBytes b) |} |}.

Definition text_part (s : str) : Part :=
  {| text := Some s; inline_data := None |}.
End Host.

(** ** The background style *)

(** [str.lower] is CPython's and is taken as given. *)
Class Lowering := { lower : str → str }.

(** [background_styles[i]] *)
Definition item (styles : list str) (i : nat) : str := default [] (styles !! i).

(** [any(word in text for word in words)] *)
Definition any_in (words : list str) (text : str) : bool :=
  existsb (fun word => str_in word text) words.

Definition background_styles (color_palette : ColorPalette) : list str := [
  lit "Modern gradient background from " ++ light color_palette ++ lit " to "
    ++ primary color_palette ++ lit ", subtle geometric patterns";
  lit "Professional studio setup with " ++ primary color_palette
    ++ lit " accent lighting and soft shadows";
  lit "Contemporary minimalist background with " ++ primary color_palette ++ lit " and "
    ++ light color_palette ++ lit " color blocking";
  lit "Elegant backdrop with " ++ primary color_palette
    ++ lit " gradient and subtle texture, modern lighting";
  lit "Stylish environment with " ++ primary color_palette ++ lit " and "
    ++ neutral color_palette ++ lit " color scheme, professional photography" ].

Definition FASHION_WORDS : list str :=
  [lit "ropa"; lit "clothing"; lit "fashion"; lit "shirt"; lit "vestido"].
Definition TECH_WORDS : list str :=
  [lit "tech"; lit "electronic"; lit "phone"; lit "laptop"].
Definition HOME_WORDS : list str :=
  [lit "home"; lit "hogar"; lit "furniture"; lit "mueble"].

Definition create_background_prompt `{lowering : Lowering} (product_title image_description : str)
    (color_palette : ColorPalette) : str :=
  let background_styles := background_styles color_palette in
  if any_in FASHION_WORDS (lower product_title) then item background_styles 0
  else if any_in TECH_WORDS (lower product_title) then item background_styles 1
  else if any_in HOME_WORDS (lower product_title) then item background_styles 2
  else item background_styles 3.

(** The statements of [generate_instagram_ad] that set [background_style]
    from the palette, when there is one. *)
Definition background_style_of `{lowering : Lowering} (product_data : ProductData)
    (combined_image_description : str) (color_palette : option ColorPalette) : str :=
  match color_palette with
  | Some color_palette =>
      create_background_prompt (dict_get product_data "title" [])
        combined_image_description color_palette
  | None => []
  end.

(** ** The scraper *)

(** The page of the browser: an element for a selector, its text and its
    attributes; each of these calls can raise. *)
Class Page := {
  Element : Type;
  (** [setup_browser], which starts the browser and raises when it cannot *)
  setup_browser : Exc unit;
  (** [page.goto(url, ...)] followed by [page.wait_for_timeout(2000)]; the
      wait for a selector between them has its exceptions caught *)
  navigate : str → Exc unit;
  (** [page.query_selector(selector)] *)
  query_selector : str → Exc (option Element);
  (** [page.query_selector_all(selector)] *)
  query_selector_all : str → Exc (list Element);
  (** [element.inner_text()] *)
  inner_text : Element → Exc str;
  (** [element.get_attribute(name)] *)
  get_attribute : Element → string → Exc (option str)
}.

(** A selector of the form [prefix[data-testid="name"]suffix]; [34] is the
    double quote. *)
Definition testid (prefix name suffix : string) : str :=
  lit prefix ++ lit "[data-testid=" ++ [34%N] ++ lit name ++ [34%N] ++ lit "]" ++ lit suffix.

Definition title_selectors : list str :=
  [ lit "h1.ui-pdp-title"; testid "h1" "product-title" ""; lit ".ui-pdp-title"; lit "h1";
    lit ".item-title h1"; testid "" "product-title" "" ].

Definition price_selectors : list str :=
  [ lit ".andes-money-amount__fraction"; lit ".ui-pdp-price__fraction";
    testid "" "price-fraction" ""; lit ".price-tag-fraction"; lit ".price-tag-amount";
    lit ".ui-pdp-price .andes-money-amount__fraction" ].

Definition description_selectors : list str :=
  [ lit ".ui-pdp-description__content"; testid "" "product-description" "";
    lit ".item-description"; lit ".ui-vpp-strikethrough-text";
    lit ".ui-pdp-description p"; lit ".item-description p" ].

Definition image_selectors : list str :=
  [ lit ".ui-pdp-gallery img"; lit ".ui-pdp-image img";
    testid "" "product-image" " img"; lit ".gallery-image img";
    lit ".ui-pdp-gallery .ui-pdp-image img"; lit ".gallery img" ].

(** [s.startswith(prefix)] *)
Definition startswith (prefix s : str) : bool := bool_decide (prefix `prefix_of` s).

(** [list(dict.fromkeys(l))]: the first occurrence of each element, in order;
    [seen] holds the keys already in the dictionary. *)
Fixpoint fromkeys_from (seen l : list str) : list str :=
  match l with
  | [] => []
  | x :: l' =>
      if bool_decide (x ∈ seen) then fromkeys_from seen l'
      else x :: fromkeys_from (x :: seen) l'
  end.

Definition fromkeys (l : list str) : list str := fromkeys_from [] l.

Section Scraper.
Context `{page : Page} `{lowering : Lowering}.

(** The loop of the three text getters over their selectors: the text of the
    first element that has one, after [post]; an exception at a selector
    moves on to the next. Every call that can raise is inside the [try] of
    the loop, so the [except] around the loop is never entered. *)
Fixpoint first_text (post : str → str) (selectors : list str) : option str :=
  match selectors with
  | [] => None
  | selector :: selectors' =>
      let attempt :=
        element ← query_selector selector;
        match element with
        | Some element => t ← inner_text element; mret (Some (post t))
        | None => mret None
        end in
      match attempt with
      | Return (Some t) => if truthy t then Some t else first_text post selectors'
      | Return None => first_text post selectors'
      | Raise _ => first_text post selectors'
      end
  end.

Definition _get_title : str :=
  default (lit "Product Title Not Found") (first_text strip title_selectors).

Definition _get_price : str :=
  default (lit "Price Not Found") (first_text strip price_selectors).

Definition _get_description : str :=
  default (lit "Description not available")
    (first_text (fun t => slice 0 500 (strip t)) description_selectors).

(** [src and src.startswith('http') and 'logo' not in src.lower()] *)
Definition keep_src (src : option str) : bool :=
  match src with
  | None => false
  | Some src =>
      truthy src && startswith (lit "http") src && negb (str_in (lit "logo") (lower src))
  end.

(** The loop over the images of one selector; the second component tells
    whether the loop was left by an exception, after which the addresses
    appended so far stay in [image_urls]. *)
Fixpoint collect_srcs (images : list Element) (image_urls : list str)
    : list str * bool :=
  match images with
  | [] => (image_urls, false)
  | img :: images' =>
      let src :=
        a ← get_attribute img "src";
        if truthy (default [] a) then mret a else get_attribute img "data-src" in
      match src with
      | Raise _ => (image_urls, true)
      | Return src =>
          collect_srcs images'
            (if keep_src src then image_urls ++ [default [] src] else image_urls)
      end
  end.

(** The loop over the selectors: it stops at the first selector after which
    [image_urls] is not empty. *)
Fixpoint scan_image_selectors (selectors : list str) (image_urls : list str)
    : list str :=
  match selectors with
  | [] => image_urls
  | selector :: selectors' =>
      match query_selector_all selector with
      | Raise _ => scan_image_selectors selectors' image_urls
      | Return images =>
          let '(image_urls, raised) := collect_srcs images image_urls in
          if raised then scan_image_selectors selectors' image_urls
          else if negb (bool_decide (image_urls = [])) then image_urls
          else scan_image_selectors selectors' image_urls
      end
  end.

Definition _get_images : list str :=
  take 5 (fromkeys (scan_image_selectors image_selectors [])).

(** The record [scrape_product] builds. *)
Record Scraped := {
  scraped_title : str;
  scraped_price : str;
  scraped_description : str;
  scraped_images : list str;
  scraped_url : str
}.

(** [scrape_product]: the browser is started when there is no page yet, and
    an exception there leaves the function; once the page exists, an
    exception of the navigation gives [None], and the getters do not raise. *)
Definition scrape_product (has_page : bool) (url : str) : Exc (option Scraped) :=
  _ ← (if has_page then mret () else setup_browser);
  match navigate url with
  | Raise _ => mret None
  | Return _ =>
      mret (Some {| scraped_title := _get_title;
                    scraped_price := _get_price;
                    scraped_description := _get_description;
                    scraped_images := _get_images;
                    scraped_url := url |})
  end.
End Scraper.

(** The text fields of a scraped record, as the dictionary the generator
    reads. *)
Definition scraped_fields (p : Scraped) : ProductData :=
  <["title" := scraped_title p]>
    (<["price" := scraped_price p]>
       (<["description" := scraped_description p]>
          (<["url" := scraped_url p]> ∅))).

(** Lower-casing of the letters A to Z, which is what [str.lower] does on
    ASCII text; used to run the examples. *)
Module Ascii.
Definition lower_char (c : N) : N :=
  if ((65 <=? c) && (c <=? 90))%N then (c + 32)%N else c.

#[export] Instance lowering : Lowering := {| lower := fmap lower_char |}.
End Ascii.

(** What one round of the loop of a text getter finds at a selector: the
    text of its element after [post], when there is one and it is not empty. *)
Definition selector_text `{page : Page} (post : str → str) (selector : str)
    : option str :=
  match query_selector selector with
  | Return (Some element) =>
      match inner_text element with
      | Return t => if truthy (post t) then Some (post t) else None
      | Raise _ => None
      end
  | _ => None
  end.

(** An address [_get_images] accepts. *)
Definition accepted_src `{lowering : Lowering} (src : str) : Prop :=
  src ≠ [] ∧ lit "http" `prefix_of` src ∧ ¬ occurs (lit "logo") (lower src).

(** *** A page for the examples

    A product page on which the first title selector times out and the
    fourth has the title, the first price selector has the price, no
    selector has a description, and the gallery shows four pictures, one of
    them a logo and one of them twice. An element is its text, and that text
    is also its [src]. *)
Module Shop.
Definition query (selector : str) : Exc (option str) :=
  if bool_decide (selector = lit "h1.ui-pdp-title") then
    Raise (BackendError (lit "Timeout 30000ms exceeded"))
  else if bool_decide (selector = lit "h1") then
    Return (Some (lit "  Silla de Oficina  "))
  else if bool_decide (selector = lit ".andes-money-amount__fraction") then
    Return (Some (lit "45.999"))
  else Return None.

Definition query_all (selector : str) : Exc (list str) :=
  if bool_decide (selector = lit ".ui-pdp-gallery img") then
    Return [ lit "https://http2.mlstatic.com/D_1.webp";
             lit "https://http2.mlstatic.com/Logo.svg";
             lit "https://http2.mlstatic.com/D_1.webp";
             lit "data:image/gif;base64,R0lGOD";
             lit "https://http2.mlstatic.com/D_2.webp" ]
  else Return [].

Definition attribute (element : str) (name : string) : Exc (option str) :=
  if bool_decide (name = "src") then Return (Some element) else Return None.

#[export] Instance page : Page := {|
  Element := str;
  setup_browser := Return ();
  navigate := fun _ => Return ();
  query_selector := query;
  query_selector_all := query_all;
  inner_text := fun element => Return element;
  get_attribute := attribute
|}.
End Shop.

(** ** The reference images *)

(** What the analysis of the reference images needs from outside: the
    download, the vision model, and, for the dominant colours, the resizing
    and the pixels of an image and the clustering. A number of the library
    is a [Float]; [int_of_float] is [int(x)], which raises on an infinity or
    a NaN. *)
Class Analysis `{lib : PIL} := {
  (** [requests.get(url, stream=True)]: the status code and the content;
      [n] requests were made before *)
  http_get : nat → str → Exc (Z * bytes);
  (** the request to the vision model with the analysis prompt and the JPEG
      data of the [i]-th reference image: [response.text] *)
  describe_image : nat → bytes → Exc (option str);
  (** [image.resize(size)] *)
  resize : Image → Z * Z → Exc Image;
  (** [np.array(image).reshape(-1, 3)]: the pixels of an RGB image *)
  pixel_rows : Image → Exc (list rgb);
  Float : Type;
  int_of_float : Float → Exc Z;
  (** [KMeans(n_clusters=n, random_state=42, n_init=10).fit(pixels)]
      and its [cluster_centers_] *)
  kmeans : nat → list rgb → Exc (list (Float * Float * Float))
}.

(** The quality Pillow writes a JPEG with when [save] is given none. *)
Definition PIL_DEFAULT_QUALITY : Z := 75.

(** A pixel of the background: all three channels above 240. *)
Definition near_white (p : rgb) : bool :=
  let '(r, g, b) := p in (240 <? r) && (240 <? g) && (240 <? b).

Definition DEFAULT_COLORS : list str := [lit "#333333"; lit "#666666"; lit "#999999"].
Definition FALLBACK_COLORS : list str := [lit "#4a90e2"; lit "#7b68ee"; lit "#50c878"].

(** [" Además, "]; [225] is the letter a with acute. *)
Definition ADEMAS : str := lit " Adem" ++ [225%N] ++ lit "s, ".

Section References.
Context `{analysis : Analysis} `{lowering : Lowering}.

(** [download_image]: the content when the status is 200. *)
Definition download_image (n : nat) (url : str) : option bytes :=
  match http_get n url with
  | Return (status_code, content) => if status_code =? 200 then Some content else None
  | Raise _ => None
  end.

(** [load_image_as_part]: the image as JPEG data, [None] on any exception. *)
Definition load_image_as_part (image_data : bytes) : option bytes :=
  let body :=
    img ← Image_open image_data;
    img ← (if mode_is_RGB img then mret img else convert "RGB" img);
    save_jpeg img PIL_DEFAULT_QUALITY in
  match body with
  | Return data => Some data
  | Raise _ => None
  end.

(** The hexadecimal form of a cluster centre, channel by channel through
    [int]; the format is the one of [rgb_to_hex]. *)
Definition centre_color (color : Float * Float * Float) : Exc str :=
  let '(c0, c1, c2) := color in
  r ← int_of_float c0;
  g ← int_of_float c1;
  b ← int_of_float c2;
  mret (rgb_to_hex (r, g, b)).

(** The loop over [kmeans.cluster_centers_]. *)
Fixpoint centre_colors (centres : list (Float * Float * Float)) : Exc (list str) :=
  match centres with
  | [] => mret []
  | color :: centres' =>
      hex_color ← centre_color color;
      colors ← centre_colors centres';
      mret (hex_color :: colors)
  end.

Definition extract_dominant_colors (image_data : bytes) (num_colors : nat) : list str :=
  let body :=
    image ← Image_open image_data;
    image ← resize image (150, 150);
    image ← (if mode_is_RGB image then mret image else convert "RGB" image);
    pixels ← pixel_rows image;
    let filtered_pixels := filter (fun p => near_white p = false) pixels in
    if bool_decide (length filtered_pixels = 0%nat) then mret DEFAULT_COLORS
    else
      centres ← kmeans (Nat.min num_colors (length filtered_pixels)) filtered_pixels;
      centre_colors centres in
  match body with
  | Return colors => colors
  | Raise _ => FALLBACK_COLORS
  end.

(** One round of the loop over the reference images: the description of the
    [i]-th image, when it downloads, converts and is described. *)
Definition image_description (i : nat) (image_url : str) : option str :=
  match download_image i image_url with
  | Some image_data =>
      match load_image_as_part image_data with
      | Some data =>
          match describe_image i data with
          | Return (Some description) => Some description
          | Return None => None
          | Raise _ => None
          end
      | None => None
      end
  | None => None
  end.

(** The loop over the reference images, from the [i]-th on. *)
Fixpoint describe_images (i : nat) (urls : list str) (combined_image_description : str)
    : str :=
  match urls with
  | [] => combined_image_description
  | image_url :: urls' =>
      describe_images (S i) urls'
        match image_description i image_url with
        | Some description =>
            if truthy combined_image_description
            then combined_image_description ++ ADEMAS ++ description
            else description
        | None => combined_image_description
        end
  end.

(** The palette, from a second download of the first reference image. *)
Definition reference_palette (primary_image_urls : list str) : option ColorPalette :=
  match primary_image_urls with
  | [] => None
  | first :: _ =>
      match download_image (length primary_image_urls) first with
      | Some image_bytes =>
          Some (generate_color_palette (extract_dominant_colors image_bytes 5))
      | None => None
      end
  end.

(** The whole of [generate_instagram_ad]: the analysis of the reference
    images, then the run. No reference images ([None]) is the empty list. *)
Definition generate_instagram_ad_from_urls (b64decode : str → Exc bytes)
    (backend : Backend) (product_data : ProductData) (ad_concept : str)
    (primary_image_urls : list str) (use_text_overlay : bool)
    : Exc AdResult * RunState :=
  let combined_image_description := describe_images 0 primary_image_urls [] in
  let color_palette := reference_palette primary_image_urls in
  let background_style :=
    background_style_of product_data combined_image_description color_palette in
  run_ad b64decode backend product_data ad_concept combined_image_description
    background_style use_text_overlay.
End References.




(** A pixel of an 8-bit RGB image. *)
Definition pixel (p : rgb) : Prop :=
  let '(r, g, b) := p in channel r ∧ channel g ∧ channel b.

(** A cluster centre whose three coordinates [int] takes into [0,255]. *)
Definition in_gamut `{analysis : Analysis} (color : Float * Float * Float) : Prop :=
  let '(c0, c1, c2) := color in
  ∃ r g b, int_of_float c0 = Return r ∧ int_of_float c1 = Return g ∧
           int_of_float c2 = Return b ∧ channel r ∧ channel g ∧ channel b.

(** A colour of seven characters that [hex_to_rgb] reads as channels. *)
Definition readable (c : str) : Prop :=
  length c = 7%nat ∧
  ∃ r g b, hex_to_rgb c = Return (r, g, b) ∧ channel r ∧ channel g ∧ channel b.

(** The palettes of the two fixed lists of colours. *)
Definition blue_palette : ColorPalette := {|
  primary := lit "#4a90e2";
  light := lit "#86ccff";
  dark := lit "#2268ba";
  complement := lit "#b56f1d";
  neutral := lit "#f8f9fa"
|}.

Definition grey_palette : ColorPalette := {|
  primary := lit "#333333";
  light := lit "#6f6f6f";
  dark := lit "#0b0b0b";
  complement := lit "#cccccc";
  neutral := lit "#f8f9fa"
|}.

(** *** A studio for the examples

    An image is its pixels, three bytes each, and a buffer of [3 n] bytes is
    the image of its [n] pixels; the empty buffer is not an image. Addresses
    under [https://] serve a picture of four pixels, one of them of the
    white background; other addresses are not found. The vision model
    describes the first and the third reference image and rejects the
    second. A number is a fraction; the clustering answers with the first
    [n] pixels, each moved by a half. *)
Module Studio.
Definition Pixels := list (Byte.byte * Byte.byte * Byte.byte).

Fixpoint decode (b : bytes) : Exc Pixels :=
  match b with
  | [] => Return []
  | r :: g :: b :: rest => ps ← decode rest; mret ((r, g, b) :: ps)
  | _ => Raise (PILError (lit "image file is truncated"))
  end.

Definition open (b : bytes) : Exc Pixels :=
  match b with
  | [] => Raise (PILError (lit "cannot identify image file"))
  | _ => decode b
  end.

Definition encode (img : Pixels) (quality : Z) : Exc bytes :=
  Return (flat_map (fun '(r, g, b) => [r; g; b]) img).

#[export] Instance pil : PIL := {|
  Image := Pixels;
  Font := Z;
  Image_open := open;
  mode_is_RGB := fun _ => true;
  convert := fun _ img => Return img;
  truetype := fun _ _ => Raise (PILError (lit "cannot open resource"));
  load_default := Return 10;
  img_size := fun _ => (2, 2);
  Image_new_RGBA := fun _ => Return [];
  alpha_composite := fun a _ => Return a;
  draw_rectangle := fun img _ _ _ _ => Return img;
  draw_textbbox := fun _ s font => (0, 0, font * Z.of_nat (length s), font);
  draw_text := fun img _ _ _ _ _ _ => Return img;
  save_jpeg := encode
|}.

Definition picture : bytes :=
  [ Byte.xfa; Byte.xfb; Byte.xfc;  Byte.x1e; Byte.x1e; Byte.x1e;
    Byte.xc8; Byte.x0a; Byte.x0a;  Byte.x4a; Byte.x90; Byte.xe2 ].

Definition white : bytes := [ Byte.xff; Byte.xff; Byte.xff;  Byte.xf1; Byte.xfe; Byte.xf8 ].

Definition get (n : nat) (url : str) : Exc (Z * bytes) :=
  if startswith (lit "https://") url then Return (200, picture)
  else Return (404, []).

Definition describe (i : nat) (data : bytes) : Exc (option str) :=
  match i with
  | 0%nat => Return (Some (lit "Silla negra con ruedas"))
  | 1%nat => Raise (BackendError (lit "503 UNAVAILABLE"))
  | _ => Return (Some (lit "respaldo alto"))
  end.

Definition value (x : Byte.byte) : Z := Z.of_N (Byte.to_N x).

Definition rows (img : Pixels) : Exc (list rgb) :=
  Return ((fun '(r, g, b) => (value r, value g, value b)) <$> img).

Definition truncate (x : Q) : Exc Z := Return (Z.quot (Qnum x) (Z.pos (Qden x))).

Definition cluster (n : nat) (pixels : list rgb)
    : Exc (list (Q * Q * Q)) :=
  Return ((fun '(r, g, b) => ((2 * r + 1) # 2, (2 * g + 1) # 2, (2 * b + 1) # 2))
            <$> take n pixels).

#[export] Instance analysis : Analysis := {|
  http_get := get;
  describe_image := describe;
  resize := fun img _ => Return img;
  pixel_rows := rows;
  Float := Q;
  int_of_float := truncate;
  kmeans := cluster
|}.
End Studio.


(** A character that [int(s, 16)] can make nothing of, wherever it stands:
    no digit, no white space, no sign, no underscore and no [x]. *)
Definition unreadable (c : N) : bool :=
  let a := to_ascii c in
  match hex_val a with
  | Some _ => false
  | None =>
      negb (ascii_isspace a) &&
      negb ((a =? 43) || (a =? 45) || (a =? 95) || (a =? 120) || (a =? 88))%N
  end.

(** ** The advertising concept *)

(** The code points of a text given in UTF-8, the encoding of the source
    file: sequences of one to four bytes. *)
Fixpoint utf8 (b : list N) : str :=
  match b with
  | [] => []
  | c :: rest =>
      if (c <? 128)%N then c :: utf8 rest
      else match rest with
      | [] => []
      | c1 :: rest1 =>
          if (c <? 224)%N then ((c - 192) * 64 + (c1 - 128))%N :: utf8 rest1
          else match rest1 with
          | [] => []
          | c2 :: rest2 =>
              if (c <? 240)%N
              then ((c - 224) * 4096 + (c1 - 128) * 64 + (c2 - 128))%N :: utf8 rest2
              else match rest2 with
              | [] => []
              | c3 :: rest3 =>
                  ((c - 240) * 262144 + (c1 - 128) * 4096 + (c2 - 128) * 64
                     + (c3 - 128))%N :: utf8 rest3
              end
          end
      end
  end.

(** A literal of the source with letters outside ASCII. *)
Definition u8 (s : string) : str := utf8 (lit s).

Arguments u8 : simpl never.

(** [str(e)] of an exception. *)
Class Messages := { exn_str : exn → str }.

(** The call of [analyze_product_info]: the text model, the prompt, and a
    configuration with a system instruction. *)
Record ConceptConfig := {
  concept_temperature : Q;
  concept_max_output_tokens : Z;
  concept_candidate_count : Z;
  system_instruction : str
}.

Record ConceptRequest := {
  concept_model : Model;
  concept_contents : str;
  concept_config : ConceptConfig
}.

(** The text model: [response.text] of the response to a request, which can
    be [None], or the exception of the call. *)
Definition ConceptBackend := ConceptRequest → Exc (option str).

Definition SYSTEM_INSTRUCTION : str :=
  u8 "Eres un experto en marketing digital hispanohablante. Respondes únicamente en español perfecto, sin errores ortográficos. Creas conceptos publicitarios para consumidores de habla hispana.".

Definition ind8 : str := replicate 8 32%N.

(** The prompt, a triple-quoted literal that is not stripped; its second
    line is empty and its other blank lines carry the indentation. *)
Definition concept_prompt (title price description : str) : str :=
  block [] [
    ind8 ++ u8 "Eres un experto en marketing digital que habla español nativo. Tu tarea es analizar este producto de MercadoLibre y crear un concepto publicitario para Instagram.";
    [];
    ind8 ++ u8 "INFORMACIÓN DEL PRODUCTO:";
    ind8 ++ u8 "Título del producto: " ++ title;
    ind8 ++ lit "Precio exacto: " ++ price;
    ind8 ++ u8 "Descripción: " ++ description;
    ind8;
    ind8 ++ u8 "INSTRUCCIONES ESPECÍFICAS:";
    ind8 ++ u8 "- Responde ÚNICAMENTE en español de España o Latinoamérica";
    ind8 ++ lit "- Crea un concepto de anuncio de Instagram profesional";
    ind8 ++ lit "- Usa EXACTAMENTE el precio proporcionado: " ++ price;
    ind8 ++ u8 "- Asegúrate de que todo el texto esté en español correcto sin errores";
    ind8;
    ind8 ++ lit "Incluye en tu respuesta:";
    ind8 ++ u8 "1. Un titular llamativo en español (máximo 25 caracteres)";
    ind8 ++ u8 "2. Texto descriptivo atractivo en español (máximo 100 caracteres)  ";
    ind8 ++ u8 "3. Texto de llamada a la acción en español";
    ind8 ++ lit "4. Elementos visuales a destacar";
    ind8 ++ lit "5. Sugerencias de esquema de colores";
    ind8 ++ u8 "6. Sugerencias de diseño para formato Instagram (1080x1080)";
    ind8;
    ind8 ++ u8 "IMPORTANTE: Todo debe estar en español perfecto, dirigido a consumidores hispanohablantes." ]
  ++ ind8.

Definition concept_request (prompt : str) : ConceptRequest := {|
  concept_model := TEXT_MODEL;
  concept_contents := prompt;
  concept_config := {|
    concept_temperature := 2 # 10;
    concept_max_output_tokens := 1024;
    concept_candidate_count := 1;
    system_instruction := SYSTEM_INSTRUCTION
  |}
|}.

Arguments concept_prompt : simpl never.
Arguments concept_request : simpl never.

(** The two values [analyze_product_info] returns in place of a concept. *)
Definition MODEL_OVERLOADED_ERROR : str := lit "MODEL_OVERLOADED_ERROR".
Definition ERROR_CREATING_AD_CONCEPT : str := lit "Error creating ad concept".

(** The text of the [TypeError] of [response.text[:100]] on [None]. *)
Definition NONE_NOT_SUBSCRIPTABLE : str := lit "'NoneType' object is not subscriptable".

Section Concept.
Context `{lowering : Lowering} `{messages : Messages}.
Variable concept_backend : ConceptBackend.

(** The [except] branch, on the text of the exception. *)
Definition concept_of_error (message : str) : str :=
  let err_str := lower message in
  if str_in (lit "503") err_str || str_in (lit "overload") err_str
     || str_in (lit "unavailable") err_str
  then MODEL_OVERLOADED_ERROR
  else ERROR_CREATING_AD_CONCEPT.

(** [analyze_product_info]: the prompt is built before the [try], so a
    missing field raises; inside it the call is made and the first hundred
    characters of the text are printed. *)
Definition analyze_product_info (product_data : ProductData) : Exc str :=
  title ← getitem product_data "title";
  price ← getitem product_data "price";
  description ← getitem product_data "description";
  price' ← getitem product_data "price";
  let prompt := concept_prompt title price description in
  match concept_backend (concept_request prompt) with
  | Return (Some text) => mret text
  | Return None => mret (concept_of_error NONE_NOT_SUBSCRIPTABLE)
  | Raise e => mret (concept_of_error (exn_str e))
  end.
End Concept.

(** ** The endpoint [/generate-ad] *)

(** The product record of a request: its text fields and its [images]. *)
Record Product := {
  fields : ProductData;
  images : option (list str)
}.

(** The JSON object of the request; an absent key is [None]. *)
Record Payload := {
  payload_product_data : option Product;
  payload_selected_images : option (list str);
  payload_use_text_overlay : option bool
}.

(** What the endpoint answers: an error with its status, or the record of
    the advertisement made, with status 200. *)
Inductive Reply :=
| ErrorReply (status : Z) (error : str)
| AdReply (ad_concept image_filename download_url : str)
    (selected_images_count : nat) (text_overlay_used fallback_used : bool).

Definition status_of (reply : Reply) : Z :=
  match reply with
  | ErrorReply status _ => status
  | AdReply _ _ _ _ _ _ => 200
  end.

(** The clock and the file system of the server. *)
Class Server := {
  (** [int(time.time())] *)
  now : Z;
  (** [with open(path, 'wb') as f: f.write(data)] *)
  write_file : str → bytes → Exc unit
}.

Definition OUTPUT_FOLDER : str := lit "output".

(** [str(n)] of an [int]. *)
Definition str_of_int (n : Z) : str := lit (pretty n).

(** Truth value of the product record: an empty dictionary is false. *)
Definition product_truthy (product : Product) : bool :=
  negb (bool_decide (fields product = ∅) && bool_decide (images product = None)).

(** Truth value of a list. *)
Definition nonempty {A} (l : list A) : bool :=
  match l with [] => false | _ => true end.

Definition OVERLOADED_MESSAGE : str :=
  u8 "El modelo de IA está sobrecargado. Por favor, inténtalo de nuevo en unos minutos.".

Section Endpoint.
Context `{analysis : Analysis} `{lowering : Lowering} `{messages : Messages}
  `{server : Server}.
Variable b64decode : str → Exc bytes.
Variable backend : Backend.
Variable concept_backend : ConceptBackend.

(** The reference images: the selected ones, or the first of the product. *)
Definition primary_image_urls_of (product : Product) (selected_images : list str)
    : list str :=
  if nonempty selected_images then selected_images
  else take 1 (default [] (images product)).

(** The last part of the [try]: the image is saved under a name made of
    the time, and the record of the advertisement is answered. *)
Definition save_ad (ad_concept : str) (ad_image_data : bytes) (used_fallback : bool)
    (selected_images : list str) (use_text_overlay : bool) : Exc Reply :=
  let timestamp := str_of_int now in
  let filename := lit "instagram_ad_" ++ timestamp ++ lit ".jpg" in
  let output_path := OUTPUT_FOLDER ++ lit "/" ++ filename in
  _ ← write_file output_path ad_image_data;
  mret (AdReply ad_concept filename (lit "/download/" ++ filename)
          (length selected_images) use_text_overlay used_fallback).

Definition generate_ad_try (data : Payload) : Exc Reply :=
  let product_data := payload_product_data data in
  let selected_images := default [] (payload_selected_images data) in
  let use_text_overlay := default true (payload_use_text_overlay data) in
  match product_data with
  | None => mret (ErrorReply 400 (lit "Product data is required"))
  | Some product =>
      if negb (product_truthy product)
      then mret (ErrorReply 400 (lit "Product data is required"))
      else
        ad_concept ← analyze_product_info concept_backend (fields product);
        if bool_decide (ad_concept = MODEL_OVERLOADED_ERROR)
        then mret (ErrorReply 503 OVERLOADED_MESSAGE)
        else if str_in ERROR_CREATING_AD_CONCEPT ad_concept
        then mret (ErrorReply 500 (lit "Failed to analyze product for ad concept"))
        else
          let primary_image_urls := primary_image_urls_of product selected_images in
          ad_result ← fst (generate_instagram_ad_from_urls b64decode backend
                             (fields product) ad_concept primary_image_urls
                             use_text_overlay);
          match ad_result with
          | ResultPair (Some (byte :: rest)) used_fallback =>
              save_ad ad_concept (byte :: rest) used_fallback selected_images
                use_text_overlay
          | _ => mret (ErrorReply 500 (lit "Failed to generate Instagram ad image"))
          end
  end.

(** [generate_ad]: an exception of the [try] is answered with its text. *)
Definition generate_ad (data : Payload) : Reply :=
  match generate_ad_try data with
  | Return reply => reply
  | Raise e => ErrorReply 500 (exn_str e)
  end.
End Endpoint.

(** *** A desk for the examples

    The text of an exception of the backend or of the imaging library is its
    message, and that of a [KeyError] its key between quotes. The text model
    writes a concept for every product but the one called [Agotado]. The
    clock stands still and every file can be written. *)
Module Desk.
Definition message (e : exn) : str :=
  match e with
  | KeyError key => lit "'" ++ lit key ++ lit "'"
  | IndexError => lit "list index out of range"
  | ValueError => lit "invalid literal for int() with base 16"
  | BackendError msg => msg
  | DecodeError => lit "Incorrect padding"
  | PILError msg => msg
  end.

#[export] Instance messages : Messages := {| exn_str := message |}.

Definition concept : str := u8 "Titular: Tu oficina, tu estilo. Llamada a la acción: Compra ahora.".

Definition writer : ConceptBackend := fun request =>
  if str_in (lit "Agotado") (concept_contents request)
  then Raise (BackendError (lit "503 UNAVAILABLE. The model is overloaded."))
  else Return (Some concept).

Definition silent : ConceptBackend := fun _ => Return None.

Definition oficina : ProductData :=
  <["description" := lit "Silla con ruedas y respaldo alto"]> silla.

Definition agotado : ProductData := <["title" := lit "Agotado"]> oficina.

#[export] Instance server : Server := {|
  now := 1700000000;
  write_file := fun _ _ => Return ()
|}.

(** A request for the office chair with one picture and nothing selected. *)
Definition chair : Product :=
  {| fields := oficina; images := Some [lit "https://fotos/silla.jpg"] |}.

Definition request : Payload :=
  {| payload_product_data := Some chair;
     payload_selected_images := None;
     payload_use_text_overlay := None |}.
End Desk.


(** * Properties *)

(** ** Text *)

Lemma has_nonspace_app a b : has_nonspace (a ++ b) = has_nonspace a || has_nonspace b.
Proof. apply existsb_app. Qed.

Lemma has_nonspace_app_l a b : has_nonspace a = true → has_nonspace (a ++ b) = true.
Proof. intros Ha. by rewrite has_nonspace_app, Ha. Qed.

Lemma has_nonspace_app_r a b : has_nonspace b = true → has_nonspace (a ++ b) = true.
Proof. intros Hb. rewrite has_nonspace_app, Hb. apply orb_true_r. Qed.

Lemma lstrip_app a b : has_nonspace a = true → lstrip (a ++ b) = lstrip a ++ b.
Proof.
  induction a as [|c a IH]; simpl; [done|].
  destruct (isspace c); simpl; [exact IH | done].
Qed.

Lemma has_nonspace_reverse a : has_nonspace (reverse a) = has_nonspace a.
Proof.
  induction a as [|c a IH]; [done|].
  rewrite reverse_cons, has_nonspace_app, IH. simpl.
  rewrite orb_false_r. apply orb_comm.
Qed.

Lemma rstrip_app a b : has_nonspace b = true → rstrip (a ++ b) = a ++ rstrip b.
Proof.
  intros Hb. unfold rstrip.
  rewrite reverse_app, lstrip_app by (by rewrite has_nonspace_reverse).
  by rewrite reverse_app, reverse_involutive.
Qed.

(** Stripping touches only the ends: what stands between two pieces that
    each hold a character other than white space is kept. *)
Lemma strip_middle a x b :
  has_nonspace a = true → has_nonspace b = true →
  strip (a ++ x ++ b) = lstrip a ++ x ++ rstrip b.
Proof.
  intros Ha Hb. unfold strip.
  rewrite (assoc_L (++)), rstrip_app by done.
  rewrite <- (assoc_L (++)). by apply lstrip_app.
Qed.

Lemma str_in_occurs needle hay : str_in needle hay = true ↔ occurs needle hay.
Proof.
  split.
  - induction hay as [|c hay IH]; simpl; case_bool_decide as Hp.
    + intros _. destruct Hp as [k ->]. by exists [], k.
    + done.
    + intros _. destruct Hp as [k ->]. by exists [], k.
    + intros Hin. destruct (IH Hin) as (pre & post & ->). by exists (c :: pre), post.
  - intros (pre & post & ->). induction pre as [|c pre IH]; simpl.
    + destruct (needle ++ post) eqn:E; simpl;
        (rewrite bool_decide_eq_true_2; [done|]); rewrite <- E; by exists post.
    + by case_bool_decide.
Qed.

(** ** Prompt composition *)

Lemma has_nonspace_lines ind (ls : list str) :
  has_nonspace (concat ls) = true →
  has_nonspace (concat ((fun l => ind ++ l ++ nl) <$> ls)) = true.
Proof.
  induction ls as [|l ls IH]; [done|].
  rewrite fmap_cons. cbn [concat].
  rewrite !has_nonspace_app. intros [Hl|Hls]%orb_true_iff.
  - rewrite Hl. by rewrite !orb_true_r.
  - rewrite (IH Hls). by rewrite !orb_true_r.
Qed.

(** A piece [x] of a line of a triple-quoted literal survives [strip] when a
    character other than white space stands before it and another after it. *)
Lemma strip_block_occurs ind (lines : list str) i line p x q :
  lines !! i = Some line →
  line = p ++ x ++ q →
  has_nonspace (concat (take i lines) ++ p) = true →
  has_nonspace (q ++ concat (drop (S i) lines)) = true →
  occurs x (strip (block ind lines)).
Proof.
  intros Hi -> Hbefore Hafter.
  set (f := fun l : str => ind ++ l ++ nl).
  assert (block ind lines =
          (nl ++ concat (f <$> take i lines) ++ ind ++ p) ++ x ++
          (q ++ nl ++ concat (f <$> drop (S i) lines) ++ ind)) as ->.
  { unfold block. rewrite <- (take_drop_middle lines i _ Hi) at 1.
    rewrite fmap_app, concat_app. simpl. fold f. unfold f at 2.
    by rewrite <- !(assoc_L (++)). }
  rewrite strip_middle.
  - by eexists _, _.
  - apply has_nonspace_app_r.
    rewrite has_nonspace_app in Hbefore. apply orb_true_iff in Hbefore as [Hl|Hp].
    + apply has_nonspace_app_l. by apply has_nonspace_lines.
    + by do 2 apply has_nonspace_app_r.
  - rewrite has_nonspace_app in Hafter. apply orb_true_iff in Hafter as [Hq|Hl].
    + by apply has_nonspace_app_l.
    + do 2 apply has_nonspace_app_r. apply has_nonspace_app_l.
      by apply has_nonspace_lines.
Qed.

(** Finds a character other than white space in an append of pieces. *)
Ltac nonspace :=
  solve [ reflexivity
        | apply has_nonspace_app_l; nonspace
        | apply has_nonspace_app_r; nonspace ].

Ltac in_line i p :=
  eapply (strip_block_occurs _ _ i _ p);
  [ reflexivity
  | rewrite ?app_nil_r; reflexivity
  | cbn [firstn concat]; nonspace
  | cbn [skipn concat]; nonspace ].

Lemma baked_described_price title price d s :
  occurs price (baked_described title price d s).
Proof. unfold baked_described. in_line 3%nat (lit "Price: "). Qed.

Lemma baked_generic_price title price s :
  occurs price (baked_generic title price s).
Proof. unfold baked_generic. in_line 1%nat (lit "Price: "). Qed.

Lemma baked_described_add_price title price d s :
  occurs (lit "- Add the price: " ++ price) (baked_described title price d s).
Proof. unfold baked_described. in_line 9%nat (@nil N). Qed.

Lemma baked_generic_add_price title price s :
  occurs (lit "- Add the price: " ++ price) (baked_generic title price s).
Proof. unfold baked_generic. in_line 7%nat (@nil N). Qed.



(** In mode 2 the second assignment decides the prompt. *)
Lemma compose_prompt_baked (product_data : ProductData) (d s : str) :
  compose_prompt product_data d s false =
  Return (if truthy d
          then baked_described (dict_get product_data "title" [])
                 (dict_get product_data "price" []) d s
          else baked_generic (dict_get product_data "title" [])
                 (dict_get product_data "price" []) s).
Proof. reflexivity. Qed.

(** C4, as stated, fails in mode 1: none of the three clean prompts built
    for a product priced 45.999 holds the price. *)
Lemma C4_clean_prompt_omits_price :
  silla !! "price" = Some (lit "45.999") ∧
  (∃ prompt, compose_prompt silla Host.description Host.style true = Return prompt ∧
             str_in (lit "45.999") prompt = false) ∧
  (∃ prompt, compose_prompt silla Host.description [] true = Return prompt ∧
             str_in (lit "45.999") prompt = false) ∧
  (∃ prompt, compose_prompt silla [] [] true = Return prompt ∧
             str_in (lit "45.999") prompt = false).
Proof.
  split; [reflexivity|].
  repeat split; eexists; (split; [vm_compute; reflexivity | vm_compute; reflexivity]).
Qed.

(** C4, amended: in mode 2 (text rendered by the model) the prompt is always
    composed and holds the price string of the product as it is, once after
    [Price: ] and once after [- Add the price: ], whatever description and
    background style are available; in mode 1 (clean image) the prompt is
    built from the title, the description and the style alone, so two
    products that differ only in price get the same prompt. *)
Theorem C4_price_in_text_baked_prompt (product_data : ProductData) (d s : str) :
  (∃ prompt,
     compose_prompt product_data d s false = Return prompt ∧
     str_in (dict_get product_data "price" []) prompt = true ∧
     occurs (lit "- Add the price: " ++ dict_get product_data "price" []) prompt) ∧
  (∀ price, compose_prompt (<["price" := price]> product_data) d s true =
            compose_prompt product_data d s true).
Proof.
  split.
  - rewrite compose_prompt_baked. eexists; split; [reflexivity|].
    destruct (truthy d); split.
    + apply str_in_occurs, baked_described_price.
    + apply baked_described_add_price.
    + apply str_in_occurs, baked_generic_price.
    + apply baked_generic_add_price.
  - intros price. unfold compose_prompt, getitem.
    by rewrite lookup_insert_ne.
Qed.




(** ** The colour palette *)

Lemma format_02x_channel x :
  channel x → ∃ c1 c2, format_02x x = [c1; c2] ∧ int16 [c1; c2] = Return x.
Proof.
  intros [Hlo Hhi].
  assert (forallb reads_back (range 256) = true) as Hall by (vm_compute; reflexivity).
  rewrite forallb_forall in Hall.
  specialize (Hall x). unfold reads_back in Hall.
  destruct (format_02x x) as [|c1 [|c2 [|? ?]]];
    try (discriminate Hall; [apply in_map_iff; exists (Z.to_nat x); split; [lia | apply in_seq; lia]]).
  exists c1, c2. split; [done|].
  destruct (int16 [c1; c2]) as [v|]; [|discriminate Hall; apply in_map_iff;
    exists (Z.to_nat x); split; [lia | apply in_seq; lia]].
  f_equal. apply Z.eqb_eq, Hall.
  apply in_map_iff. exists (Z.to_nat x). split; [lia | apply in_seq; lia].
Qed.

(** [hex_to_rgb] reads back what [rgb_to_hex] wrote. *)
Lemma hex_to_rgb_to_hex r g b :
  channel r → channel g → channel b →
  hex_to_rgb (rgb_to_hex (r, g, b)) = Return (r, g, b).
Proof.
  intros (r1 & r2 & Er & Hr)%format_02x_channel (g1 & g2 & Eg & Hg)%format_02x_channel
         (b1 & b2 & Eb & Hb)%format_02x_channel.
  unfold rgb_to_hex, hex_to_rgb. rewrite Er, Eg, Eb.
  change (slice 1 3 (lit "#" ++ [r1; r2] ++ [g1; g2] ++ [b1; b2])) with [r1; r2].
  change (slice 3 5 (lit "#" ++ [r1; r2] ++ [g1; g2] ++ [b1; b2])) with [g1; g2].
  change (slice 5 7 (lit "#" ++ [r1; r2] ++ [g1; g2] ++ [b1; b2])) with [b1; b2].
  by rewrite Hr, Hg, Hb.
Qed.

Lemma channel_light c : channel c → channel (Z.min 255 (c + 60)).
Proof. unfold channel. lia. Qed.

Lemma channel_dark c : channel c → channel (Z.max 0 (c - 40)).
Proof. unfold channel. lia. Qed.

Lemma channel_complement c : channel c → channel (255 - c).
Proof. unfold channel. lia. Qed.

(** C9: for a dominant colour whose channels (r, g, b) lie in [0,255], the
    palette keeps the colour as primary; the channels of complement are
    255 - r, 255 - g, 255 - b; those of light are min(255, c + 60) and those
    of dark max(0, c - 40), all within [0,255]; neutral is (248, 249, 250). *)
Theorem C9_palette_channels (main_color : str) (others : list str) (r g b : Z) :
  hex_to_rgb main_color = Return (r, g, b) →
  channel r → channel g → channel b →
  let palette := generate_color_palette (main_color :: others) in
  primary palette = main_color ∧
  hex_to_rgb (complement palette) = Return (255 - r, 255 - g, 255 - b) ∧
  hex_to_rgb (light palette) =
    Return (Z.min 255 (r + 60), Z.min 255 (g + 60), Z.min 255 (b + 60)) ∧
  hex_to_rgb (dark palette) =
    Return (Z.max 0 (r - 40), Z.max 0 (g - 40), Z.max 0 (b - 40)) ∧
  (channel (Z.min 255 (r + 60)) ∧ channel (Z.min 255 (g + 60)) ∧
   channel (Z.min 255 (b + 60))) ∧
  (channel (Z.max 0 (r - 40)) ∧ channel (Z.max 0 (g - 40)) ∧
   channel (Z.max 0 (b - 40))) ∧
  hex_to_rgb (neutral palette) = Return (248, 249, 250).
Proof.
  intros Hrgb Hr Hg Hb palette. subst palette.
  unfold generate_color_palette. simpl first_color.
  change (mbind ?f (Return main_color)) with (f main_color). cbv beta.
  rewrite Hrgb. change (mbind ?f (Return (r, g, b))) with (f (r, g, b)).
  cbv beta iota. cbn [primary light dark complement neutral].
  repeat split; try (apply Hr || apply Hg || apply Hb); try (unfold channel in *; lia).
  - apply hex_to_rgb_to_hex; by apply channel_complement.
  - apply hex_to_rgb_to_hex; by apply channel_light.
  - apply hex_to_rgb_to_hex; by apply channel_dark.
Qed.

Lemma C9_palette_channels_witness :
  let palette := generate_color_palette [lit "#4a90e2"; lit "#7b68ee"; lit "#50c878"] in
  hex_to_rgb (complement palette) = Return (181, 111, 29) ∧
  hex_to_rgb (light palette) = Return (134, 204, 255) ∧
  hex_to_rgb (dark palette) = Return (34, 104, 186).
Proof.
  pose proof (C9_palette_channels (lit "#4a90e2") [lit "#7b68ee"; lit "#50c878"]
                74 144 226 eq_refl) as Hp.
  destruct Hp as (_ & Hc & Hl & Hd & _); [unfold channel; lia ..|].
  intros palette. split; [exact Hc | split; [exact Hl | exact Hd]].
Defined.

(** ** The title word-wrap *)

Section Wrap.
Variable measure : str → Z.
Variable width : Z.
Variable words : list str.

Lemma wrap_loop_in_order (ws lines : list str) (current_line : str) :
  ws ⊆ words →
  Forall (in_order measure width words) lines →
  (current_line = [] ∨ in_order measure width words current_line) →
  Forall (in_order measure width words)
    (wrap_loop measure width ws lines current_line).1 ∧
  ((wrap_loop measure width ws lines current_line).2 = [] ∨
   in_order measure width words (wrap_loop measure width ws lines current_line).2).
Proof.
  revert lines current_line.
  induction ws as [|word ws IH]; intros lines current_line Hsub Hlines Hcur.
  - done.
  - assert (ws ⊆ words) as Hsub' by (intros w Hw; apply Hsub; by constructor).
    cbn [wrap_loop].
    destruct (Z.leb_spec (measure (strip (current_line ++ lit " " ++ word))) (width - 40))
      as [Hfit|Hwide].
    + apply IH; [done | done | right; by left].
    + apply IH; [done | | right; right; apply Hsub; by constructor].
      destruct current_line as [|c cl]; [done|].
      apply Forall_app. split; [done|].
      apply Forall_singleton. by destruct Hcur.
Qed.
End Wrap.

Lemma wrap_title_in_order measure width title :
  Forall (in_order measure width (split title)) (wrap_title measure width title).
Proof.
  unfold wrap_title.
  pose proof (wrap_loop_in_order measure width (split title) (split title) [] []) as Hloop.
  destruct (wrap_loop measure width (split title) [] []) as [lines current_line].
  destruct Hloop as [Hlines Hcur]; [done | done | by left |].
  simpl in *. destruct current_line as [|c cl]; [done|].
  apply Forall_app. split; [done|].
  apply Forall_singleton. by destruct Hcur.
Qed.

(** The words [split] gives are not empty and hold no white space. *)
Lemma split_from_words cur s :
  has_nonspace cur = true ∨ cur = [] →
  forallb (fun c => negb (isspace c)) cur = true →
  Forall (fun w => w ≠ [] ∧ forallb (fun c => negb (isspace c)) w = true)
    (split_from cur s).
Proof.
  revert cur. induction s as [|c s IH]; intros cur Hne Hcur; simpl.
  - destruct cur as [|x cur]; [done|].
    apply Forall_singleton. split.
    + rewrite reverse_cons. by destruct (reverse cur).
    + rewrite forallb_forall in *. intros y Hy. apply Hcur.
      apply list_elem_of_In. apply list_elem_of_In in Hy. by apply elem_of_reverse.
  - destruct (isspace c) eqn:Hc.
    + destruct cur as [|x cur]; [by apply IH; [right|]|].
      apply Forall_cons. split; [|by apply IH; [right|]].
      split.
      * rewrite reverse_cons. by destruct (reverse cur).
      * rewrite forallb_forall in *. intros y Hy. apply Hcur.
        apply list_elem_of_In. apply list_elem_of_In in Hy. by apply elem_of_reverse.
    + apply IH.
      * left. simpl. by rewrite Hc.
      * simpl. by rewrite Hc.
Qed.

Lemma split_words s :
  Forall (fun w => w ≠ [] ∧ forallb (fun c => negb (isspace c)) w = true) (split s).
Proof. apply split_from_words; [by right | done]. Qed.

(** C8, as stated, fails on a title made of one long word: at 30 pixels a
    character the 48 characters of the word take 1440 pixels, the canvas of
    1024 leaves 984, and the word is drawn as the first line. *)
Lemma C8_long_word_overflows :
  let measure := fun s : str => 30 * Z.of_nat (length s) in
  let title := lit "SillaDeOficinaErgonomicaReclinableConApoyabrazos" in
  drawn_title_lines measure 1024 title = [title] ∧
  ¬ (measure title ≤ 1024 - 40).
Proof. split; [vm_compute; reflexivity | vm_compute; by intros H; apply H]. Qed.

(** C8, amended: the word-wrap draws at most 2 lines, and every drawn line
    either has a rendered width of at most the canvas width minus 40, or is a
    single word of the (truncated) title put on a line of its own; so when
    every word fits within that width by itself, every drawn line does. *)
Theorem C8_title_lines (measure : str → Z) (width : Z) (title : str) :
  let lines := drawn_title_lines measure width title in
  let words := split (truncate_title title) in
  (length lines ≤ 2)%nat ∧
  (∀ line, line ∈ lines → measure line ≤ width - 40 ∨ line ∈ words) ∧
  (∀ word, word ∈ words → word ≠ [] ∧ has_nonspace word = true ∧
                          forallb (fun c => negb (isspace c)) word = true) ∧
  ((∀ word, word ∈ words → measure word ≤ width - 40) →
   ∀ line, line ∈ lines → measure line ≤ width - 40).
Proof.
  intros lines words.
  assert (∀ line, line ∈ lines → measure line ≤ width - 40 ∨ line ∈ words) as Hin.
  { intros line Hline.
    pose proof (wrap_title_in_order measure width (truncate_title title)) as Hall.
    rewrite Forall_forall in Hall. apply Hall.
    by eapply subseteq_take. }
  split; [|split; [exact Hin|split]].
  - subst lines. unfold drawn_title_lines. rewrite length_take. lia.
  - intros word Hword.
    pose proof (split_words (truncate_title title)) as Hall.
    rewrite Forall_forall in Hall. destruct (Hall word Hword) as [Hne Hns].
    repeat split; [done| |done].
    destruct word as [|c word]; [done|]. simpl in *.
    apply andb_true_iff in Hns as [-> _]. done.
  - intros Hwords line Hline. destruct (Hin line Hline) as [?|?]; [done|].
    by apply Hwords.
Qed.

(** ** The text-overlay renderer *)

Lemma bind_Return {A B} (m : Exc A) (f : A → Exc B) (b : B) :
  m ≫= f = Return b → ∃ a, m = Return a ∧ f a = Return b.
Proof. destruct m as [a|e]; [by exists a | done]. Qed.

Lemma bind_Raise {A B} (m : Exc A) (f : A → Exc B) (e : exn) :
  m = Raise e → m ≫= f = Raise e.
Proof. by intros ->. Qed.

Section OverlayFacts.
Context `{lib : PIL}.

(** A render that returns has encoded some canvas at [JPEG_QUALITY]. *)
Lemma render_encodes img fonts product_data out :
  render img fonts product_data = Return out →
  ∃ canvas, save_jpeg canvas JPEG_QUALITY = Return out.
Proof.
  unfold render. intros Hr.
  repeat match type of Hr with
         | _ ≫= _ = Return _ =>
             let x := fresh "x" in
             let Hx := fresh "Hx" in
             apply bind_Return in Hr as (x & Hx & Hr)
         | (let '(_, _) := ?p in _) = Return _ => destruct p
         end.
  by eexists.
Qed.

(** When the first [truetype] raises, the four fonts are the built-in one. *)
Lemma load_fonts_default e f :
  truetype DEJAVU_BOLD 52 = Raise e →
  load_default = Return f →
  load_fonts = Return {| title_font := f; price_font := f; desc_font := f; cta_font := f |}.
Proof. unfold load_fonts. by intros -> ->. Qed.

(** When [truetype] and [load_default] both raise, no font is loaded. *)
Lemma load_fonts_none e e' :
  truetype DEJAVU_BOLD 52 = Raise e →
  load_default = Raise e' →
  load_fonts = Raise e'.
Proof. unfold load_fonts. by intros -> ->. Qed.
End OverlayFacts.

(** C7, as stated, fails for a failure to load the fonts: on a host where
    [truetype] raises for every font file, the renderer goes on with the
    built-in font and returns the encoded picture, not the bytes it was
    given. *)
Lemma C7_font_failure_is_recovered :
  (∀ path size, is_raise (@truetype Host.pil path size) = true) ∧
  add_text_overlay (lib := Host.pil) [Byte.x01] silla [] ≠ [Byte.x01].
Proof. split; [done|]. vm_compute. discriminate. Qed.

(** C7, amended: the renderer never raises (it is a function to bytes).
    Whenever a step raises out of its [try] block it returns the bytes it was
    given, in particular when the buffer cannot be opened as an image and
    when neither the font files nor the built-in font can be loaded;
    otherwise it returns the bytes of a canvas encoded as JPEG at quality 95,
    which is at least 90. A failure to load the font files alone is not such
    a failure: the render goes on with the built-in font. *)
Theorem C7_overlay_recovers `{lib : PIL} (image_data : bytes) (product_data : ProductData)
    (ad_concept : str) :
  (∀ e, add_text_overlay_try image_data product_data = Raise e →
        add_text_overlay image_data product_data ad_concept = image_data) ∧
  (∀ e, Image_open image_data = Raise e →
        add_text_overlay image_data product_data ad_concept = image_data) ∧
  (∀ e e', truetype DEJAVU_BOLD 52 = Raise e → load_default = Raise e' →
           add_text_overlay image_data product_data ad_concept = image_data) ∧
  (∀ out, add_text_overlay_try image_data product_data = Return out →
          add_text_overlay image_data product_data ad_concept = out ∧
          ∃ canvas, save_jpeg canvas JPEG_QUALITY = Return out) ∧
  (add_text_overlay image_data product_data ad_concept = image_data ∨
   ∃ canvas, save_jpeg canvas JPEG_QUALITY =
             Return (add_text_overlay image_data product_data ad_concept)) ∧
  90 ≤ JPEG_QUALITY ∧
  (∀ e f img, truetype DEJAVU_BOLD 52 = Raise e → load_default = Return f →
              Image_open image_data = Return img → mode_is_RGB img = true →
              add_text_overlay_try image_data product_data =
              render img {| title_font := f; price_font := f; desc_font := f;
                            cta_font := f |} product_data).
Proof.
  assert (∀ out, add_text_overlay_try image_data product_data = Return out →
                 ∃ canvas, save_jpeg canvas JPEG_QUALITY = Return out) as Henc.
  { unfold add_text_overlay_try. intros out Hr.
    apply bind_Return in Hr as (img & _ & Hr).
    apply bind_Return in Hr as (img' & _ & Hr).
    apply bind_Return in Hr as (fonts & _ & Hr).
    by eapply render_encodes. }
  unfold add_text_overlay. split_and!.
  - by intros e ->.
  - intros e He. unfold add_text_overlay_try. by rewrite He.
  - intros e e' Ht Hd. unfold add_text_overlay_try.
    rewrite (load_fonts_none e e' Ht Hd).
    destruct (Image_open image_data) as [img|]; [|done]. simpl.
    destruct (if mode_is_RGB img then mret img else convert "RGB" img); done.
  - intros out Hr. rewrite Hr. split; [done|]. by apply Henc.
  - destruct (add_text_overlay_try image_data product_data) as [out|] eqn:Hr.
    + right. by apply Henc.
    + by left.
  - done.
  - intros e f img Ht Hd Ho Hm. unfold add_text_overlay_try.
    rewrite Ho. simpl. rewrite Hm. simpl.
    by rewrite (load_fonts_default e f Ht Hd).
Qed.

(** ** The run of the orchestrator *)

Section RunFacts.
Context `{lib : PIL}.
Variable b64decode : str → Exc bytes.
Variable backend : Backend.
Variable product_data : ProductData.
Variable ad_concept : str.
Variables d s : str.

Let run := run_ad b64decode backend product_data ad_concept d s.
Let read := read_response b64decode.

(** A run in mode 1: the configured request, then the bare one if the
    first was rejected, and nothing after that. *)
Lemma run_clean prompt :
  compose_prompt product_data d s true = Return prompt →
  run true =
  let req := primary_request true prompt in
  match backend [] req with
  | Return r =>
      (Return (read r product_data ad_concept true false),
       {| calls := [req]; used_fallback := false |})
  | Raise _ =>
      match backend [req] (bare req) with
      | Return r =>
          (Return (read r product_data ad_concept true false),
           {| calls := [req; bare req]; used_fallback := false |})
      | Raise _ =>
          (Return (ResultPair None false),
           {| calls := [req; bare req]; used_fallback := false |})
      end
  end.
Proof.
  intros Hp. subst run read.
  unfold run_ad, generate_instagram_ad, request_image, lift_exc.
  cbv [mbind Run_bind mret Run_ret try_run generate_content set_used_fallback
       get_used_fallback initial calls used_fallback primary_request bare model
       contents config].
  rewrite Hp.
  destruct (backend [] _); [reflexivity|].
  cbn [app]. destruct (backend [_] _); reflexivity.
Qed.

(** Mode 1 on a record without title: the exception leaves the function
    before any request. *)
Lemma run_clean_raises e :
  compose_prompt product_data d s true = Raise e →
  run true = (Raise e, initial).
Proof.
  intros Hp. subst run.
  unfold run_ad, generate_instagram_ad, lift_exc.
  cbv [mbind Run_bind]. by rewrite Hp.
Qed.

(** A run in mode 2: the configured request, then the configured request to
    the fallback model if the first was rejected, and nothing after that. *)
Lemma run_baked prompt :
  compose_prompt product_data d s false = Return prompt →
  run false =
  let req := primary_request false prompt in
  match backend [] req with
  | Return r =>
      (Return (read r product_data ad_concept false false),
       {| calls := [req]; used_fallback := false |})
  | Raise _ =>
      let fb := fallback_request product_data d s in
      match backend [req] fb with
      | Return r =>
          (Return (read r product_data ad_concept false true),
           {| calls := [req; fb]; used_fallback := true |})
      | Raise _ =>
          (Return (ResultPair None false),
           {| calls := [req; fb]; used_fallback := true |})
      end
  end.
Proof.
  intros Hp. subst run read.
  unfold run_ad, generate_instagram_ad, request_image, lift_exc.
  cbv [mbind Run_bind mret Run_ret try_run generate_content set_used_fallback
       get_used_fallback initial calls used_fallback primary_request
       fallback_request].
  rewrite Hp.
  destruct (backend [] _); [reflexivity|].
  cbn [app]. destruct (backend [_] _); reflexivity.
Qed.

(** The flag of a pair read from a response is the flag handed in. *)
Lemma scan_parts_flag ps uto uf image flag :
  scan_parts b64decode ps product_data ad_concept uto uf = ResultPair image flag →
  flag = uf.
Proof.
  induction ps as [|part ps IH]; simpl; [congruence|].
  destruct (truthy _); [done|].
  destruct (inline_data part) as [blob|]; [|done].
  destruct (negb _); [done|].
  destruct (match data blob with
            | Some (DataStr s0) => b64decode s0
            | Some (DataBytes b) => Return b
            | None => Raise DecodeError
            end); [|done].
  unfold deliver. destruct uto; [congruence|]. destruct (negb uf); congruence.
Qed.

Lemma read_response_flag r uto uf image flag :
  read r product_data ad_concept uto uf = ResultPair image flag → flag = uf.
Proof.
  subst read. unfold read_response.
  destruct r as [r|]; [|done].
  destruct (candidates r) as [[|c cs]|]; [done| |done].
  destruct (content c) as [ct|]; [|done].
  destruct (parts ct) as [[|p ps]|]; [done| |done].
  apply scan_parts_flag.
Qed.

(** Parts that give no image leave the pair of [None] and the flag. *)
Lemma scan_parts_no_image ps uto uf :
  forallb (no_image b64decode) ps = true →
  scan_parts b64decode ps product_data ad_concept uto uf = ResultPair None uf.
Proof.
  induction ps as [|part ps IH]; simpl; [done|].
  intros [Hpart Hps]%andb_true_iff. specialize (IH Hps).
  unfold no_image in Hpart.
  destruct (truthy _); [done|]. simpl in Hpart.
  destruct (inline_data part) as [blob|]; [|done].
  destruct (negb _); [done|]. simpl in Hpart.
  destruct (data blob) as [[s0|b]|]; [|done|done].
  by destruct (b64decode s0).
Qed.
End RunFacts.












(** C2: in a mode-1 run (clean image) every request goes to the image
    generation model with the composed prompt, never to the fallback model;
    there are at most two requests; when the configured request and its bare
    repetition are both rejected the run ends there with the failure value
    [(None, False)]; the flag [used_fallback] stays [False], in the state and
    in every pair returned. *)
Theorem C2_clean_never_falls_back `{lib : PIL} (b64decode : str → Exc bytes)
    (backend : Backend) (product_data : ProductData) (ad_concept d s : str) :
  let run := run_ad b64decode backend product_data ad_concept d s true in
  Forall (fun req => model req = IMAGE_GENERATION_MODEL ∧
                     model req ≠ FALLBACK_TEXT_TO_IMAGE_MODEL ∧
                     compose_prompt product_data d s true = Return (contents req))
    (calls run.2) ∧
  (length (calls run.2) ≤ 2)%nat ∧
  used_fallback run.2 = false ∧
  (∀ image flag, run.1 = Return (ResultPair image flag) → flag = false) ∧
  (∀ prompt e1 e2,
     compose_prompt product_data d s true = Return prompt →
     backend [] (primary_request true prompt) = Raise e1 →
     backend [primary_request true prompt] (bare (primary_request true prompt)) = Raise e2 →
     run = (Return (ResultPair None false),
            {| calls := [primary_request true prompt; bare (primary_request true prompt)];
               used_fallback := false |})).
Proof.
  intros run. subst run.
  destruct (compose_prompt product_data d s true) as [prompt|e] eqn:Hp.
  - rewrite (run_clean _ _ _ _ _ _ _ Hp). cbv zeta.
    destruct (backend [] _) as [r1|e1] eqn:H1;
      [|destruct (backend [_] _) as [r2|e2] eqn:H2];
      unfold primary_request, bare in *; simpl in *; split_and!.
    + by repeat constructor.
    + lia.
    + done.
    + intros image flag [= Hr]. by apply read_response_flag in Hr.
    + intros ? ? ? [= ?] H1'. subst. congruence.
    + by repeat constructor.
    + lia.
    + done.
    + intros image flag [= Hr]. by apply read_response_flag in Hr.
    + intros ? ? ? [= ?] _ H2'. subst. congruence.
    + by repeat constructor.
    + lia.
    + done.
    + by intros image flag [= _ <-].
    + intros ? ? ? [= ?]. by subst.
  - rewrite (run_clean_raises _ _ _ _ _ _ _ Hp). simpl. split_and!; try done.
    simpl; lia.
Qed.

(** C10: in a mode-2 run whose first request and whose request to the
    fallback model are both rejected, the function returns [(None, False)]
    although [used_fallback] was set: the value returned is the one a mode-1
    run returns when its two requests are rejected, where the fallback model
    was never asked. *)
Theorem C10_failed_fallback_hides_flag `{lib : PIL} (b64decode : str → Exc bytes)
    (backend : Backend) (product_data : ProductData) (ad_concept d s prompt : str)
    (e1 e2 : exn) :
  compose_prompt product_data d s false = Return prompt →
  backend [] (primary_request false prompt) = Raise e1 →
  backend [primary_request false prompt] (fallback_request product_data d s) = Raise e2 →
  let run := run_ad b64decode backend product_data ad_concept d s false in
  run.1 = Return (ResultPair None false) ∧
  used_fallback run.2 = true ∧
  calls run.2 = [primary_request false prompt; fallback_request product_data d s] ∧
  (∀ backend' prompt' e1' e2',
     compose_prompt product_data d s true = Return prompt' →
     backend' [] (primary_request true prompt') = Raise e1' →
     backend' [primary_request true prompt'] (bare (primary_request true prompt')) =
       Raise e2' →
     let clean := run_ad b64decode backend' product_data ad_concept d s true in
     clean.1 = run.1 ∧
     Forall (fun req => model req ≠ FALLBACK_TEXT_TO_IMAGE_MODEL) (calls clean.2)).
Proof.
  intros Hp H1 H2 run. subst run.
  rewrite (run_baked _ _ _ _ _ _ _ Hp). cbv zeta. rewrite H1, H2.
  split_and!; [done | done | done |].
  intros backend' prompt' e1' e2' Hp' H1' H2'.
  rewrite (run_clean _ _ _ _ _ _ _ Hp'). cbv zeta. rewrite H1', H2'.
  split; [done|]. by repeat constructor.
Qed.

Lemma C10_failed_fallback_hides_flag_witness :
  let run := run_ad (lib := Host.pil) Host.b64decode Host.down silla []
               Host.description Host.style false in
  run.1 = Return (ResultPair None false) ∧ used_fallback run.2 = true.
Proof.
  pose proof (C10_failed_fallback_hides_flag (lib := Host.pil) Host.b64decode Host.down
                silla [] Host.description Host.style _
                (BackendError (lit "model not found")) (BackendError (lit "model not found"))
                eq_refl eq_refl eq_refl)
    as (Hout & Hflag & _).
  intros run. split; [exact Hout | exact Hflag].
Defined.

(** ** Requests of a run, one by one *)

Lemma split_one {A} (a r : A) (before after : list A) :
  [a] = before ++ r :: after → before = [] ∧ r = a ∧ after = [].
Proof. destruct before as [|x [|y before]]; intros ?; by simplify_eq/=. Qed.

Lemma split_two {A} (a b r : A) (before after : list A) :
  [a; b] = before ++ r :: after →
  (before = [] ∧ r = a ∧ after = [b]) ∨ (before = [a] ∧ r = b ∧ after = []).
Proof.
  destruct before as [|x [|y [|z before]]]; intros ?; simplify_eq/=; auto.
Qed.

(** C3, as stated, fails in mode 2: when the backend rejects every request,
    the configured request to the text-to-image model is followed by the
    configured request to the fallback model, and neither is repeated
    without configuration. *)
Lemma C3_text_baked_has_no_bare_retry :
  let run := run_ad (lib := Host.pil) Host.b64decode Host.down silla []
               Host.description Host.style false in
  ¬ retry_pattern Host.down (calls run.2) ∧
  Forall (fun req => is_Some (config req)) (calls run.2) ∧
  length (calls run.2) = 2%nat.
Proof.
  intros run. subst run.
  rewrite (run_baked (lib := Host.pil) Host.b64decode Host.down silla []
             Host.description Host.style _ eq_refl).
  cbv zeta. unfold Host.down at 1 2. cbn [snd calls].
  split; [|split; [|done]].
  - intros Hretry.
    destruct (Hretry [] _ _ eq_refl) as [after' Hafter]; [by eexists | done |].
    apply (f_equal (fun l => match l with req :: _ => config req | [] => None end))
      in Hafter.
    cbv [fallback_request bare config] in Hafter. discriminate Hafter.
  - repeat constructor; by eexists.
Qed.

(** C3, amended: every run opens with a request that carries the sampling
    configuration. Only in mode 1 is a rejected configured request repeated,
    once, as a bare request (same model, same prompt, no configuration): the
    retry pattern holds there, and a bare request is never followed by
    another request. In mode 2 every request carries the configuration: when
    the configured request to the text-to-image model is rejected, the next
    request is the configured request to the fallback model, and when that
    one is rejected the run ends with [(None, False)]. *)
Theorem C3_bare_retry_only_in_clean_mode `{lib : PIL} (b64decode : str → Exc bytes)
    (backend : Backend) (product_data : ProductData) (ad_concept d s : str) :
  let run := run_ad b64decode backend product_data ad_concept d s in
  (∀ use_text_overlay req,
     head (calls (run use_text_overlay).2) = Some req → is_Some (config req)) ∧
  retry_pattern backend (calls (run true).2) ∧
  (∀ before req after,
     calls (run true).2 = before ++ req :: after → config req = None →
     after = [] ∧ ∃ first, before = [first] ∧ req = bare first ∧
                           is_raise (backend [] first) = true) ∧
  Forall (fun req => is_Some (config req)) (calls (run false).2) ∧
  (∀ prompt e,
     compose_prompt product_data d s false = Return prompt →
     backend [] (primary_request false prompt) = Raise e →
     calls (run false).2 = [primary_request false prompt; fallback_request product_data d s] ∧
     ∀ e', backend [primary_request false prompt] (fallback_request product_data d s) = Raise e' →
           (run false).1 = Return (ResultPair None false)).
Proof.
  intros run. subst run.
  pose proof (run_baked b64decode backend product_data ad_concept d s _
                (compose_prompt_baked product_data d s)) as Hbaked.
  cbv zeta in Hbaked.
  destruct (compose_prompt product_data d s true) as [prompt|e] eqn:Hp.
  - pose proof (run_clean b64decode backend product_data ad_concept d s _ Hp) as Hclean.
    cbv zeta in Hclean. split_and!.
    + intros [|] req; [rewrite Hclean; clear Hbaked | rewrite Hbaked; clear Hclean].
      * destruct (backend [] _); [|destruct (backend [_] _)];
          simpl; intros ?; simplify_eq/=; exact (ex_intro _ _ eq_refl).
      * destruct (backend [] _); [|destruct (backend [_] _)];
          simpl; intros ?; simplify_eq/=; exact (ex_intro _ _ eq_refl).
    + rewrite Hclean. clear Hbaked. intros before req after Hcalls Hcfg Hraise.
      destruct (backend [] _) as [r1|e1] eqn:H1;
        [|destruct (backend [_] _) as [r2|e2] eqn:H2]; cbn [snd calls] in Hcalls.
      * apply split_one in Hcalls as (-> & -> & ->). by rewrite H1 in Hraise.
      * apply split_two in Hcalls as [(-> & -> & ->)|(-> & -> & ->)].
        -- by eexists.
        -- by destruct Hcfg.
      * apply split_two in Hcalls as [(-> & -> & ->)|(-> & -> & ->)].
        -- by eexists.
        -- by destruct Hcfg.
    + rewrite Hclean. clear Hbaked. intros before req after Hcalls Hcfg.
      destruct (backend [] _) as [r1|e1] eqn:H1;
        [|destruct (backend [_] _) as [r2|e2] eqn:H2]; cbn [snd calls] in Hcalls.
      * by apply split_one in Hcalls as (-> & -> & ->).
      * apply split_two in Hcalls as [(-> & -> & ->)|(-> & -> & ->)]; [done|].
        split; [done|]. eexists. split_and!; [done | done |]. by rewrite H1.
      * apply split_two in Hcalls as [(-> & -> & ->)|(-> & -> & ->)]; [done|].
        split; [done|]. eexists. split_and!; [done | done |]. by rewrite H1.
    + rewrite Hbaked. clear Hclean.
      destruct (backend [] _); [|destruct (backend [_] _)];
        repeat constructor; by eexists.
    + intros prompt' e' [= <-] H1. rewrite Hbaked, H1. clear Hclean Hbaked. split.
      * by destruct (backend [_] _).
      * by intros e'' ->.
  - pose proof (run_clean_raises b64decode backend product_data ad_concept d s _ Hp)
      as Hclean.
    split_and!.
    + intros [|] req; [by rewrite Hclean | rewrite Hbaked; clear Hclean].
      destruct (backend [] _); [|destruct (backend [_] _)];
        simpl; intros ?; simplify_eq/=; exact (ex_intro _ _ eq_refl).
    + rewrite Hclean. intros [|? ?] ? ? ?; done.
    + rewrite Hclean. intros [|? ?] ? ? ?; done.
    + rewrite Hbaked. clear Hclean.
      destruct (backend [] _); [|destruct (backend [_] _)];
        repeat constructor; by eexists.
    + intros prompt' e' [= <-] H1. rewrite Hbaked, H1. clear Hclean Hbaked. split.
      * by destruct (backend [_] _).
      * by intros e'' ->.
Qed.

(** ** Responses without an image *)

(** C6, as stated, fails on an empty sequence of parts: the guard on
    [candidate.content.parts] returns the bare [None], which is not the pair
    of [None] and the flag. *)
Lemma C6_empty_parts_returns_bare_none :
  let run := run_ad (lib := Host.pil) Host.b64decode (Host.answering []) silla []
               Host.description Host.style true in
  calls run.2 = [primary_request true
                   (clean_full (lit "Silla de Oficina") Host.description Host.style)] ∧
  run.1 = Return ResultNone ∧
  run.1 ≠ Return (ResultPair None (used_fallback run.2)).
Proof.
  intros run. subst run.
  rewrite (run_clean (lib := Host.pil) Host.b64decode (Host.answering []) silla []
             Host.description Host.style _ eq_refl).
  cbv zeta. unfold Host.answering at 1. by cbn.
Qed.

(** C6, amended: when the response the run reads (the answer to its last
    request) has a first candidate with content, then an empty sequence of
    parts makes the function return the bare [None], without a flag; a
    sequence of parts that is not empty and of which none gives an image
    (each carries text, or no inline data, or empty data, or a string that
    does not decode) makes it return the pair of [None] and the current
    value of [used_fallback]. *)
Theorem C6_no_image_outcomes `{lib : PIL} (b64decode : str → Exc bytes)
    (backend : Backend) (product_data : ProductData) (ad_concept d s : str)
    (use_text_overlay : bool) (before : list Request) (req : Request)
    (ps : list Part) (others : list Candidate) :
  let run := run_ad b64decode backend product_data ad_concept d s use_text_overlay in
  calls run.2 = before ++ [req] →
  backend before req =
    Return (Some {| candidates :=
                      Some ({| content := Some {| parts := Some ps |} |} :: others) |}) →
  (ps = [] → run.1 = Return ResultNone) ∧
  (ps ≠ [] → forallb (no_image b64decode) ps = true →
   run.1 = Return (ResultPair None (used_fallback run.2))).
Proof.
  intros run Hcalls Hanswer.
  assert (∀ uf, (ps = [] →
                 read_response b64decode
                   (Some {| candidates :=
                              Some ({| content := Some {| parts := Some ps |} |} :: others) |})
                   product_data ad_concept use_text_overlay uf = ResultNone) ∧
                (ps ≠ [] → forallb (no_image b64decode) ps = true →
                 read_response b64decode
                   (Some {| candidates :=
                              Some ({| content := Some {| parts := Some ps |} |} :: others) |})
                   product_data ad_concept use_text_overlay uf = ResultPair None uf))
    as Hread.
  { intros uf. split; [by intros ->|].
    intros Hne Hall. cbn [read_response candidates content parts].
    destruct ps as [|p ps']; [done|]. by apply scan_parts_no_image. }
  subst run. revert Hcalls.
  destruct use_text_overlay.
  - destruct (compose_prompt product_data d s true) as [prompt|e] eqn:Hp.
    + rewrite (run_clean _ _ _ _ _ _ _ Hp). cbv zeta.
      destruct (backend [] (primary_request true prompt)) as [r1|e1] eqn:H1;
        [|destruct (backend [primary_request true prompt] _) as [r2|e2] eqn:H2];
        cbn [fst snd calls used_fallback]; intros Hcalls.
      * apply (app_inj_tail []) in Hcalls as [<- <-].
        rewrite H1 in Hanswer. injection Hanswer as ->.
        split; intros; f_equal; by apply Hread.
      * apply (app_inj_tail [_]) in Hcalls as [<- <-].
        rewrite H2 in Hanswer. injection Hanswer as ->.
        split; intros; f_equal; by apply Hread.
      * apply (app_inj_tail [_]) in Hcalls as [<- <-].
        by rewrite H2 in Hanswer.
    + rewrite (run_clean_raises _ _ _ _ _ _ _ Hp). cbn [snd initial calls].
      intros Hcalls. by destruct before.
  - rewrite (run_baked _ _ _ _ _ _ _ (compose_prompt_baked product_data d s)).
    cbv zeta.
    destruct (backend [] (primary_request false _)) as [r1|e1] eqn:H1;
      [|destruct (backend [primary_request false _] _) as [r2|e2] eqn:H2];
      cbn [fst snd calls used_fallback]; intros Hcalls.
    + apply (app_inj_tail []) in Hcalls as [<- <-].
      rewrite H1 in Hanswer. injection Hanswer as ->.
        split; intros; f_equal; by apply Hread.
    + apply (app_inj_tail [_]) in Hcalls as [<- <-].
      rewrite H2 in Hanswer. injection Hanswer as ->.
        split; intros; f_equal; by apply Hread.
    + apply (app_inj_tail [_]) in Hcalls as [<- <-].
      by rewrite H2 in Hanswer.
Qed.

Lemma C6_no_image_outcomes_witness :
  let run := run_ad (lib := Host.pil) Host.b64decode
               (Host.second_try [Host.text_part (lit "Here is your image")]) silla []
               Host.description Host.style false in
  run.1 = Return (ResultPair None true).
Proof.
  intros run.
  pose proof (C6_no_image_outcomes (lib := Host.pil) Host.b64decode
                (Host.second_try [Host.text_part (lit "Here is your image")]) silla []
                Host.description Host.style false
                [primary_request false
                   (baked_described (lit "Silla de Oficina") (lit "45.999")
                      Host.description Host.style)]
                (fallback_request silla Host.description Host.style)
                [Host.text_part (lit "Here is your image")] []
                eq_refl eq_refl) as [_ Hpair].
  apply Hpair; [discriminate | reflexivity].
Defined.

(** ** Worked examples *)

Example palette_4a90e2 :
  generate_color_palette [lit "#4a90e2"; lit "#7b68ee"] =
  {| primary := lit "#4a90e2"; light := lit "#86ccff"; dark := lit "#2268ba";
     complement := lit "#b56f1d"; neutral := lit "#f8f9fa" |}.
Proof. vm_compute. reflexivity. Qed.

Example palette_empty : generate_color_palette [] = fallback_palette.
Proof. reflexivity. Qed.

Example palette_not_hex : generate_color_palette [lit "#zzzzzz"] = fallback_palette.
Proof. reflexivity. Qed.

Example int16_forms :
  int16 (lit " F") = Return 15 ∧ int16 (lit "-a") = Return (-10) ∧
  int16 (lit "0x") = Raise ValueError ∧ int16 (lit "g1") = Raise ValueError ∧
  int16 (lit "0x1_f") = Return 31 ∧ int16 (lit "1__f") = Raise ValueError.
Proof. vm_compute. repeat split. Qed.

Example split_title :
  split (lit "  Silla de   Oficina ") = [lit "Silla"; lit "de"; lit "Oficina"].
Proof. reflexivity. Qed.

Example clean_generic_silla :
  compose_prompt silla [] [] true = Return (lit
"Professional studio photograph of Silla de Oficina. 
                Modern gradient background with colors that complement the product.
                Product prominently featured with professional lighting.
                Square format. High quality. Instagram-ready composition.
                No text on the image.").
Proof. vm_compute. reflexivity. Qed.

Example clean_without_title : compose_prompt ∅ [] [] true = Raise (KeyError "title").
Proof. reflexivity. Qed.

Example baked_generic_silla :
  compose_prompt silla [] [] false = Return (lit
"Create a professional Instagram advertisement image (1080x1080) for Silla de Oficina.
                Price: 45.999
                
                Design Requirements:
                - Professional product photography
                - Beautiful  behind the product
                - Include Spanish advertising text on the image
                - Add the price: 45.999
                - Include an attractive Spanish call-to-action
                - Professional Instagram ad design with modern typography
                - High quality and visually appealing
                - Square format (1:1 ratio)
                - All text must be in perfect Spanish
                - Sophisticated and modern aesthetic").
Proof. vm_compute. reflexivity. Qed.

(** A title of five words at 30 pixels a character on a canvas of 400: three
    lines are built and the first two are drawn. *)
Example wrap_two_lines :
  let measure := fun s : str => 30 * Z.of_nat (length s) in
  wrap_title measure 400 (lit "Silla de Oficina Ergonomica Reclinable") =
    [lit "Silla de"; lit "Oficina"; lit "Ergonomica"; lit "Reclinable"] ∧
  drawn_title_lines measure 400 (lit "Silla de Oficina Ergonomica Reclinable") =
    [lit "Silla de"; lit "Oficina"].
Proof. vm_compute. split; reflexivity. Qed.

(** Scenario A: a clean run whose first request is answered with an image
    returns the rendered picture and the flag [False]. *)
Example scenario_clean_image :
  let run := run_ad (lib := Host.pil) Host.b64decode
               (Host.answering [Host.text_part (lit "Here it is");
                                Host.image_part [Byte.x01]])
               silla [] Host.description Host.style true in
  run.1 = Return (ResultPair
                    (Some (add_text_overlay (lib := Host.pil) [Byte.x01] silla [])) false) ∧
  length (calls run.2) = 1%nat.
Proof. vm_compute. split; reflexivity. Qed.

(** An unreadable buffer comes back as it is. *)
Example overlay_of_garbage :
  add_text_overlay (lib := Host.pil) [] silla [] = [].
Proof. reflexivity. Qed.


(** * Further properties of the pipeline *)

(** ** Hexadecimal colours, both ways *)

Lemma is_lower_hex_digits c : is_lower_hex c = true → c ∈ lower_hex_digits.
Proof.
  unfold is_lower_hex. intros Hc.
  assert (c ∈ (N.of_nat <$> seq 48 10) ++ (N.of_nat <$> seq 97 6)) as Hin.
  { apply elem_of_app. apply orb_true_iff in Hc as [Hd|Hl];
      apply andb_true_iff in Hd || apply andb_true_iff in Hl.
    - left. destruct Hd as [H1 H2]. apply N.leb_le in H1, H2.
      apply list_elem_of_fmap. exists (N.to_nat c). split; [lia|].
      apply elem_of_seq. lia.
    - right. destruct Hl as [H1 H2]. apply N.leb_le in H1, H2.
      apply list_elem_of_fmap. exists (N.to_nat c). split; [lia|].
      apply elem_of_seq. lia. }
  exact Hin.
Qed.

(** Two lower-case digits are what formatting their value writes. *)
Lemma format_02x_int16 c1 c2 :
  is_lower_hex c1 = true → is_lower_hex c2 = true →
  ∃ v, int16 [c1; c2] = Return v ∧ channel v ∧ format_02x v = [c1; c2].
Proof.
  intros H1%is_lower_hex_digits H2%is_lower_hex_digits.
  assert (forallb (fun a => forallb (fun b =>
            match int16 [a; b] with
            | Return v => (0 <=? v) && (v <=? 255) &&
                          bool_decide (format_02x v = [a; b])
            | Raise _ => false
            end) lower_hex_digits) lower_hex_digits = true) as Hall
    by (vm_compute; reflexivity).
  rewrite forallb_forall in Hall.
  apply list_elem_of_In in H1, H2.
  specialize (Hall c1 H1). rewrite forallb_forall in Hall. specialize (Hall c2 H2).
  destruct (int16 [c1; c2]) as [v|]; [|done]. exists v.
  apply andb_true_iff in Hall as [Hrange Hfmt].
  apply andb_true_iff in Hrange as [Hlo Hhi].
  apply bool_decide_eq_true in Hfmt. unfold channel. split_and!; [done|lia|lia|done].
Qed.

(** A colour written by [rgb_to_hex] has seven characters and is read back by
    [hex_to_rgb]; a colour of the form [#] and six lower-case digits is read by
    [hex_to_rgb] as channels within [0,255] that [rgb_to_hex] writes back as
    the same text. *)
Theorem hex_colour_round_trip :
  (∀ r g b, channel r → channel g → channel b →
            length (rgb_to_hex (r, g, b)) = 7%nat ∧
            hex_to_rgb (rgb_to_hex (r, g, b)) = Return (r, g, b)) ∧
  (∀ c1 c2 c3 c4 c5 c6,
     forallb is_lower_hex [c1; c2; c3; c4; c5; c6] = true →
     ∃ r g b, hex_to_rgb (lit "#" ++ [c1; c2; c3; c4; c5; c6]) = Return (r, g, b) ∧
              channel r ∧ channel g ∧ channel b ∧
              rgb_to_hex (r, g, b) = lit "#" ++ [c1; c2; c3; c4; c5; c6]).
Proof.
  split.
  - intros r g b Hr Hg Hb. split; [|by apply hex_to_rgb_to_hex].
    destruct (format_02x_channel r Hr) as (r1 & r2 & Er & _).
    destruct (format_02x_channel g Hg) as (g1 & g2 & Eg & _).
    destruct (format_02x_channel b Hb) as (b1 & b2 & Eb & _).
    unfold rgb_to_hex. by rewrite Er, Eg, Eb.
  - intros c1 c2 c3 c4 c5 c6 Hall. simpl in Hall.
    repeat (apply andb_true_iff in Hall as [? Hall]).
    destruct (format_02x_int16 c1 c2) as (r & Hr & Cr & Fr); [done..|].
    destruct (format_02x_int16 c3 c4) as (g & Hg & Cg & Fg); [done..|].
    destruct (format_02x_int16 c5 c6) as (b & Hb & Cb & Fb); [done..|].
    exists r, g, b. unfold hex_to_rgb, rgb_to_hex.
    change (slice 1 3 (lit "#" ++ [c1; c2; c3; c4; c5; c6])) with [c1; c2].
    change (slice 3 5 (lit "#" ++ [c1; c2; c3; c4; c5; c6])) with [c3; c4].
    change (slice 5 7 (lit "#" ++ [c1; c2; c3; c4; c5; c6])) with [c5; c6].
    rewrite Hr, Hg, Hb, Fr, Fg, Fb. by split_and!.
Qed.

(** ** The palette on input it cannot read *)

Lemma int16_empty : int16 [] = Raise ValueError.
Proof. reflexivity. Qed.

Section Unreadable.
Variable v : N.
Hypothesis Hdigit : hex_val v = None.
Hypothesis Hspace : ascii_isspace v = false.
Hypothesis Hother : ((v =? 43) || (v =? 45) || (v =? 95) || (v =? 120) || (v =? 88))%N = false.

Lemma skip_spaces_keeps (t : str) : v ∈ t → v ∈ skip_spaces t.
Proof.
  induction t as [|c t IH]; [done|]. intros Hin. cbn [skip_spaces].
  destruct (ascii_isspace c) eqn:Hc; [|done].
  apply elem_of_cons in Hin as [->|Hin]; [congruence|by apply IH].
Qed.

Lemma read_sign_keeps (t : str) : v ∈ t → v ∈ (read_sign t).2.
Proof.
  destruct t as [|c t]; [done|]. intros Hin. unfold read_sign.
  rewrite !orb_false_iff in Hother. destruct Hother as ((((H43 & H45) & _) & _) & _).
  destruct (c =? 43)%N eqn:Hc1; [|destruct (c =? 45)%N eqn:Hc2]; [| |done]; cbn [snd];
    apply elem_of_cons in Hin as [->|Hin]; done || congruence.
Qed.

Lemma skip_prefix_keeps (t : str) : v ∈ t → v ∈ skip_prefix t.
Proof.
  intros Hin. unfold skip_prefix.
  rewrite !orb_false_iff in Hother.
  destruct Hother as ((((_ & _) & H95) & H120) & H88).
  destruct t as [|c [|x t]]; [done..|].
  destruct (_ && _) eqn:Hp; [|done].
  apply andb_true_iff in Hp as [Hc Hx]. apply N.eqb_eq in Hc as ->.
  apply elem_of_cons in Hin as [->|Hin]; [done|].
  apply elem_of_cons in Hin as [->|Hin].
  { rewrite H120, H88 in Hx. done. }
  destruct t as [|u t]; [done|].
  destruct (u =? 95)%N eqn:Hu; [|done].
  apply elem_of_cons in Hin as [->|Hin]; [congruence|done].
Qed.

Lemma scan_hex_keeps (t : str) (acc : Z) (prev value : _) (rest : str) :
  scan_hex acc prev t = Some (value, rest) → v ∈ t → v ∈ rest.
Proof.
  rewrite !orb_false_iff in Hother.
  destruct Hother as ((((_ & _) & H95) & _) & _).
  revert acc prev. induction t as [|c t IH]; intros acc prev Hscan Hin;
    [by apply elem_of_nil in Hin|].
  cbn [scan_hex] in Hscan.
  destruct (c =? 95)%N eqn:Hc.
  - destruct prev; [done|].
    apply elem_of_cons in Hin as [->|Hin]; [congruence|by eapply IH].
  - destruct (hex_val c) as [d|] eqn:Hd.
    + apply elem_of_cons in Hin as [->|Hin]; [congruence|by eapply IH].
    + destruct prev; [done|]. by simplify_eq.
Qed.

Lemma int16_of_unreadable (s : str) : v ∈ (to_ascii <$> s) → int16 s = Raise ValueError.
Proof.
  intros Hin. unfold int16.
  apply skip_spaces_keeps, read_sign_keeps in Hin.
  destruct (read_sign (skip_spaces (to_ascii <$> s))) as [negative text].
  cbn [snd] in Hin. apply skip_prefix_keeps in Hin.
  destruct (match skip_prefix text with c :: _ => (c =? 95)%N | [] => false end); [done|].
  destruct (scan_hex 0 false (skip_prefix text)) as [[value rest]|] eqn:Hscan; [|done].
  case_bool_decide; [done|].
  apply (scan_hex_keeps _ _ _ _ _ Hscan), skip_spaces_keeps in Hin.
  destruct (skip_spaces rest); [|done]. by apply elem_of_nil in Hin.
Qed.
End Unreadable.

Lemma int16_unreadable (s : str) (u : N) :
  u ∈ s → unreadable u = true → int16 s = Raise ValueError.
Proof.
  intros Hin Hu. unfold unreadable in Hu.
  destruct (hex_val (to_ascii u)) eqn:Hd; [done|].
  apply andb_true_iff in Hu as [Hs Ho]. apply negb_true_iff in Hs, Ho.
  apply (int16_of_unreadable (to_ascii u)); [done..|].
  apply list_elem_of_fmap. by exists u.
Qed.

Lemma slice_elem (a b i : nat) (c : str) (u : N) :
  (a ≤ i < b)%nat → c !! i = Some u → u ∈ slice a b c.
Proof.
  intros Hi Hu. unfold slice. apply (list_elem_of_lookup_2 _ (i - a)%nat).
  rewrite lookup_take_lt by lia. rewrite lookup_drop.
  by replace (a + (i - a))%nat with i by lia.
Qed.

Lemma palette_of_raise (c : str) (others : list str) (e : exn) :
  hex_to_rgb c = Raise e → generate_color_palette (c :: others) = fallback_palette.
Proof.
  intros He. unfold generate_color_palette. simpl first_color.
  change (mbind ?f (Return c)) with (f c). cbv beta. by rewrite He.
Qed.

(** The palette is the fixed fallback palette when there is no dominant
    colour, when the first colour has at most five characters, and when one
    of the six characters after its first is one that [int] can make nothing
    of: any character that is not a digit, one of the letters a to f, white
    space, a sign, an underscore or an x. The colours after the first are
    never looked at. *)
Theorem palette_fallback_cases :
  generate_color_palette [] = fallback_palette ∧
  (∀ c others, (length c ≤ 5)%nat →
               generate_color_palette (c :: others) = fallback_palette) ∧
  (∀ c others i u, (1 ≤ i ≤ 6)%nat → c !! i = Some u → unreadable u = true →
                   generate_color_palette (c :: others) = fallback_palette) ∧
  (∀ c others others',
     generate_color_palette (c :: others) = generate_color_palette (c :: others')).
Proof.
  split_and!; [done | | | done].
  - intros c others Hlen.
    assert (∃ e, hex_to_rgb c = Raise e) as [e He]; [|by eapply palette_of_raise].
    unfold hex_to_rgb.
    assert (slice 5 7 c = []) as Hb.
    { unfold slice. rewrite drop_ge by lia. done. }
    rewrite Hb, int16_empty.
    destruct (int16 (slice 1 3 c)); [|by eexists]. simpl.
    destruct (int16 (slice 3 5 c)); by eexists.
  - intros c others i u Hi Hu Hbad.
    assert (∃ e, hex_to_rgb c = Raise e) as [e He]; [|by eapply palette_of_raise].
    unfold hex_to_rgb.
    assert ((1 ≤ i < 3)%nat ∨ (3 ≤ i < 5)%nat ∨ (5 ≤ i < 7)%nat) as [H|[H|H]] by lia.
    + rewrite (int16_unreadable (slice 1 3 c) u) by (by try eapply slice_elem).
      by eexists.
    + rewrite (int16_unreadable (slice 3 5 c) u) by (by try eapply slice_elem).
      destruct (int16 (slice 1 3 c)); by eexists.
    + rewrite (int16_unreadable (slice 5 7 c) u) by (by try eapply slice_elem).
      destruct (int16 (slice 1 3 c)); [|by eexists]. simpl.
      destruct (int16 (slice 3 5 c)); by eexists.
Qed.

(** What [int] reads and what it does not: the decimal digits of another
    script are digits, while the separators U+001C to U+001F, which
    [str.strip] takes for white space, are not skipped. *)
Example palette_of_other_digits :
  hex_to_rgb ([35; 1635; 1636; 1635; 1636; 1635; 1636]%N) = Return (52, 52, 52) ∧
  generate_color_palette [[35; 1635; 1636; 1635; 1636; 1635; 1636]%N] ≠ fallback_palette ∧
  generate_color_palette [[35; 28; 49; 28; 50; 28; 51]%N] = fallback_palette ∧
  generate_color_palette [lit "#gggggg"] = fallback_palette.
Proof. vm_compute. split_and!; done. Qed.

(** ** What the prompts read and what they hold *)

Lemma slice_prefix (n : nat) (d d' : str) :
  (n ≤ 400)%nat → take 400 d = take 400 d' → slice 0 n d = slice 0 n d'.
Proof.
  intros Hn Heq. unfold slice. rewrite Nat.sub_0_r, !drop_0.
  rewrite <- (Nat.min_l n 400) by done.
  by rewrite <- !take_take, Heq.
Qed.

Lemma truthy_prefix (d d' : str) : take 400 d = take 400 d' → truthy d = truthy d'.
Proof. by destruct d, d'. Qed.

(** The prompts read the description of the reference images only through
    its first 400 characters (350, 400, 250 and 300 in the several
    templates): two descriptions that agree there give the same prompt in
    both modes and the same fallback prompt, however long they are. *)
Theorem prompt_reads_description_prefix (product_data : ProductData) (d d' s : str) :
  take 400 d = take 400 d' →
  (∀ use_text_overlay,
     compose_prompt product_data d s use_text_overlay =
     compose_prompt product_data d' s use_text_overlay) ∧
  fallback_prompt product_data d s = fallback_prompt product_data d' s.
Proof.
  intros Heq.
  pose proof (truthy_prefix d d' Heq) as Ht.
  pose proof (slice_prefix 350 d d' ltac:(lia) Heq) as H350.
  pose proof (slice_prefix 400 d d' ltac:(lia) Heq) as H400.
  pose proof (slice_prefix 300 d d' ltac:(lia) Heq) as H300.
  pose proof (slice_prefix 250 d d' ltac:(lia) Heq) as H250.
  split.
  - intros [|]; unfold compose_prompt, clean_full, clean_described, baked_first_full,
      baked_described; by rewrite Ht, ?H350, ?H400, ?H300, ?H250.
  - unfold fallback_prompt. by rewrite Ht, H300.
Qed.

Lemma prompt_reads_description_prefix_witness :
  let d := replicate 400 97%N ++ lit "negra" in
  let d' := replicate 400 97%N ++ lit "blanca con ruedas" in
  compose_prompt silla d Host.style true = compose_prompt silla d' Host.style true.
Proof.
  intros d d'.
  apply (prompt_reads_description_prefix silla d d' Host.style).
  vm_compute. reflexivity.
Defined.

(** As [in_line], for a piece followed by [q] on its line. *)
Ltac in_line_before i p q :=
  eapply (strip_block_occurs _ _ i _ p _ q);
  [ reflexivity
  | reflexivity
  | cbn [firstn concat]; nonspace
  | cbn [skipn concat]; nonspace ].

Lemma clean_full_title title d s : occurs title (clean_full title d s).
Proof. unfold clean_full. in_line_before 0%nat (lit "Professional studio photograph of ") (lit ". "). Qed.

Lemma clean_described_title title d : occurs title (clean_described title d).
Proof. unfold clean_described. in_line_before 0%nat (lit "Professional studio photograph of ") (lit ". "). Qed.

Lemma clean_generic_title title : occurs title (clean_generic title).
Proof. unfold clean_generic. in_line_before 0%nat (lit "Professional studio photograph of ") (lit ". "). Qed.

Lemma baked_described_title title price d s : occurs title (baked_described title price d s).
Proof.
  unfold baked_described.
  in_line_before 0%nat
    (lit "Create a professional Instagram advertisement image (1080x1080) for ") (lit ".").
Qed.

Lemma baked_generic_title title price s : occurs title (baked_generic title price s).
Proof.
  unfold baked_generic.
  in_line_before 0%nat
    (lit "Create a professional Instagram advertisement image (1080x1080) for ") (lit ".").
Qed.

Lemma fallback_prompt_title (product_data : ProductData) (d s : str) :
  occurs (dict_get product_data "title" []) (fallback_prompt product_data d s).
Proof.
  unfold fallback_prompt.
  in_line_before 0%nat (lit "Professional studio photograph of ") (lit ".").
Qed.

(** Every prompt names the product: for a record with a title, the prompt of
    either mode is composed and holds the title as it is, and so does the
    prompt for the fallback model. *)
Theorem prompts_hold_the_title (product_data : ProductData) (title d s : str)
    (use_text_overlay : bool) :
  product_data !! "title" = Some title →
  (∃ prompt, compose_prompt product_data d s use_text_overlay = Return prompt ∧
             occurs title prompt) ∧
  occurs title (fallback_prompt product_data d s).
Proof.
  intros Ht. split.
  - destruct use_text_overlay.
    + unfold compose_prompt, getitem. rewrite Ht. simpl.
      destruct (truthy d), (truthy s); simpl; eexists; (split; [reflexivity|]);
        auto using clean_full_title, clean_described_title, clean_generic_title.
    + rewrite compose_prompt_baked. unfold dict_get. rewrite Ht. simpl.
      eexists; split; [reflexivity|].
      destruct (truthy d); auto using baked_described_title, baked_generic_title.
  - pose proof (fallback_prompt_title product_data d s) as Hf.
    unfold dict_get in Hf. by rewrite Ht in Hf.
Qed.

Lemma prompts_hold_the_title_witness :
  ∃ prompt, compose_prompt silla Host.description Host.style true = Return prompt ∧
            occurs (lit "Silla de Oficina") prompt.
Proof.
  exact (proj1 (prompts_hold_the_title silla (lit "Silla de Oficina") Host.description
                  Host.style true eq_refl)).
Defined.

Lemma clean_full_no_text title d s : occurs (lit "No text") (clean_full title d s).
Proof.
  unfold clean_full.
  in_line_before 12%nat (lit "- ") (lit " or watermarks on the image").
Qed.

Lemma clean_described_no_text title d : occurs (lit "No text") (clean_described title d).
Proof.
  unfold clean_described.
  in_line_before 11%nat (lit "- ") (lit " or watermarks").
Qed.

Lemma clean_generic_no_text title : occurs (lit "No text") (clean_generic title).
Proof.
  unfold clean_generic.
  in_line_before 4%nat (@nil N) (lit " on the image.").
Qed.

Lemma baked_described_asks_text title price d s :
  occurs (lit "- Include Spanish advertising text on the image")
    (baked_described title price d s) ∧
  occurs (lit "- Include an attractive Spanish call-to-action")
    (baked_described title price d s).
Proof.
  unfold baked_described. split; [in_line 8%nat (@nil N) | in_line 10%nat (@nil N)].
Qed.

Lemma baked_generic_asks_text title price s :
  occurs (lit "- Include Spanish advertising text on the image")
    (baked_generic title price s) ∧
  occurs (lit "- Include an attractive Spanish call-to-action")
    (baked_generic title price s).
Proof.
  unfold baked_generic. split; [in_line 6%nat (@nil N) | in_line 8%nat (@nil N)].
Qed.

(** The instruction about text follows the mode: every prompt composed in
    mode 1 tells the model to put no text on the image, and every prompt
    composed in mode 2 asks for Spanish advertising text and for a call to
    action, whatever the title, description and style are. *)
Theorem prompt_text_instruction (product_data : ProductData) (d s prompt : str)
    (use_text_overlay : bool) :
  compose_prompt product_data d s use_text_overlay = Return prompt →
  if use_text_overlay then occurs (lit "No text") prompt
  else occurs (lit "- Include Spanish advertising text on the image") prompt ∧
       occurs (lit "- Include an attractive Spanish call-to-action") prompt.
Proof.
  destruct use_text_overlay.
  - unfold compose_prompt, getitem.
    destruct (product_data !! "title") as [title|]; simpl;
      destruct (truthy d), (truthy s); simpl; intros [= <-];
      auto using clean_full_no_text, clean_described_no_text, clean_generic_no_text.
  - rewrite compose_prompt_baked. intros [= <-].
    destruct (truthy d); auto using baked_described_asks_text, baked_generic_asks_text.
Qed.

Lemma prompt_text_instruction_witness :
  ∃ prompt, compose_prompt silla [] [] true = Return prompt ∧ occurs (lit "No text") prompt.
Proof.
  eexists. split; [reflexivity|].
  exact (prompt_text_instruction silla [] [] _ true eq_refl).
Defined.

(** ** What a run returns *)

Section RunReads.
Context `{lib : PIL}.
Variable b64decode : str → Exc bytes.
Variable backend : Backend.
Variable product_data : ProductData.
Variable ad_concept : str.
Variables d s : str.

(** The value returned is read from the answer to the last request, with the
    flag as it stands at the end. *)
Lemma run_reads_last_answer use_text_overlay before req r :
  let run := run_ad b64decode backend product_data ad_concept d s use_text_overlay in
  calls run.2 = before ++ [req] →
  backend before req = Return r →
  run.1 = Return (read_response b64decode r product_data ad_concept use_text_overlay
                    (used_fallback run.2)).
Proof.
  intros run. subst run. destruct use_text_overlay.
  - destruct (compose_prompt product_data d s true) as [prompt|e] eqn:Hp.
    + rewrite (run_clean _ _ _ _ _ _ _ Hp). cbv zeta.
      destruct (backend [] (primary_request true prompt)) as [r1|e1] eqn:H1;
        [|destruct (backend [primary_request true prompt] _) as [r2|e2] eqn:H2];
        cbn [fst snd calls used_fallback]; intros Hcalls Hanswer.
      * apply (app_inj_tail []) in Hcalls as [<- <-]. congruence.
      * apply (app_inj_tail [_]) in Hcalls as [<- <-]. congruence.
      * apply (app_inj_tail [_]) in Hcalls as [<- <-]. congruence.
    + rewrite (run_clean_raises _ _ _ _ _ _ _ Hp). cbn [snd initial calls].
      intros Hcalls. by destruct before.
  - rewrite (run_baked _ _ _ _ _ _ _ (compose_prompt_baked product_data d s)).
    cbv zeta.
    destruct (backend [] (primary_request false _)) as [r1|e1] eqn:H1;
      [|destruct (backend [primary_request false _] _) as [r2|e2] eqn:H2];
      cbn [fst snd calls used_fallback]; intros Hcalls Hanswer.
    + apply (app_inj_tail []) in Hcalls as [<- <-]. congruence.
    + apply (app_inj_tail [_]) in Hcalls as [<- <-]. congruence.
    + apply (app_inj_tail [_]) in Hcalls as [<- <-]. congruence.
Qed.

(** The loop returns at the first part that gives an image. *)
Lemma scan_parts_first_image pre part post use_text_overlay uf b :
  forallb (no_image b64decode) pre = true →
  yields b64decode part b →
  scan_parts b64decode (pre ++ part :: post) product_data ad_concept use_text_overlay uf =
  deliver b product_data ad_concept use_text_overlay uf.
Proof.
  intros Hpre (Htext & blob & Hblob & Hdata & Hb).
  induction pre as [|p pre IH]; cbn [app scan_parts].
  - rewrite Htext, Hblob, Hdata. cbn [negb].
    destruct (data blob) as [[s0|raw]|]; [by rewrite Hb | by subst | done].
  - cbn [forallb] in Hpre. apply andb_true_iff in Hpre as [Hp Hpre].
    specialize (IH Hpre). rewrite IH. clear IH.
    unfold no_image in Hp.
    destruct (truthy _); [done|]. cbn [orb] in Hp.
    destruct (inline_data p) as [blob'|]; [|done].
    destruct (negb _); [done|]. cbn [orb] in Hp.
    destruct (data blob') as [[s0|raw]|]; [|done|done].
    by destruct (b64decode s0).
Qed.
End RunReads.

(** The image a run returns is the one of the first part that gives one, of
    the first candidate of the answer to the last request: parts before it
    that carry text, no data, empty data or a string that does not decode are
    passed over, parts after it and other candidates are not looked at. The
    bytes are returned as they are when the run is in mode 2 and the fallback
    model was not used; in mode 1, and in mode 2 after the fallback, they go
    through the overlay renderer first. The flag returned is the value of
    [used_fallback]. *)
Theorem run_returns_first_image `{lib : PIL} (b64decode : str → Exc bytes)
    (backend : Backend) (product_data : ProductData) (ad_concept d s : str)
    (use_text_overlay : bool) (before : list Request) (req : Request)
    (pre post : list Part) (part : Part) (others : list Candidate) (b : bytes) :
  let run := run_ad b64decode backend product_data ad_concept d s use_text_overlay in
  calls run.2 = before ++ [req] →
  backend before req =
    Return (Some {| candidates :=
                      Some ({| content := Some {| parts := Some (pre ++ part :: post) |} |}
                            :: others) |}) →
  forallb (no_image b64decode) pre = true →
  yields b64decode part b →
  run.1 = Return (ResultPair
                    (Some (if use_text_overlay || used_fallback run.2
                           then add_text_overlay b product_data ad_concept
                           else b))
                    (used_fallback run.2)).
Proof.
  intros run Hcalls Hanswer Hpre Hpart. subst run.
  rewrite (run_reads_last_answer _ _ _ _ _ _ _ _ _ _ Hcalls Hanswer). f_equal.
  cbn [read_response candidates content parts].
  destruct (pre ++ part :: post) as [|p0 ps0] eqn:Hps; [by destruct pre|].
  rewrite <- Hps, (scan_parts_first_image _ _ _ _ _ _ _ _ _ Hpre Hpart).
  unfold deliver. destruct use_text_overlay; [done|].
  by destruct (used_fallback _).
Qed.

Lemma run_returns_first_image_witness :
  let run := run_ad (lib := Host.pil) Host.b64decode
               (Host.answering [Host.text_part (lit "Here it is");
                                Host.image_part [Byte.x01];
                                Host.image_part [Byte.x02]])
               silla [] Host.description Host.style false in
  run.1 = Return (ResultPair (Some [Byte.x01]) false).
Proof.
  intros run.
  refine (run_returns_first_image (lib := Host.pil) Host.b64decode
            (Host.answering [Host.text_part (lit "Here it is");
                             Host.image_part [Byte.x01];
                             Host.image_part [Byte.x02]])
            silla [] Host.description Host.style false []
            (primary_request false
               (baked_described (lit "Silla de Oficina") (lit "45.999")
                  Host.description Host.style))
            [Host.text_part (lit "Here it is")] [Host.image_part [Byte.x02]]
            (Host.image_part [Byte.x01]) [] [Byte.x01] eq_refl eq_refl eq_refl _).
  split; [reflexivity|]. eexists. split; [reflexivity|]. split; reflexivity.
Defined.

Lemma compose_prompt_clean_title (product_data : ProductData) (d s : str) :
  match product_data !! "title" with
  | Some _ => ∃ prompt, compose_prompt product_data d s true = Return prompt
  | None => compose_prompt product_data d s true = Raise (KeyError "title")
  end.
Proof.
  unfold compose_prompt, getitem.
  destruct (product_data !! "title"); simpl;
    destruct (truthy d), (truthy s); simpl; eauto.
Qed.

(** From the composition of the prompt on, the only exception that leaves
    [generate_instagram_ad] is the [KeyError] of mode 1 on a record without
    title, raised before any request is sent. In mode 2, and in mode 1 on a
    record with a title, the function returns a value whatever the backend
    does, after one or two requests. *)
Theorem run_raises_only_without_title `{lib : PIL} (b64decode : str → Exc bytes)
    (backend : Backend) (product_data : ProductData) (ad_concept d s : str)
    (use_text_overlay : bool) :
  let run := run_ad b64decode backend product_data ad_concept d s use_text_overlay in
  (use_text_overlay = false ∨ is_Some (product_data !! "title") →
   (∃ result, run.1 = Return result) ∧ (1 ≤ length (calls run.2) ≤ 2)%nat) ∧
  (use_text_overlay = true → product_data !! "title" = None →
   run = (Raise (KeyError "title"), initial)).
Proof.
  intros run. subst run. split.
  - intros Hok.
    assert (∃ prompt, compose_prompt product_data d s use_text_overlay = Return prompt)
      as [prompt Hp].
    { destruct use_text_overlay.
      - destruct Hok as [?|[t Ht]]; [done|].
        pose proof (compose_prompt_clean_title product_data d s) as Hc.
        by rewrite Ht in Hc.
      - rewrite compose_prompt_baked. by eexists. }
    destruct use_text_overlay.
    + rewrite (run_clean _ _ _ _ _ _ _ Hp). cbv zeta.
      destruct (backend [] _); [|destruct (backend [_] _)]; simpl;
        (split; [by eexists | lia]).
    + rewrite (run_baked _ _ _ _ _ _ _ Hp). cbv zeta.
      destruct (backend [] _); [|destruct (backend [_] _)]; simpl;
        (split; [by eexists | lia]).
  - intros -> Ht.
    pose proof (compose_prompt_clean_title product_data d s) as Hc.
    rewrite Ht in Hc. by apply run_clean_raises.
Qed.

Lemma run_raises_only_without_title_witness :
  let run := run_ad (lib := Host.pil) Host.b64decode Host.down ∅ []
               Host.description Host.style in
  (∃ result, (run false).1 = Return result) ∧
  run true = (Raise (KeyError "title"), initial).
Proof.
  intros run. split.
  - apply (run_raises_only_without_title (lib := Host.pil) Host.b64decode Host.down ∅ []
             Host.description Host.style false). by left.
  - by apply (run_raises_only_without_title (lib := Host.pil) Host.b64decode Host.down ∅ []
                Host.description Host.style true).
Defined.

(** ** The renderer and the record it draws from *)

(** The title the renderer wraps has at most 60 characters: a title of up to
    60 characters is kept, a longer one is cut to its first 57 characters
    followed by three dots. *)
Theorem truncate_title_bound (title : str) :
  (length (truncate_title title) ≤ 60)%nat ∧
  ((length title ≤ 60)%nat → truncate_title title = title) ∧
  ((60 < length title)%nat →
   truncate_title title = take 57 title ++ lit "..." ∧
   length (truncate_title title) = 60%nat).
Proof.
  unfold truncate_title, slice. rewrite drop_0.
  destruct (Nat.ltb_spec 60 (length title)) as [Hlong|Hshort].
  - rewrite length_app, length_take. cbn [length lit]. split_and!; [|lia|].
    + change (length (lit "...")) with 3%nat. lia.
    + intros _. split; [done|]. change (length (lit "...")) with 3%nat. lia.
  - split_and!; [done | done | lia].
Qed.

(** A record without title or without price gets no overlay: the renderer
    returns the bytes it was given, on every imaging library. *)
Theorem overlay_needs_title_and_price `{lib : PIL} (image_data : bytes)
    (product_data : ProductData) (ad_concept : str) :
  product_data !! "title" = None ∨ product_data !! "price" = None →
  add_text_overlay image_data product_data ad_concept = image_data.
Proof.
  intros Hmissing.
  assert (∀ img fonts, ∃ e, render img fonts product_data = Raise e) as Hrender.
  { intros img fonts. unfold render, getitem.
    destruct (product_data !! "title") as [t|]; [|by eexists]. simpl.
    destruct Hmissing as [?|Hp]; [done|]. rewrite Hp. by eexists. }
  unfold add_text_overlay, add_text_overlay_try.
  destruct (Image_open image_data) as [img|]; [|done]. simpl.
  destruct (if mode_is_RGB img then mret img else convert "RGB" img) as [img'|];
    [|done]. simpl.
  destruct load_fonts as [fonts|]; [|done]. simpl.
  by destruct (Hrender img' fonts) as [e ->].
Qed.

Lemma overlay_needs_title_and_price_witness :
  add_text_overlay (lib := Host.pil) [Byte.x01] (<["title" := lit "Silla"]> ∅) [] =
  [Byte.x01].
Proof.
  apply (overlay_needs_title_and_price (lib := Host.pil)). by right.
Defined.

(** ** The word-wrap keeps the words *)

Lemma split_from_space cur a c b :
  isspace c = true → split_from cur (a ++ c :: b) = split_from cur a ++ split b.
Proof.
  intros Hc. revert cur. induction a as [|x a IH]; intros cur; cbn [app split_from].
  - rewrite Hc. by destruct cur.
  - destruct (isspace x); [|apply IH].
    destruct cur; [apply IH|]. by rewrite IH.
Qed.

Lemma split_spaces ws : forallb isspace ws = true → split ws = [].
Proof.
  unfold split. induction ws as [|c ws IH]; [done|]. cbn [forallb split_from].
  intros [-> Hws]%andb_true_iff. by apply IH.
Qed.

Lemma split_app_spaces s ws : forallb isspace ws = true → split (s ++ ws) = split s.
Proof.
  destruct ws as [|c ws]; [by rewrite app_nil_r|]. cbn [forallb].
  intros [Hc Hws]%andb_true_iff. unfold split at 1.
  rewrite split_from_space by done. rewrite (split_spaces ws Hws). apply app_nil_r.
Qed.

Lemma lstrip_spaces s : ∃ ws, s = ws ++ lstrip s ∧ forallb isspace ws = true.
Proof.
  induction s as [|c s (ws & Hs & Hws)]; [by exists []|]. cbn [lstrip].
  destruct (isspace c) eqn:Hc; [|by exists []].
  exists (c :: ws). cbn [forallb app]. rewrite Hc, Hws. split; [|done]. by f_equal.
Qed.

Lemma split_lstrip s : split (lstrip s) = split s.
Proof.
  unfold split. induction s as [|c s IH]; [done|]. cbn [lstrip split_from].
  destruct (isspace c) eqn:Hc; [done|]. cbn [split_from]. by rewrite Hc.
Qed.

Lemma split_rstrip s : split (rstrip s) = split s.
Proof.
  unfold rstrip. destruct (lstrip_spaces (reverse s)) as (ws & Hs & Hws).
  apply (f_equal reverse) in Hs. rewrite reverse_involutive, reverse_app in Hs.
  rewrite Hs at 2. symmetry. apply split_app_spaces.
  rewrite forallb_forall in *. intros c Hc. apply Hws.
  apply list_elem_of_In. apply list_elem_of_In in Hc. by apply elem_of_reverse.
Qed.

Lemma split_strip s : split (strip s) = split s.
Proof. unfold strip. by rewrite split_lstrip, split_rstrip. Qed.

Lemma split_from_word cur w :
  forallb (fun c => negb (isspace c)) w = true → cur ++ w ≠ [] →
  split_from cur w = [reverse cur ++ w].
Proof.
  revert cur. induction w as [|c w IH]; intros cur Hw Hne; cbn [split_from].
  - rewrite app_nil_r in *. by destruct cur.
  - cbn [forallb] in Hw. apply andb_true_iff in Hw as [Hc Hw].
    apply negb_true_iff in Hc. rewrite Hc.
    rewrite IH; [|done|done]. by rewrite reverse_cons, <- (assoc_L (++)).
Qed.

Lemma split_word w :
  w ≠ [] → forallb (fun c => negb (isspace c)) w = true → split w = [w].
Proof. intros Hne Hw. unfold split. by rewrite split_from_word. Qed.

Lemma split_extended current_line word :
  split word = [word] →
  split (strip (current_line ++ lit " " ++ word)) = split current_line ++ [word].
Proof.
  intros Hword. rewrite split_strip. change (lit " " ++ word) with (32%N :: word).
  unfold split at 1. rewrite split_from_space by done. by rewrite Hword.
Qed.

Lemma wrap_loop_words measure width ws lines current_line :
  Forall (fun w => split w = [w]) ws →
  Forall (fun line => line ≠ []) lines →
  concat (split <$> (wrap_loop measure width ws lines current_line).1) ++
    split (wrap_loop measure width ws lines current_line).2 =
  concat (split <$> lines) ++ split current_line ++ ws ∧
  Forall (fun line => line ≠ []) (wrap_loop measure width ws lines current_line).1.
Proof.
  revert lines current_line.
  induction ws as [|word ws IH]; intros lines current_line Hws Hlines; cbn [wrap_loop].
  - by rewrite app_nil_r.
  - apply Forall_cons in Hws as [Hword Hws].
    destruct (measure _ <=? width - 40).
    + destruct (IH lines (strip (current_line ++ lit " " ++ word)) Hws Hlines)
        as [-> Hne].
      split; [|done]. rewrite split_extended by done.
      by rewrite <- !(assoc_L (++)).
    + destruct current_line as [|c cl]; cbn [truthy].
      * destruct (IH lines word Hws Hlines) as [-> Hne]. split; [|done].
        by rewrite Hword.
      * assert (Forall (fun line : str => line ≠ []) (lines ++ [c :: cl])) as Hlines'.
        { apply Forall_app. split; [done|]. by apply Forall_singleton. }
        destruct (IH (lines ++ [c :: cl]) word Hws Hlines') as [Heq Hne].
        split; [|exact Hne]. etransitivity; [exact Heq|]. rewrite fmap_app, concat_app, Hword. cbn [fmap list_fmap concat].
        by rewrite app_nil_r, <- !(assoc_L (++)).
Qed.

Lemma wrap_title_words measure width title :
  concat (split <$> wrap_title measure width title) = split title ∧
  Forall (fun line => line ≠ []) (wrap_title measure width title).
Proof.
  unfold wrap_title.
  assert (Forall (fun w => split w = [w]) (split title)) as Hwords.
  { eapply Forall_impl; [apply split_words|]. intros w [Hne Hw]. by apply split_word. }
  destruct (wrap_loop measure width (split title) [] []) as [lines current_line] eqn:E.
  pose proof (wrap_loop_words measure width (split title) (@nil str) [] Hwords
                (Forall_nil_2 _)) as [Hloop Hne].
  rewrite E in Hloop, Hne. cbn [fst snd] in *. cbn in Hloop.
  destruct current_line as [|c cl]; cbn [truthy].
  - split; [|done]. by rewrite app_nil_r in Hloop.
  - split.
    + rewrite fmap_app, concat_app. cbn [fmap list_fmap concat]. by rewrite app_nil_r.
    + apply Forall_app. split; [done|]. by apply Forall_singleton.
Qed.

(** The word-wrap neither loses, adds nor reorders words: the words of the
    lines it builds, read in order, are the words of the title, and no line
    is empty. The two lines that are drawn therefore hold the first words of
    the (truncated) title, in order; what is dropped is a tail of the title. *)
Theorem wrap_keeps_the_words (measure : str → Z) (width : Z) (title : str) :
  concat (split <$> wrap_title measure width title) = split title ∧
  Forall (fun line => line ≠ []) (wrap_title measure width title) ∧
  concat (split <$> drawn_title_lines measure width title)
    `prefix_of` split (truncate_title title).
Proof.
  destruct (wrap_title_words measure width title) as [Hwords Hne].
  split_and!; [done | done |].
  destruct (wrap_title_words measure width (truncate_title title)) as [<- _].
  unfold drawn_title_lines.
  rewrite <- (take_drop 2 (wrap_title measure width (truncate_title title))) at 2.
  rewrite fmap_app, concat_app. by eexists.
Qed.

(** ** The background style *)

Lemma any_in_occurs (words : list str) (text : str) :
  any_in words text = true ↔ ∃ word, word ∈ words ∧ occurs word text.
Proof.
  unfold any_in. rewrite existsb_exists. split.
  - intros (w & Hw & Hin). exists w. split; [by apply list_elem_of_In|].
    by apply str_in_occurs.
  - intros (w & Hw & Hin). exists w. split; [by apply list_elem_of_In|].
    by apply str_in_occurs.
Qed.

Section BackgroundFacts.
Context `{lowering : Lowering}.

(** The four styles that can be chosen begin with different letters, and the
    fifth with yet another. *)
Lemma background_styles_heads (color_palette : ColorPalette) :
  (∃ t, item (background_styles color_palette) 0 = 77%N :: t) ∧
  (∃ t, item (background_styles color_palette) 1 = 80%N :: t) ∧
  (∃ t, item (background_styles color_palette) 2 = 67%N :: t) ∧
  (∃ t, item (background_styles color_palette) 3 = 69%N :: t) ∧
  (∃ t, item (background_styles color_palette) 4 = 83%N :: t).
Proof. split_and!; eexists; reflexivity. Qed.

Lemma background_styles_primary (color_palette : ColorPalette) (i : nat) :
  (i < 4)%nat →
  occurs (primary color_palette) (item (background_styles color_palette) i).
Proof.
  intros Hi. destruct i as [|[|[|[|i]]]]; [| | | |lia]; cbn.
  - exists (lit "Modern gradient background from " ++ light color_palette ++ lit " to "),
      (lit ", subtle geometric patterns").
    by rewrite <- !(assoc_L (++)).
  - by exists (lit "Professional studio setup with "),
      (lit " accent lighting and soft shadows").
  - exists (lit "Contemporary minimalist background with "),
      (lit " and " ++ light color_palette ++ lit " color blocking"). done.
  - by exists (lit "Elegant backdrop with "),
      (lit " gradient and subtle texture, modern lighting").
Qed.

Lemma create_background_prompt_nonempty (product_title image_description : str)
    (color_palette : ColorPalette) :
  create_background_prompt product_title image_description color_palette ≠ [].
Proof.
  destruct (background_styles_heads color_palette)
    as ((t0 & H0) & (t1 & H1) & (t2 & H2) & (t3 & H3) & _).
  unfold create_background_prompt.
  destruct (any_in FASHION_WORDS _); [|destruct (any_in TECH_WORDS _);
    [|destruct (any_in HOME_WORDS _)]];
    rewrite ?H0, ?H1, ?H2, ?H3; discriminate.
Qed.

(** The style chosen for a title: exactly one of the first four templates,
    by the first group of key words found in the lower-cased title (fashion
    before electronics before home), and the fourth when none is found. The
    fifth template is never chosen, the style is never empty, it names the
    primary colour of the palette, and the description of the images plays
    no part. *)
Theorem background_style_choice (product_title image_description : str)
    (color_palette : ColorPalette) :
  let style := create_background_prompt product_title image_description color_palette in
  let styles := background_styles color_palette in
  let fashion := any_in FASHION_WORDS (lower product_title) in
  let tech := any_in TECH_WORDS (lower product_title) in
  let home := any_in HOME_WORDS (lower product_title) in
  (style = item styles 0 ↔ fashion = true) ∧
  (style = item styles 1 ↔ fashion = false ∧ tech = true) ∧
  (style = item styles 2 ↔ fashion = false ∧ tech = false ∧ home = true) ∧
  (style = item styles 3 ↔ fashion = false ∧ tech = false ∧ home = false) ∧
  style ≠ item styles 4 ∧
  style ≠ [] ∧
  occurs (primary color_palette) style ∧
  (∀ other, create_background_prompt product_title other color_palette = style).
Proof.
  intros style styles fashion tech home.
  destruct (background_styles_heads color_palette)
    as ((t0 & H0) & (t1 & H1) & (t2 & H2) & (t3 & H3) & (t4 & H4)).
  subst style styles fashion tech home. unfold create_background_prompt.
  destruct (any_in FASHION_WORDS _); [|destruct (any_in TECH_WORDS _);
    [|destruct (any_in HOME_WORDS _)]];
    rewrite ?H0, ?H1, ?H2, ?H3, ?H4; split_and!; try done;
    try (split; [discriminate | intros ?; destruct_and?; discriminate]);
    try (split; [done | done]).
  - rewrite <- H0. apply background_styles_primary. lia.
  - rewrite <- H1. apply background_styles_primary. lia.
  - rewrite <- H2. apply background_styles_primary. lia.
  - rewrite <- H3. apply background_styles_primary. lia.
Qed.

(** Which of the three clean prompts is composed follows from the two
    products of the analysis: with a palette the style is not empty, so the
    prompt is the full one when there is a description and the generic one
    when there is none; the description-only prompt is composed exactly when
    there is a description and no palette. *)
Theorem clean_tier_follows_palette (product_data : ProductData) (title d : str)
    (color_palette : option ColorPalette) :
  product_data !! "title" = Some title →
  let style := background_style_of product_data d color_palette in
  compose_prompt product_data d style true =
  Return (match color_palette with
          | Some _ => if truthy d then clean_full title d style else clean_generic title
          | None => if truthy d then clean_described title d else clean_generic title
          end).
Proof.
  intros Ht style. subst style. unfold compose_prompt, getitem. rewrite Ht.
  destruct color_palette as [cp|]; cbn [background_style_of].
  - pose proof (create_background_prompt_nonempty
                  (dict_get product_data "title" []) d cp) as Hne.
    destruct (create_background_prompt _ d cp) as [|c style]; [done|].
    by destruct (truthy d).
  - by destruct (truthy d).
Qed.
End BackgroundFacts.

Lemma clean_tier_follows_palette_witness :
  compose_prompt silla Host.description
    (background_style_of (lowering := Ascii.lowering) silla Host.description None) true =
  Return (clean_described (lit "Silla de Oficina") Host.description).
Proof.
  exact (clean_tier_follows_palette (lowering := Ascii.lowering) silla
           (lit "Silla de Oficina") Host.description None eq_refl).
Defined.


(** ** The scraper *)

Lemma lstrip_idem s : lstrip (lstrip s) = lstrip s.
Proof.
  induction s as [|c s IH]; [done|]. cbn [lstrip].
  destruct (isspace c) eqn:Hc; [done|]. cbn [lstrip]. by rewrite Hc.
Qed.

Lemma rstrip_idem s : rstrip (rstrip s) = rstrip s.
Proof. unfold rstrip. by rewrite reverse_involutive, lstrip_idem. Qed.

Lemma lstrip_has_nonspace s : lstrip s ≠ [] → has_nonspace (lstrip s) = true.
Proof.
  induction s as [|c s IH]; [done|]. cbn [lstrip].
  destruct (isspace c) eqn:Hc; [done|]. intros _. cbn. by rewrite Hc.
Qed.

Lemma rstrip_lstrip t : rstrip t = t → rstrip (lstrip t) = lstrip t.
Proof.
  intros Ht. destruct (lstrip t) as [|c u] eqn:Hl; [done|]. rewrite <- Hl.
  destruct (lstrip_spaces t) as (ws & Hdec & _).
  assert (has_nonspace (lstrip t) = true) as Hns
    by (apply lstrip_has_nonspace; by rewrite Hl).
  rewrite Hdec in Ht at 1. rewrite rstrip_app in Ht by done.
  rewrite Hdec in Ht at 2. by apply app_inv_head in Ht.
Qed.

(** [strip] leaves a stripped text as it is. *)
Lemma strip_idem s : strip (strip s) = strip s.
Proof.
  unfold strip. rewrite (rstrip_lstrip (rstrip s)) by apply rstrip_idem.
  apply lstrip_idem.
Qed.

Section ScraperFacts.
Context `{page : Page} `{lowering : Lowering}.

Lemma first_text_cons post selector selectors :
  first_text post (selector :: selectors) =
  match selector_text post selector with
  | Some t => Some t
  | None => first_text post selectors
  end.
Proof.
  cbn [first_text]. unfold selector_text.
  destruct (query_selector selector) as [[element|]|]; [|done|done]. simpl.
  destruct (inner_text element) as [t|]; [|done]. simpl.
  by destruct (truthy (post t)).
Qed.

Lemma selector_text_post post selector t :
  selector_text post selector = Some t → t ≠ [] ∧ ∃ raw, t = post raw.
Proof.
  unfold selector_text.
  destruct (query_selector selector) as [[element|]|]; [|done|done].
  destruct (inner_text element) as [raw|]; [|done].
  destruct (post raw) as [|c u] eqn:Hp; [done|]. intros [= <-]. split; [done|].
  by exists raw.
Qed.

Lemma first_text_post post selectors t :
  first_text post selectors = Some t → t ≠ [] ∧ ∃ raw, t = post raw.
Proof.
  induction selectors as [|selector selectors IH]; [done|].
  rewrite first_text_cons.
  destruct (selector_text post selector) as [u|] eqn:Hs; [|done].
  intros [= <-]. by eapply selector_text_post.
Qed.
End ScraperFacts.

(** The text getters take the first selector that has a text: selectors
    whose query raises, that match no element, whose text cannot be read or
    is empty are passed over, and the selectors after the first that has a
    text are not consulted; when no selector has a text the loop finds
    nothing and the getter gives its default. *)
Theorem getter_takes_first_selector `{page : Page} (post : str → str)
    (before after : list str) (selector : str) (t : str) :
  Forall (fun sel => selector_text post sel = None) before →
  selector_text post selector = Some t →
  first_text post (before ++ selector :: after) = Some t ∧
  first_text post before = None.
Proof.
  intros Hbefore Hsel.
  assert (∀ rest, first_text post (before ++ rest) = first_text post rest) as Hskip.
  { intros rest. induction Hbefore as [|sel before Hnone _ IH]; [done|].
    cbn [app]. by rewrite first_text_cons, Hnone. }
  split.
  - by rewrite Hskip, first_text_cons, Hsel.
  - rewrite <- (app_nil_r before). by rewrite Hskip.
Qed.

Lemma text_getters_nonempty `{page : Page} :
  (_get_title ≠ [] ∧ strip _get_title = _get_title) ∧
  (_get_price ≠ [] ∧ strip _get_price = _get_price) ∧
  (_get_description ≠ [] ∧ (length _get_description ≤ 500)%nat).
Proof.
  unfold _get_title, _get_price, _get_description. split_and!.
  - destruct (first_text strip title_selectors) as [t|] eqn:Ht; [|done].
    by apply first_text_post in Ht as [? _].
  - destruct (first_text strip title_selectors) as [t|] eqn:Ht; [|by vm_compute].
    apply first_text_post in Ht as [_ [raw ->]]. apply strip_idem.
  - destruct (first_text strip price_selectors) as [t|] eqn:Ht; [|done].
    by apply first_text_post in Ht as [? _].
  - destruct (first_text strip price_selectors) as [t|] eqn:Ht; [|by vm_compute].
    apply first_text_post in Ht as [_ [raw ->]]. apply strip_idem.
  - destruct (first_text _ description_selectors) as [t|] eqn:Ht; [|done].
    by apply first_text_post in Ht as [? _].
  - destruct (first_text _ description_selectors) as [t|] eqn:Ht.
    + apply first_text_post in Ht as [_ [raw ->]]. cbn [default]. unfold slice, id.
      rewrite length_take. lia.
    + cbn. lia.
Qed.

(** The fields a scrape gives are never empty: the title and the price are
    a text without white space at either end, and the description has at
    most 500 characters. *)
Theorem scraped_text_fields `{page : Page} :
  (_get_title ≠ [] ∧ strip _get_title = _get_title) ∧
  (_get_price ≠ [] ∧ strip _get_price = _get_price) ∧
  (_get_description ≠ [] ∧ (length _get_description ≤ 500)%nat).
Proof. exact text_getters_nonempty. Qed.

(** ** The image addresses *)

Lemma fromkeys_from_spec (seen l : list str) :
  NoDup (fromkeys_from seen l) ∧
  (∀ x, x ∈ fromkeys_from seen l ↔ x ∈ l ∧ x ∉ seen) ∧
  fromkeys_from seen l `sublist_of` l.
Proof.
  revert seen. induction l as [|x l IH]; intros seen; cbn [fromkeys_from].
  - split_and!; [constructor | set_solver | done].
  - case_bool_decide as Hx.
    + destruct (IH seen) as (Hnd & Hin & Hsub). split_and!; [done | |].
      * intros y. rewrite Hin. set_solver.
      * by apply sublist_cons.
    + destruct (IH (x :: seen)) as (Hnd & Hin & Hsub). split_and!.
      * constructor; [|done]. rewrite Hin. set_solver.
      * intros y. rewrite elem_of_cons, Hin. split.
        -- intros [->|[Hy Hns]]; [set_solver|]. split; [set_solver|]. set_solver.
        -- intros [Hy Hns]. apply elem_of_cons in Hy as [->|Hy]; [by left|].
           destruct (decide (y = x)) as [->|Hne]; [by left|]. right. set_solver.
      * by apply sublist_skip.
Qed.

Section ImageFacts.
Context `{page : Page} `{lowering : Lowering}.

Lemma keep_src_accepted src :
  keep_src src = true → accepted_src (default [] src).
Proof.
  unfold keep_src, accepted_src. destruct src as [src|]; [|done]. cbn [default].
  unfold id. intros [[Hne Hhttp]%andb_true_iff Hlogo]%andb_true_iff. split_and!.
  - by destruct src.
  - by apply bool_decide_eq_true in Hhttp.
  - apply negb_true_iff in Hlogo. intros Hocc%str_in_occurs. congruence.
Qed.

Lemma collect_srcs_accepted images image_urls :
  Forall accepted_src image_urls →
  Forall accepted_src (collect_srcs images image_urls).1.
Proof.
  revert image_urls. induction images as [|img images IH]; intros urls Hurls; [done|].
  cbn [collect_srcs].
  match goal with
  | |- context [match ?m with Return _ => _ | Raise _ => _ end] =>
      destruct m as [src|]; [|done]
  end.
  apply IH. destruct (keep_src src) eqn:Hk; [|done].
  apply Forall_app. split; [done|]. apply Forall_singleton. by apply keep_src_accepted.
Qed.

Lemma scan_image_selectors_accepted selectors image_urls :
  Forall accepted_src image_urls →
  Forall accepted_src (scan_image_selectors selectors image_urls).
Proof.
  revert image_urls. induction selectors as [|sel selectors IH]; intros urls Hurls;
    [done|].
  cbn [scan_image_selectors].
  destruct (query_selector_all sel) as [images|]; [|by apply IH].
  pose proof (collect_srcs_accepted images urls Hurls) as Hc.
  destruct (collect_srcs images urls) as [urls' raised]. cbn [fst] in Hc.
  destruct raised; [by apply IH|].
  destruct (negb _); [done | by apply IH].
Qed.

(** The image addresses of a scrape: at most five, no address twice, each
    one a text that is not empty, starts with [http] and has no [logo] in
    its lower-cased form; they are the first distinct addresses collected,
    in the order of collection. *)
Theorem scraped_image_addresses :
  (length _get_images ≤ 5)%nat ∧
  NoDup _get_images ∧
  Forall accepted_src _get_images ∧
  _get_images `prefix_of` fromkeys (scan_image_selectors image_selectors []) ∧
  (∀ src, src ∈ scan_image_selectors image_selectors [] ↔
          src ∈ fromkeys (scan_image_selectors image_selectors [])).
Proof.
  unfold _get_images, fromkeys.
  destruct (fromkeys_from_spec [] (scan_image_selectors image_selectors []))
    as (Hnd & Hin & Hsub).
  split_and!.
  - rewrite length_take. lia.
  - eapply sublist_NoDup; [exact Hnd | apply sublist_take].
  - apply Forall_take. eapply Forall_forall. intros src Hsrc.
    apply Hin in Hsrc as [Hsrc _].
    pose proof (scan_image_selectors_accepted image_selectors [] (Forall_nil_2 _)) as Hall.
    rewrite Forall_forall in Hall. by apply Hall.
  - apply prefix_take.
  - intros src. rewrite Hin. set_solver.
Qed.

(** The outcome of [scrape_product]: it raises only when there is no page
    yet and the browser cannot be started; it gives [None] exactly when the
    navigation raises; and the record it gives has a title, a price and a
    description that are not empty, at most five images and the address it
    was asked for, so that a prompt is composed from its fields in either
    mode. *)
Theorem scrape_product_outcomes (has_page : bool) (url : str) :
  (has_page = true ∨ setup_browser = Return () →
   ∃ outcome, scrape_product has_page url = Return outcome ∧
              (outcome = None ↔ is_raise (navigate url) = true)) ∧
  (∀ e, has_page = false → setup_browser = Raise e →
        scrape_product has_page url = Raise e) ∧
  (∀ p, scrape_product has_page url = Return (Some p) →
        scraped_title p ≠ [] ∧ scraped_price p ≠ [] ∧ scraped_description p ≠ [] ∧
        (length (scraped_images p) ≤ 5)%nat ∧ scraped_url p = url ∧
        ∀ d s use_text_overlay,
          ∃ prompt, compose_prompt (scraped_fields p) d s use_text_overlay = Return prompt).
Proof.
  split_and!.
  - intros Hready. unfold scrape_product.
    assert ((if has_page then mret () else setup_browser) = Return ()) as ->.
    { destruct has_page; [done|]. by destruct Hready. }
    simpl. destruct (navigate url); simpl; eexists; (split; [reflexivity|]); done.
  - intros e -> He. unfold scrape_product. by rewrite He.
  - intros p Hp. unfold scrape_product in Hp.
    destruct (if has_page then mret () else setup_browser) as [[]|]; [|done].
    simpl in Hp. destruct (navigate url); [|done]. simpl in Hp.
    injection Hp as <-. cbn [scraped_title scraped_price scraped_description
                               scraped_images scraped_url].
    pose proof text_getters_nonempty as ((Ht & _) & (Hpr & _) & (Hd & _)).
    split_and!; [done | done | done | | done |].
    { unfold _get_images. rewrite length_take. lia. }
    intros d s [|].
    + pose proof (compose_prompt_clean_title
                    (scraped_fields {| scraped_title := _get_title;
                                       scraped_price := _get_price;
                                       scraped_description := _get_description;
                                       scraped_images := _get_images;
                                       scraped_url := url |}) d s) as Hc.
      unfold scraped_fields in Hc at 1. by rewrite lookup_insert_eq in Hc.
    + rewrite compose_prompt_baked. by eexists.
Qed.
End ImageFacts.


Lemma getter_takes_first_selector_witness :
  first_text (page := Shop.page) strip title_selectors = Some (lit "Silla de Oficina").
Proof.
  refine (proj1 (getter_takes_first_selector (page := Shop.page) strip
                   [lit "h1.ui-pdp-title"; testid "h1" "product-title" ""; lit ".ui-pdp-title"]
                   [lit ".item-title h1"; testid "" "product-title" ""]
                   (lit "h1") (lit "Silla de Oficina") _ _)).
  - repeat constructor.
  - reflexivity.
Defined.

Example shop_scrape :
  scrape_product (page := Shop.page) (lowering := Ascii.lowering) true (lit "https://articulo.mercadolibre.com.ar/MLA-1") =
  Return (Some {| scraped_title := lit "Silla de Oficina";
                  scraped_price := lit "45.999";
                  scraped_description := lit "Description not available";
                  scraped_images := [ lit "https://http2.mlstatic.com/D_1.webp";
                                      lit "https://http2.mlstatic.com/D_2.webp" ];
                  scraped_url := lit "https://articulo.mercadolibre.com.ar/MLA-1" |}).
Proof. vm_compute. reflexivity. Qed.

Example background_for_laptop :
  create_background_prompt (lowering := Ascii.lowering) (lit "Laptop Gamer para el Hogar") []
    fallback_palette =
  lit "Professional studio setup with #4a90e2 accent lighting and soft shadows".
Proof. vm_compute. reflexivity. Qed.

(** ** The reference images *)


Section ReferenceFacts.
Context `{analysis : Analysis} `{lowering : Lowering}.



Lemma describe_images_unreachable (urls : list str) (i : nat) :
  (∀ n url, url ∈ urls → download_image n url = None) →
  describe_images i urls [] = [].
Proof.
  revert i. induction urls as [|image_url urls IH]; intros i Hdown; [done|].
  cbn [describe_images]. unfold image_description.
  rewrite (Hdown i image_url) by apply list_elem_of_here.
  apply IH. intros n url Hin. apply Hdown. by apply list_elem_of_further.
Qed.

(** There is a background style exactly when there is a first reference
    image and its second download, made after the downloads of the loop,
    succeeds; what the picture shows and whether any image was described play
    no part. *)
Theorem reference_style_needs_download (product_data : ProductData)
    (combined_image_description : str) (urls : list str) :
  background_style_of product_data combined_image_description (reference_palette urls)
    ≠ [] ↔
  ∃ first rest image_bytes,
    urls = first :: rest ∧ download_image (length urls) first = Some image_bytes.
Proof.
  unfold reference_palette. destruct urls as [|first rest].
  - split; [done|]. by intros (? & ? & ? & ? & _).
  - destruct (download_image (length (first :: rest)) first) as [image_bytes|] eqn:Hd.
    + split; [by eexists _, _, _|]. intros _.
      apply create_background_prompt_nonempty.
    + split; [done|]. intros (f & r & b & Heq & Hd'). simplify_eq.
Qed.

(** When no address of the list downloads, the run is the run without
    reference images: the description and the style are empty, so the
    generic prompt of the mode is composed. *)
Theorem unreachable_references_run_generic (b64decode : str → Exc bytes)
    (backend : Backend) (product_data : ProductData) (ad_concept : str)
    (urls : list str) (use_text_overlay : bool) :
  (∀ n url, url ∈ urls → download_image n url = None) →
  generate_instagram_ad_from_urls b64decode backend product_data ad_concept urls
    use_text_overlay =
  run_ad b64decode backend product_data ad_concept [] [] use_text_overlay.
Proof.
  intros Hdown. unfold generate_instagram_ad_from_urls.
  rewrite describe_images_unreachable by done.
  assert (reference_palette urls = None) as ->; [|done].
  unfold reference_palette. destruct urls as [|first rest]; [done|].
  by rewrite Hdown by apply list_elem_of_here.
Qed.

Lemma rgb_to_hex_readable (r g b : Z) :
  channel r → channel g → channel b → readable (rgb_to_hex (r, g, b)).
Proof.
  intros Hr Hg Hb. split.
  - destruct (format_02x_channel r Hr) as (r1 & r2 & Er & _).
    destruct (format_02x_channel g Hg) as (g1 & g2 & Eg & _).
    destruct (format_02x_channel b Hb) as (b1 & b2 & Eb & _).
    unfold rgb_to_hex. by rewrite Er, Eg, Eb.
  - exists r, g, b. split; [by apply hex_to_rgb_to_hex|done].
Qed.

Lemma centre_colors_readable (centres : list (Float * Float * Float)) :
  Forall in_gamut centres →
  ∃ colors, centre_colors centres = Return colors ∧ Forall readable colors ∧
            length colors = length centres.
Proof.
  induction 1 as [|[[c0 c1] c2] centres (r & g & b & Hr & Hg & Hb & Cr & Cg & Cb) _ IH].
  - by exists [].
  - destruct IH as (colors & Hcolors & Hread & Hlen).
    exists (rgb_to_hex (r, g, b) :: colors).
    cbn [centre_colors centre_color]. rewrite Hr, Hg, Hb. cbn. rewrite Hcolors. cbn.
    split_and!; [done| |by rewrite Hlen].
    constructor; [by apply rgb_to_hex_readable|done].
Qed.

Lemma fixed_colors_readable :
  Forall readable DEFAULT_COLORS ∧ Forall readable FALLBACK_COLORS.
Proof.
  split; repeat constructor;
    eexists _, _, _; (split; [vm_compute; reflexivity|]); unfold channel; lia.
Qed.

(** With a library that keeps to 8-bit images (the pixels of an image
    are channels, and the centres of clusters of such pixels are taken by
    [int] into [0,255]), every colour [extract_dominant_colors] returns has
    seven characters and is read by [hex_to_rgb] as three channels, whatever
    the image and on every path; so the palette made of these colours has
    the first of them as its primary colour, unless there is none. *)
Theorem dominant_colors_are_readable (image_data : bytes) (num_colors : nat) :
  (∀ image pixels, pixel_rows image = Return pixels → Forall pixel pixels) →
  (∀ n pixels centres, Forall pixel pixels → kmeans n pixels = Return centres →
                       Forall in_gamut centres) →
  let colors := extract_dominant_colors image_data num_colors in
  Forall readable colors ∧
  (∀ main_color others, colors = main_color :: others →
     primary (generate_color_palette colors) = main_color).
Proof.
  intros Hpixels Hkmeans colors.
  assert (Forall readable colors) as Hall.
  { subst colors. unfold extract_dominant_colors.
    destruct fixed_colors_readable as [Hdefault Hfallback].
    destruct (Image_open image_data) as [image|]; cbn; [|done].
    destruct (resize image (150, 150)) as [image'|]; cbn; [|done].
    destruct (if mode_is_RGB image' then mret image' else convert "RGB" image')
      as [image''|]; cbn; [|done].
    destruct (pixel_rows image'') as [pixels|] eqn:Hrows; cbn; [|done].
    case_bool_decide; [done|].
    destruct (kmeans _ _) as [centres|] eqn:Hk; cbn; [|done].
    apply Hkmeans in Hk.
    - destruct (centre_colors_readable centres Hk) as (cs & -> & Hread & _). done.
    - apply Hpixels in Hrows. apply Forall_forall. intros p Hp.
      apply list_elem_of_filter in Hp as [_ Hp].
      by eapply Forall_forall in Hrows. }
  split; [done|]. intros main_color others Heq. rewrite Heq in *.
  apply Forall_cons in Hall as [(_ & r & g & b & Hrgb & _) _].
  unfold generate_color_palette. cbn [first_color].
  change (mbind ?f (Return main_color)) with (f main_color). cbv beta.
  by rewrite Hrgb.
Qed.

(** The palette of a buffer that is no image, and the palette of an
    image all of whose pixels are of the near-white background. The first is
    made of the colours of the [except] branch of the extraction and is not
    the fixed palette that [generate_color_palette] has for its own failures;
    the second is made of the default colours, and no clustering is asked
    for. *)
Theorem palette_of_unusable_image (image_data : bytes) (num_colors : nat) :
  let palette := generate_color_palette (extract_dominant_colors image_data num_colors) in
  (is_raise (Image_open image_data) = true → palette = blue_palette) ∧
  (∀ image image' image'' pixels,
     Image_open image_data = Return image →
     resize image (150, 150) = Return image' →
     (if mode_is_RGB image' then mret image' else convert "RGB" image') = Return image'' →
     pixel_rows image'' = Return pixels →
     forallb near_white pixels = true →
     palette = grey_palette) ∧
  blue_palette ≠ fallback_palette.
Proof.
  intros palette. subst palette. unfold extract_dominant_colors. split_and!.
  - destruct (Image_open image_data); [done|]. intros _. vm_compute. reflexivity.
  - intros image image' image'' pixels -> Hresize Hmode Hrows Hwhite. cbn.
    rewrite Hresize. cbn. rewrite Hmode. cbn. rewrite Hrows. cbn.
    assert (filter (λ p, near_white p = false) pixels = []) as ->.
    { clear Hrows. induction pixels as [|p pixels IH]; [done|].
      cbn in Hwhite. apply andb_true_iff in Hwhite as [Hp Hwhite].
      rewrite filter_cons_False by (cbn; congruence). by apply IH. }
    vm_compute. reflexivity.
  - discriminate.
Qed.
End ReferenceFacts.

Lemma Studio_rows_pixels (image : Studio.Pixels) (pixels : list rgb) :
  Studio.rows image = Return pixels → Forall pixel pixels.
Proof.
  intros [= <-]. apply Forall_fmap, Forall_forall. intros [[r g] b] _.
  assert (∀ x, channel (Studio.value x)) as Hvalue.
  { intros x. unfold channel, Studio.value.
    pose proof (Byte.to_N_bounded x). lia. }
  cbn. by split_and!.
Qed.

Lemma Studio_cluster_in_gamut (n : nat) (pixels : list rgb)
    (centres : list (Q * Q * Q)) :
  Forall pixel pixels → Studio.cluster n pixels = Return centres →
  Forall (in_gamut (analysis := Studio.analysis)) centres.
Proof.
  intros Hpixels [= <-]. apply Forall_fmap, Forall_take.
  eapply Forall_impl; [exact Hpixels|]. intros [[r g] b] (Hr & Hg & Hb).
  assert (∀ c, channel c → Z.quot (2 * c + 1) 2 = c) as Hquot.
  { intros c [Hlo Hhi]. rewrite Z.quot_div_nonneg by lia.
    symmetry. apply (Z.div_unique _ _ _ 1); lia. }
  exists r, g, b. cbn. unfold Studio.truncate. cbn.
  rewrite !Hquot by done. by split_and!.
Qed.

Lemma unreachable_references_run_generic_witness :
  generate_instagram_ad_from_urls (analysis := Studio.analysis)
    (lowering := Ascii.lowering) Host.b64decode Host.down silla []
    [lit "ftp://fotos/silla.jpg"] true =
  run_ad (lib := Studio.pil) Host.b64decode Host.down silla [] [] [] true.
Proof.
  apply (unreachable_references_run_generic (analysis := Studio.analysis)
           (lowering := Ascii.lowering)).
  intros n url Hin. apply list_elem_of_singleton in Hin as ->. reflexivity.
Defined.

Lemma dominant_colors_are_readable_witness :
  Forall readable
    (extract_dominant_colors (analysis := Studio.analysis) Studio.picture 5).
Proof.
  refine (proj1 (dominant_colors_are_readable (analysis := Studio.analysis)
                   Studio.picture 5 _ _)).
  - exact Studio_rows_pixels.
  - exact Studio_cluster_in_gamut.
Defined.

Example studio_colors :
  extract_dominant_colors (analysis := Studio.analysis) Studio.picture 2 =
    [lit "#1e1e1e"; lit "#c80a0a"] ∧
  extract_dominant_colors (analysis := Studio.analysis) Studio.white 5 = DEFAULT_COLORS ∧
  extract_dominant_colors (analysis := Studio.analysis) [] 5 = FALLBACK_COLORS.
Proof. vm_compute. done. Qed.

Example studio_descriptions :
  describe_images (analysis := Studio.analysis) 0
    [lit "https://fotos/1.jpg"; lit "https://fotos/2.jpg"; lit "ftp://fotos/3.jpg";
     lit "https://fotos/4.jpg"] [] =
  lit "Silla negra con ruedas" ++ ADEMAS ++ lit "respaldo alto".
Proof. vm_compute. reflexivity. Qed.


(** ** The advertising concept *)

Lemma occurs_app_l (x s t : str) : occurs x s → occurs x (s ++ t).
Proof.
  intros (pre & post & ->). exists pre, (post ++ t). by rewrite <- !(assoc_L (++)).
Qed.

Lemma occurs_app_r (x s t : str) : occurs x t → occurs x (s ++ t).
Proof.
  intros (pre & post & ->). exists (s ++ pre), post. by rewrite <- !(assoc_L (++)).
Qed.

Lemma occurs_concat (x l : str) (ls : list str) :
  l ∈ ls → occurs x l → occurs x (concat ls).
Proof.
  induction 1 as [l ls|l l' ls _ IH]; intros Hx; cbn [concat].
  - by apply occurs_app_l.
  - by apply occurs_app_r, IH.
Qed.

(** A line of a block occurs in it with its newline. *)
Lemma block_line (ind l : str) (lines : list str) :
  l ∈ lines → occurs (l ++ nl) (block ind lines).
Proof.
  intros Hl. unfold block. apply occurs_app_r, occurs_app_l.
  apply (occurs_concat _ (ind ++ l ++ nl)).
  - apply list_elem_of_fmap. by exists l.
  - by apply occurs_app_r, (ex_intro _ []), (ex_intro _ []), eq_sym, app_nil_r.
Qed.

Lemma occurs_drop_prefix (a b s : str) : occurs (a ++ b) s → occurs b s.
Proof.
  intros (pre & post & ->). exists (pre ++ a), post. by rewrite <- !(assoc_L (++)).
Qed.

Ltac concept_line :=
  apply occurs_app_l, (occurs_drop_prefix ind8);
  match goal with
  | |- occurs (ind8 ++ ?x ++ ?y ++ nl) _ =>
      replace (ind8 ++ x ++ y ++ nl) with ((ind8 ++ x ++ y) ++ nl)
        by (by rewrite <- !(assoc_L (++)))
  end;
  apply block_line; repeat first [apply list_elem_of_here | apply list_elem_of_further].

(** The prompt of the concept holds the title, the price and the description
    of the product, each to the end of a line of its own, and the price a
    second time in the instructions. *)
Theorem concept_prompt_holds_product (title price description : str) :
  let prompt := concept_prompt title price description in
  occurs (u8 "Título del producto: " ++ title ++ nl) prompt ∧
  occurs (lit "Precio exacto: " ++ price ++ nl) prompt ∧
  occurs (u8 "Descripción: " ++ description ++ nl) prompt ∧
  occurs (lit "- Usa EXACTAMENTE el precio proporcionado: " ++ price ++ nl) prompt.
Proof.
  intros prompt. subst prompt. unfold concept_prompt. split_and!.
  - concept_line.
  - concept_line.
  - concept_line.
  - concept_line.
Qed.

Section ConceptFacts.
Context `{lowering : Lowering} `{messages : Messages}.
Variable concept_backend : ConceptBackend.

Lemma analyze_product_info_fields (product_data : ProductData)
    (title price description : str) :
  product_data !! "title" = Some title →
  product_data !! "price" = Some price →
  product_data !! "description" = Some description →
  analyze_product_info concept_backend product_data =
  Return match concept_backend (concept_request (concept_prompt title price description)) with
         | Return (Some text) => text
         | Return None => concept_of_error NONE_NOT_SUBSCRIPTABLE
         | Raise e => concept_of_error (exn_str e)
         end.
Proof.
  intros Ht Hp Hd. unfold analyze_product_info, getitem. rewrite Ht, Hp, Hd.
  repeat (change (mbind ?f (Return ?a)) with (f a); cbv beta).
  by destruct (concept_backend _) as [[text|]|e].
Qed.

Lemma analyze_product_info_returns (product_data : ProductData) (ad_concept : str) :
  analyze_product_info concept_backend product_data = Return ad_concept →
  ∃ title price description,
    product_data !! "title" = Some title ∧ product_data !! "price" = Some price ∧
    product_data !! "description" = Some description.
Proof.
  unfold analyze_product_info, getitem.
  destruct (product_data !! "title") as [title|]; [|done].
  destruct (product_data !! "price") as [price|]; [|done].
  destruct (product_data !! "description") as [description|]; [|done].
  intros _. by exists title, price, description.
Qed.

Lemma analyze_product_info_raises (product_data : ProductData) (e : exn) :
  analyze_product_info concept_backend product_data = Raise e →
  ∃ key, key ∈ ["title"; "price"; "description"] ∧ product_data !! key = None ∧
         e = KeyError key.
Proof.
  unfold analyze_product_info, getitem.
  destruct (product_data !! "title") as [title|] eqn:Ht.
  2:{ intros [= <-]. exists "title". split; [set_solver|done]. }
  destruct (product_data !! "price") as [price|] eqn:Hp.
  2:{ intros [= <-]. exists "price". split; [set_solver|done]. }
  destruct (product_data !! "description") as [description|] eqn:Hd.
  2:{ intros [= <-]. exists "description". split; [set_solver|done]. }
  repeat (change (mbind ?f (Return ?a)) with (f a); cbv beta).
  by destruct (concept_backend _) as [[text|]|e'].
Qed.

Lemma concept_of_error_sentinel (message : str) :
  concept_of_error message = MODEL_OVERLOADED_ERROR ∨
  concept_of_error message = ERROR_CREATING_AD_CONCEPT.
Proof. unfold concept_of_error. destruct (_ || _); [by left | by right]. Qed.

(** The outcomes of [analyze_product_info]. On a record without title, price
    or description it raises the [KeyError] of the first of them that is
    missing, in this order, whatever the text model would do. On a record
    with the three fields it never raises: it sends the prompt made of them
    to the text model and returns the text of the answer as it is, and when
    the call raises or the answer has no text it returns one of its two
    fixed values. *)
Theorem concept_outcomes (product_data : ProductData) :
  let outcome := analyze_product_info concept_backend product_data in
  match product_data !! "title", product_data !! "price",
        product_data !! "description" with
  | None, _, _ => outcome = Raise (KeyError "title")
  | Some _, None, _ => outcome = Raise (KeyError "price")
  | Some _, Some _, None => outcome = Raise (KeyError "description")
  | Some title, Some price, Some description =>
      let answer :=
        concept_backend (concept_request (concept_prompt title price description)) in
      ∃ ad_concept, outcome = Return ad_concept ∧
        match answer with
        | Return (Some text) => ad_concept = text
        | _ => ad_concept = MODEL_OVERLOADED_ERROR ∨
               ad_concept = ERROR_CREATING_AD_CONCEPT
        end
  end.
Proof.
  intros outcome. subst outcome.
  destruct (product_data !! "title") as [title|] eqn:Ht;
    [|by unfold analyze_product_info, getitem; rewrite Ht].
  destruct (product_data !! "price") as [price|] eqn:Hp;
    [|by unfold analyze_product_info, getitem; rewrite Ht, Hp].
  destruct (product_data !! "description") as [description|] eqn:Hd;
    [|by unfold analyze_product_info, getitem; rewrite Ht, Hp, Hd].
  intros answer. subst answer.
  rewrite (analyze_product_info_fields _ _ _ _ Ht Hp Hd).
  eexists. split; [reflexivity|].
  destruct (concept_backend _) as [[text|]|e]; [done|..];
    apply concept_of_error_sentinel.
Qed.

(** When the call of the text model raises, the value returned is read off
    the lower-cased text of the exception: the overload value exactly when
    [503], [overload] or [unavailable] occurs in it, and the error value
    otherwise. *)
Theorem overload_is_recognised (product_data : ProductData)
    (title price description : str) (e : exn) :
  product_data !! "title" = Some title →
  product_data !! "price" = Some price →
  product_data !! "description" = Some description →
  concept_backend (concept_request (concept_prompt title price description)) = Raise e →
  let err_str := lower (exn_str e) in
  let overloaded :=
    occurs (lit "503") err_str ∨ occurs (lit "overload") err_str ∨
    occurs (lit "unavailable") err_str in
  (overloaded →
   analyze_product_info concept_backend product_data = Return MODEL_OVERLOADED_ERROR) ∧
  (¬ overloaded →
   analyze_product_info concept_backend product_data = Return ERROR_CREATING_AD_CONCEPT).
Proof.
  intros Ht Hp Hd He err_str overloaded.
  rewrite (analyze_product_info_fields _ _ _ _ Ht Hp Hd), He.
  unfold concept_of_error. fold err_str.
  assert (str_in (lit "503") err_str || str_in (lit "overload") err_str
          || str_in (lit "unavailable") err_str = true ↔ overloaded) as Hiff.
  { subst overloaded. rewrite !orb_true_iff, !str_in_occurs. tauto. }
  split.
  - intros Ho. apply Hiff in Ho. by rewrite Ho.
  - intros Ho. destruct (_ || _); [|done]. destruct Ho. by apply Hiff.
Qed.
End ConceptFacts.

Lemma overload_is_recognised_witness :
  analyze_product_info (lowering := Ascii.lowering) (messages := Desk.messages)
    Desk.writer Desk.agotado = Return MODEL_OVERLOADED_ERROR.
Proof.
  refine (proj1 (overload_is_recognised (lowering := Ascii.lowering)
                   (messages := Desk.messages) Desk.writer Desk.agotado
                   (lit "Agotado") (lit "45.999") (lit "Silla con ruedas y respaldo alto")
                   (BackendError (lit "503 UNAVAILABLE. The model is overloaded."))
                   _ _ _ _) _).
  - vm_compute. reflexivity.
  - vm_compute. reflexivity.
  - vm_compute. reflexivity.
  - vm_compute. reflexivity.
  - left. apply str_in_occurs. vm_compute. reflexivity.
Defined.

(** ** The endpoint [/generate-ad] *)

Lemma run_ad_returns `{lib : PIL} (b64decode : str → Exc bytes) (backend : Backend)
    (product_data : ProductData) (ad_concept d s : str) (use_text_overlay : bool) :
  use_text_overlay = false ∨ is_Some (product_data !! "title") →
  ∃ result,
    (run_ad b64decode backend product_data ad_concept d s use_text_overlay).1 =
    Return result.
Proof.
  intros Hok.
  assert (∃ prompt, compose_prompt product_data d s use_text_overlay = Return prompt)
    as [prompt Hp].
  { destruct use_text_overlay.
    - destruct Hok as [?|[t Ht]]; [done|].
      pose proof (compose_prompt_clean_title product_data d s) as Hc.
      by rewrite Ht in Hc.
    - rewrite compose_prompt_baked. by eexists. }
  destruct use_text_overlay.
  - rewrite (run_clean _ _ _ _ _ _ _ Hp). cbv zeta.
    destruct (backend [] _); [|destruct (backend [_] _)]; simpl; by eexists.
  - rewrite (run_baked _ _ _ _ _ _ _ Hp). cbv zeta.
    destruct (backend [] _); [|destruct (backend [_] _)]; simpl; by eexists.
Qed.

Lemma sentinels_apart :
  str_in ERROR_CREATING_AD_CONCEPT MODEL_OVERLOADED_ERROR = false ∧
  ERROR_CREATING_AD_CONCEPT ≠ MODEL_OVERLOADED_ERROR ∧
  str_in ERROR_CREATING_AD_CONCEPT ERROR_CREATING_AD_CONCEPT = true.
Proof. split_and!; [vm_compute; reflexivity | discriminate | vm_compute; reflexivity]. Qed.

Section EndpointFacts.
Context `{analysis : Analysis} `{lowering : Lowering} `{messages : Messages}
  `{server : Server}.
Variable b64decode : str → Exc bytes.
Variable backend : Backend.
Variable concept_backend : ConceptBackend.

Local Abbreviation endpoint := (generate_ad b64decode backend concept_backend).
Local Abbreviation concept_of product :=
  (analyze_product_info concept_backend (fields product)).
Local Abbreviation selected_of data := (default [] (payload_selected_images data)).
Local Abbreviation mode_of data := (default true (payload_use_text_overlay data)).
Local Abbreviation run_of data product ad_concept :=
  (generate_instagram_ad_from_urls b64decode backend (fields product) ad_concept
     (primary_image_urls_of product (selected_of data)) (mode_of data)).1.

Lemma concept_makes_product_truthy (product : Product) (ad_concept : str) :
  concept_of product = Return ad_concept → product_truthy product = true.
Proof.
  intros (title & _ & _ & Ht & _)%analyze_product_info_returns.
  unfold product_truthy. case_bool_decide as Hempty; [|done].
  rewrite Hempty in Ht. by rewrite lookup_empty in Ht.
Qed.

(** The endpoint once the product is there and has been analysed. *)
Lemma endpoint_after_concept (data : Payload) (product : Product) (ad_concept : str) :
  payload_product_data data = Some product →
  concept_of product = Return ad_concept →
  endpoint data =
  if bool_decide (ad_concept = MODEL_OVERLOADED_ERROR)
  then ErrorReply 503 OVERLOADED_MESSAGE
  else if str_in ERROR_CREATING_AD_CONCEPT ad_concept
  then ErrorReply 500 (lit "Failed to analyze product for ad concept")
  else
    match run_of data product ad_concept with
    | Return (ResultPair (Some (byte :: rest)) used_fallback) =>
        match save_ad ad_concept (byte :: rest) used_fallback (selected_of data)
                (mode_of data) with
        | Return reply => reply
        | Raise e => ErrorReply 500 (exn_str e)
        end
    | Return _ => ErrorReply 500 (lit "Failed to generate Instagram ad image")
    | Raise e => ErrorReply 500 (exn_str e)
    end.
Proof.
  intros Hp Hc. unfold generate_ad, generate_ad_try.
  rewrite Hp, (concept_makes_product_truthy _ _ Hc). cbn [negb]. rewrite Hc.
  change (mbind ?f (Return ad_concept)) with (f ad_concept). cbv beta.
  case_bool_decide; [done|].
  destruct (str_in ERROR_CREATING_AD_CONCEPT ad_concept); [done|].
  destruct (generate_instagram_ad_from_urls _ _ _ _ _ _).1
    as [[|[[|byte rest]|] used_fallback]|e]; done.
Qed.

Lemma run_of_returns (data : Payload) (product : Product) (ad_concept : str) :
  concept_of product = Return ad_concept →
  ∃ ad_result, run_of data product ad_concept = Return ad_result.
Proof.
  intros (title & _ & _ & Ht & _)%analyze_product_info_returns.
  unfold generate_instagram_ad_from_urls. apply run_ad_returns. right. by exists title.
Qed.

Lemma save_ad_reply (ad_concept : str) (image : bytes) (used_fallback : bool)
    (selected_images : list str) (use_text_overlay : bool) :
  let filename := lit "instagram_ad_" ++ str_of_int now ++ lit ".jpg" in
  save_ad ad_concept image used_fallback selected_images use_text_overlay =
  match write_file (OUTPUT_FOLDER ++ lit "/" ++ filename) image with
  | Return _ => Return (AdReply ad_concept filename (lit "/download/" ++ filename)
                          (length selected_images) use_text_overlay used_fallback)
  | Raise e => Raise e
  end.
Proof. unfold save_ad. cbv zeta. by destruct (write_file _ _) as [[]|]. Qed.

(** The statuses of the endpoint. The answer has status 200, 400, 500 or
    503. It is 400, and asks for product data, exactly when the record of
    the product is absent or empty. It is 503 exactly when the analysis of
    the product returns the overload value; neither of these two answers
    depends on the image model. *)
Theorem generate_ad_statuses (data : Payload) :
  let reply := endpoint data in
  let usable :=
    match payload_product_data data with
    | Some product => product_truthy product
    | None => false
    end in
  status_of reply ∈ [200; 400; 500; 503] ∧
  (usable = false → reply = ErrorReply 400 (lit "Product data is required")) ∧
  (status_of reply = 400 → usable = false) ∧
  (status_of reply = 503 ↔
   ∃ product, payload_product_data data = Some product ∧
              concept_of product = Return MODEL_OVERLOADED_ERROR) ∧
  (status_of reply = 503 → reply = ErrorReply 503 OVERLOADED_MESSAGE).
Proof.
  intros reply usable. subst reply usable.
  destruct (payload_product_data data) as [product|] eqn:Hp; cycle 1.
  { unfold generate_ad, generate_ad_try. rewrite Hp. cbn.
    split_and!; [set_solver | done | done | | done].
    split; [done|]. by intros (? & ? & _). }
  destruct (product_truthy product) eqn:Htruthy; cycle 1.
  { unfold generate_ad, generate_ad_try. rewrite Hp, Htruthy. cbn.
    split_and!; [set_solver | done | done | | done].
    split; [done|]. intros (? & [= <-] & Hc).
    apply concept_makes_product_truthy in Hc. congruence. }
  destruct (concept_of product) as [ad_concept|e] eqn:Hc; cycle 1.
  { unfold generate_ad, generate_ad_try. rewrite Hp, Htruthy. cbn [negb]. rewrite Hc.
    cbn. split_and!; [set_solver | done | done | | done].
    split; [done|]. intros (? & [= <-] & Hc'). congruence. }
  rewrite (endpoint_after_concept _ _ _ Hp Hc).
  case_bool_decide as Hover.
  { cbn. split_and!; [set_solver | done | done | | done].
    split; [|done]. intros _. exists product. split; [done|]. by rewrite Hc, Hover. }
  assert (∀ reply, (status_of reply = 200 ∨ status_of reply = 500) →
            status_of reply ∈ [200; 400; 500; 503] ∧
            (true = false → reply = ErrorReply 400 (lit "Product data is required")) ∧
            (status_of reply = 400 → true = false) ∧
            (status_of reply = 503 ↔
             ∃ product0, Some product = Some product0 ∧
                         concept_of product0 = Return MODEL_OVERLOADED_ERROR) ∧
            (status_of reply = 503 → reply = ErrorReply 503 OVERLOADED_MESSAGE)) as Hrest.
  { intros reply Hs. split_and!.
    - destruct Hs as [-> | ->]; set_solver.
    - done.
    - destruct Hs as [Hs|Hs]; rewrite Hs; done.
    - split.
      + destruct Hs as [Hs|Hs]; rewrite Hs; done.
      + intros (? & [= <-] & Hc'). rewrite Hc in Hc'. by simplify_eq.
    - destruct Hs as [Hs|Hs]; rewrite Hs; done. }
  apply Hrest.
  destruct (str_in ERROR_CREATING_AD_CONCEPT ad_concept); [by right|].
  destruct (generate_instagram_ad_from_urls _ _ _ _ _ _).1
    as [[|[[|byte rest]|] used_fallback]|e]; try (by right).
  rewrite save_ad_reply. cbv zeta. destruct (write_file _ _); [by left | by right].
Qed.

(** The advertisement answered. The endpoint answers with the record of an
    advertisement exactly when the analysis of the product returned a concept
    that is not the overload value and does not hold the error text, the run
    on the reference images (the selected ones, or else the first image of
    the product) returned an image that is not empty, and the file could be
    written. The record then holds that concept, the name made of the time
    of the clock, the number of selected images (which is 0 when the image
    of the product was taken), the mode asked for and the flag of the run,
    and the file written is that image. *)
Theorem generate_ad_success (data : Payload) (ad_concept image_filename
    download_url : str) (selected_images_count : nat)
    (text_overlay_used fallback_used : bool) :
  endpoint data =
    AdReply ad_concept image_filename download_url selected_images_count
      text_overlay_used fallback_used ↔
  ∃ product image,
    payload_product_data data = Some product ∧
    concept_of product = Return ad_concept ∧
    ad_concept ≠ MODEL_OVERLOADED_ERROR ∧
    ¬ occurs ERROR_CREATING_AD_CONCEPT ad_concept ∧
    run_of data product ad_concept = Return (ResultPair (Some image) fallback_used) ∧
    image ≠ [] ∧
    image_filename = lit "instagram_ad_" ++ str_of_int now ++ lit ".jpg" ∧
    write_file (OUTPUT_FOLDER ++ lit "/" ++ image_filename) image = Return () ∧
    download_url = lit "/download/" ++ image_filename ∧
    selected_images_count = length (selected_of data) ∧
    text_overlay_used = mode_of data.
Proof.
  split.
  - intros Hreply.
    destruct (payload_product_data data) as [product|] eqn:Hp; cycle 1.
    { unfold generate_ad, generate_ad_try in Hreply. by rewrite Hp in Hreply. }
    destruct (concept_of product) as [c|e] eqn:Hc; cycle 1.
    { unfold generate_ad, generate_ad_try in Hreply. rewrite Hp in Hreply.
      destruct (product_truthy product); [|done]. cbn [negb] in Hreply.
      by rewrite Hc in Hreply. }
    rewrite (endpoint_after_concept _ _ _ Hp Hc) in Hreply.
    case_bool_decide as Hover; [done|].
    destruct (str_in ERROR_CREATING_AD_CONCEPT c) eqn:Herr; [done|].
    destruct (generate_instagram_ad_from_urls _ _ _ _ _ _).1
      as [[|[[|byte rest]|] used_fallback]|e] eqn:Hrun; try done.
    rewrite save_ad_reply in Hreply. cbv zeta in Hreply.
    destruct (write_file _ _) as [[]|] eqn:Hw; [|done]. simplify_eq.
    exists product, (byte :: rest). split_and!; try done.
    intros Ho%str_in_occurs. congruence.
  - intros (product & image & Hp & Hc & Hover & Herr & Hrun & Himage & -> & Hw & ->
            & -> & ->).
    rewrite (endpoint_after_concept _ _ _ Hp Hc).
    rewrite bool_decide_eq_false_2 by done.
    destruct (str_in ERROR_CREATING_AD_CONCEPT ad_concept) eqn:Hin.
    { destruct Herr. by apply str_in_occurs. }
    rewrite Hrun. destruct image as [|byte rest]; [done|].
    rewrite save_ad_reply. cbv zeta. by rewrite Hw.
Qed.

(** An advertisement that could not be made. When the run gives no image, in
    either of the shapes it has for that (the bare [None] of its checks, or
    a pair whose image is [None] or empty), the answer is the same error 500;
    and the run never raises here, since the analysis has already read the
    title: an error that carries the text of an exception comes from a
    product without title, price or description, or from the file that could
    not be written. *)
Theorem generate_ad_failures (data : Payload) (product : Product) :
  payload_product_data data = Some product →
  product_truthy product = true →
  (∀ ad_concept ad_result,
     concept_of product = Return ad_concept →
     ad_concept ≠ MODEL_OVERLOADED_ERROR →
     ¬ occurs ERROR_CREATING_AD_CONCEPT ad_concept →
     run_of data product ad_concept = Return ad_result →
     (ad_result = ResultNone ∨ (∃ flag, ad_result = ResultPair None flag) ∨
      (∃ flag, ad_result = ResultPair (Some []) flag)) →
     endpoint data = ErrorReply 500 (lit "Failed to generate Instagram ad image")) ∧
  (∀ e, generate_ad_try b64decode backend concept_backend data = Raise e →
        (∃ key, key ∈ ["title"; "price"; "description"] ∧
                fields product !! key = None ∧ e = KeyError key) ∨
        (∃ path image, write_file path image = Raise e)).
Proof.
  intros Hp Htruthy. split.
  - intros ad_concept ad_result Hc Hover Herr Hrun Hshape.
    rewrite (endpoint_after_concept _ _ _ Hp Hc).
    rewrite bool_decide_eq_false_2 by done.
    destruct (str_in ERROR_CREATING_AD_CONCEPT ad_concept) eqn:Hin.
    { destruct Herr. by apply str_in_occurs. }
    rewrite Hrun. by destruct Hshape as [->|[[flag ->]|[flag ->]]].
  - intros e. unfold generate_ad_try. rewrite Hp, Htruthy. cbn [negb].
    destruct (concept_of product) as [ad_concept|e'] eqn:Hc.
    + change (mbind ?f (Return ad_concept)) with (f ad_concept). cbv beta.
      case_bool_decide; [done|].
      destruct (str_in ERROR_CREATING_AD_CONCEPT ad_concept); [done|].
      destruct (run_of_returns data product ad_concept Hc) as [ad_result Hrun].
      rewrite Hrun.
      change (mbind ?f (Return ad_result)) with (f ad_result). cbv beta.
      destruct ad_result as [|[[|byte rest]|] used_fallback]; try done.
      rewrite save_ad_reply. cbv zeta.
      destruct (write_file _ _) as [[]|e''] eqn:Hw; [done|].
      intros [= <-]. right. by eexists _, _.
    + intros Heq. cbn in Heq. injection Heq as <-. left.
      by apply (analyze_product_info_raises concept_backend).
Qed.
End EndpointFacts.

Lemma generate_ad_failures_witness :
  generate_ad (analysis := Studio.analysis) (lowering := Ascii.lowering)
    (messages := Desk.messages) (server := Desk.server)
    Host.b64decode Host.down Desk.writer Desk.request =
  ErrorReply 500 (lit "Failed to generate Instagram ad image").
Proof.
  refine (proj1 (generate_ad_failures (analysis := Studio.analysis)
                   (lowering := Ascii.lowering) (messages := Desk.messages)
                   (server := Desk.server) Host.b64decode Host.down Desk.writer
                   Desk.request Desk.chair eq_refl _)
            Desk.concept (ResultPair None false) _ _ _ _ _).
  - vm_compute. reflexivity.
  - vm_compute. reflexivity.
  - discriminate.
  - intros Ho%str_in_occurs. vm_compute in Ho. discriminate.
  - vm_compute. reflexivity.
  - right. left. by exists false.
Defined.

Example desk_advertisement :
  generate_ad (analysis := Studio.analysis) (lowering := Ascii.lowering)
    (messages := Desk.messages) (server := Desk.server)
    Host.b64decode (Host.answering [Host.image_part [Byte.x01]]) Desk.writer
    Desk.request =
  AdReply Desk.concept (lit "instagram_ad_1700000000.jpg")
    (lit "/download/instagram_ad_1700000000.jpg") 0 true false.
Proof. vm_compute. reflexivity. Qed.

Example desk_overloaded :
  generate_ad (analysis := Studio.analysis) (lowering := Ascii.lowering)
    (messages := Desk.messages) (server := Desk.server)
    Host.b64decode Host.down Desk.writer
    {| payload_product_data := Some {| fields := Desk.agotado; images := None |};
       payload_selected_images := Some [lit "https://fotos/1.jpg"];
       payload_use_text_overlay := Some false |} =
  ErrorReply 503 OVERLOADED_MESSAGE.
Proof. vm_compute. reflexivity. Qed.
